(** * llm-infer-oni: the perceive-decide-act pipeline

  A shallow embedding of the orchestration core of the repository:

  - [core/input_controller.py]  ([InputController.validate]),
  - [core/llm_decision.py]      ([LLMDecision._parse_response], [set_prompt]),
  - [base/middleware.py]        ([MiddlewareManager], six phases),
  - [middlewares/throttling.py] and [middlewares/state_tracking.py],
  - [core/ui_agent.py]          ([UIAgent.setup], [run], [step],
                                 [_auto_select_prompt], [should_stop]).

  Further parts of the same files are embedded after these: the
  statistics of the state-tracking middleware, the execution of an
  action by the input controller, and what a whole run leaves behind;
  and, of the code these call, [middlewares/logging_mw.py],
  [utils/prompt_manager.py], [LLMDecision.decide],
  [core/screen_capture.py] and the stop test of
  [middlewares/screenshot_logger.py].

  Python values are the JSON values the decision backend can produce;
  dictionaries are association lists in insertion order. *)

From Stdlib Require Import String Ascii List ZArith Lia Bool QArith.
Import ListNotations.
Open Scope string_scope.
Open Scope Z_scope.
Open Scope list_scope.

Set Warnings "-register-all".

(** ** Python values *)

Inductive value : Type :=
| VNone
| VBool (b : bool)
| VNum (n : Z)
| VStr (s : string)
| VList (l : list value)
| VDict (d : list (string * value)).

Definition dict := list (string * value).

Module Py.

(** [k in d] and [d[k]] *)
Fixpoint lookup (k : string) (d : dict) : option value :=
  match d with
  | [] => None
  | (k', v) :: d' => if String.eqb k k' then Some v else lookup k d'
  end.

Definition has_key (k : string) (d : dict) : bool :=
  match lookup k d with Some _ => true | None => false end.

(** [d.get(k, dflt)]; [d.get(k)] is [get k VNone d]. *)
Definition get (k : string) (dflt : value) (d : dict) : value :=
  match lookup k d with Some v => v | None => dflt end.

(** [d[k] = v]: overwrite in place, or insert at the end. *)
Fixpoint set (k : string) (v : value) (d : dict) : dict :=
  match d with
  | [] => [(k, v)]
  | (k', v') :: d' =>
      if String.eqb k k' then (k', v) :: d' else (k', v') :: set k v d'
  end.

(** [del d[k]] (for a key that is present). *)
Fixpoint del (k : string) (d : dict) : dict :=
  match d with
  | [] => []
  | (k', v') :: d' =>
      if String.eqb k k' then del k d' else (k', v') :: del k d'
  end.

(** Truth value of an object, as tested by [if x] and [not x]. *)
Definition truthy (v : value) : bool :=
  match v with
  | VNone => false
  | VBool b => b
  | VNum n => negb (n =? 0)
  | VStr s => negb (String.eqb s "")
  | VList l => match l with [] => false | _ => true end
  | VDict d => match d with [] => false | _ => true end
  end.

Definition is_none (v : value) : bool :=
  match v with VNone => true | _ => false end.

Definition is_dict (v : value) : bool :=
  match v with VDict _ => true | _ => false end.

Definition is_list (v : value) : bool :=
  match v with VList _ => true | _ => false end.

(** [v == "s"] for a string literal. *)
Definition eq_str (v : value) (s : string) : bool :=
  match v with VStr s' => String.eqb s' s | _ => false end.

(** Lists and dicts cannot be dictionary keys. *)
Definition hashable (v : value) : bool :=
  match v with VList _ | VDict _ => false | _ => true end.

(** [l[-n:]] for [n > 0]: the last [n] elements. *)
Definition last_n {A} (n : nat) (l : list A) : list A :=
  skipn (length l - n) l.

(** [l[-m:]] for an integer [m]: the slice starts at [len(l) - m] when
    [m > 0] (clamped to 0), at index [0] when [m = 0] -- the slice [l[-0:]]
    is [l[0:]] -- and at index [-m] when [m < 0]. *)
Definition slice_from_neg {A} (m : Z) (l : list A) : list A :=
  if 0 <? m then last_n (Z.to_nat m) l
  else skipn (Z.to_nat (- m)) l.

End Py.

(** ** core/input_controller.py *)

Module InputController.

(** [InputController.validate(action)] *)
Definition validate (action : value) : bool :=
  match action with
  | VDict a =>
      let action_type := Py.get "type" VNone a in
      if negb (Py.truthy action_type) then false
      else if Py.eq_str action_type "move" then
        if negb (Py.has_key "x" a) || negb (Py.has_key "y" a)
        then false else true
      else if Py.eq_str action_type "click" then
        if negb (Py.is_none (Py.get "x" VNone a))
           && negb (Py.is_none (Py.get "y" VNone a)) then true
        else if Py.is_none (Py.get "x" VNone a)
                && Py.is_none (Py.get "y" VNone a) then true
        else false
      else if Py.eq_str action_type "type" then
        if negb (Py.has_key "text" a) then false else true
      else if Py.eq_str action_type "key" then
        if negb (Py.has_key "keys" a) then false else true
      else if Py.eq_str action_type "scroll" then
        if negb (Py.has_key "direction" a)
           && (negb (Py.has_key "x" a) || negb (Py.has_key "y" a))
        then false else true
      else if Py.eq_str action_type "stop" then true
      else false
  | _ => false
  end.

(** The per-variant rules in the words of the specification:
    [move] needs numeric [x] and [y]; [click] needs both coordinates
    present or neither; [type] needs [text] present; [key] needs [keys]
    present and, once a bare string is read as a one-element list, of
    length at least one; [scroll] needs a direction or both coordinates;
    [stop] is always valid; any other or missing tag is invalid. *)
Definition is_num (v : option value) : bool :=
  match v with Some (VNum _) => true | _ => false end.

Definition keys_nonempty (v : option value) : bool :=
  match v with
  | Some (VStr _) => true
  | Some (VList (_ :: _)) => true
  | _ => false
  end.

Definition spec_validate (action : value) : bool :=
  match action with
  | VDict a =>
      match Py.lookup "type" a with
      | Some (VStr t) =>
          if String.eqb t "move" then
            is_num (Py.lookup "x" a) && is_num (Py.lookup "y" a)
          else if String.eqb t "click" then
            Bool.eqb (Py.has_key "x" a) (Py.has_key "y" a)
          else if String.eqb t "type" then Py.has_key "text" a
          else if String.eqb t "key" then keys_nonempty (Py.lookup "keys" a)
          else if String.eqb t "scroll" then
            Py.has_key "direction" a
            || (Py.has_key "x" a && Py.has_key "y" a)
          else if String.eqb t "stop" then true
          else false
      | _ => false
      end
  | _ => false
  end.

(** What the code checks: the presence of keys, never the kind or the
    size of their values; for [click], a coordinate counts as given when
    its value is not [None]. *)
Definition given (k : string) (a : dict) : bool :=
  negb (Py.is_none (Py.get k VNone a)).

Definition presence_rules (action : value) : bool :=
  match action with
  | VDict a =>
      match Py.lookup "type" a with
      | Some (VStr t) =>
          if String.eqb t "move" then Py.has_key "x" a && Py.has_key "y" a
          else if String.eqb t "click" then
            Bool.eqb (given "x" a) (given "y" a)
          else if String.eqb t "type" then Py.has_key "text" a
          else if String.eqb t "key" then Py.has_key "keys" a
          else if String.eqb t "scroll" then
            Py.has_key "direction" a
            || (Py.has_key "x" a && Py.has_key "y" a)
          else if String.eqb t "stop" then true
          else false
      | _ => false
      end
  | _ => false
  end.

Definition move_x10 : value := VDict [("type", VStr "move"); ("x", VNum 10)].
Definition click_bare : value := VDict [("type", VStr "click")].
Definition scroll_bare : value := VDict [("type", VStr "scroll")].
Definition key_a : value := VDict [("type", VStr "key"); ("keys", VStr "a")].
Definition scroll_up : value :=
  VDict [("type", VStr "scroll"); ("direction", VStr "up")].
Definition key_empty : value :=
  VDict [("type", VStr "key"); ("keys", VList [])].
Definition move_text : value :=
  VDict [("type", VStr "move"); ("x", VStr "left"); ("y", VNone)].

End InputController.

(** ** core/llm_decision.py *)

Module LLMDecision.

Definition stop_action (reason : string) : value :=
  VDict [("type", VStr "stop"); ("reason", VStr reason)].

Section Parse.

(** The two library calls of [_parse_response]:
    [re.search(r'```(?:json)?\s*([\s\S]*?)\s*```', response, re.IGNORECASE)]
    followed by [.group(1)] ([None] when there is no fenced block), and
    [json.loads] ([None] for [json.JSONDecodeError]). *)
Variable fenced_block : string -> option string.
Variable json_loads : string -> option value.

(** The [match action] statement: the three guarded cases that reject. *)
Definition invalid_format (action : value) : bool :=
  match action with
  | VDict d => negb (Py.has_key "type" d)
  | VList l =>
      match l with
      | [] => true
      | VDict d0 :: _ => negb (Py.has_key "type" d0)
      | _ :: _ => true
      end
  | _ => true
  end.

(** [LLMDecision._parse_response(response)].  [response] is [None] when
    the backend delivered no text: [response.startswith] then raises and
    the outermost handler answers. *)
Definition _parse_response (response : option string) : value :=
  match response with
  | None =>
      stop_action
        "解析错误: 'NoneType' object has no attribute 'startswith'"
  | Some r =>
      if String.prefix "API" r then stop_action r
      else
        match fenced_block r with
        | Some json_str =>
            match json_loads json_str with
            | Some action =>
                if invalid_format action then stop_action "动作格式无效"
                else action
            | None => stop_action "无法解析回复为有效JSON"
            end
        | None => stop_action "响应中未找到有效的动作JSON"
        end
  end.

(** What was decoded from a response, if anything. *)
Definition decoded (response : option string) : option value :=
  match response with
  | None => None
  | Some r =>
      if String.prefix "API" r then None
      else match fenced_block r with
           | Some json_str => json_loads json_str
           | None => None
           end
  end.

End Parse.

(** A decision is well formed when it is an action dict carrying a type
    tag, or a non-empty list whose first element is one. *)
Definition tagged (v : value) : bool :=
  match v with VDict d => Py.has_key "type" d | _ => false end.

Definition well_formed (v : value) : bool :=
  match v with
  | VDict _ => tagged v
  | VList (a0 :: _) => tagged a0
  | _ => false
  end.

Definition is_stop_dict (v : value) : bool :=
  match v with
  | VDict d => Py.eq_str (Py.get "type" VNone d) "stop"
  | _ => false
  end.

End LLMDecision.

(** ** base/middleware.py *)

Module Pipeline.

(** A call either returns a value or raises; either way it leaves a store
    behind (the objects it mutated in place stay mutated). *)
Inductive outcome (A : Type) : Type :=
| Returned (a : A)
| Raised.
Arguments Returned {A} a.
Arguments Raised {A}.

Section Manager.

Context {W Ctx St Act Res : Type}.

(** [action is None] *)
Variable is_None : Act -> bool.

Definition call (A : Type) : Type := W -> outcome A * W.

(** [class Middleware]: the six phases. *)
Record Middleware : Type := {
  mw_before_perception : Ctx -> call Ctx;
  mw_after_perception : St -> Ctx -> call (St * Ctx);
  mw_before_decision : St -> Ctx -> call (St * Ctx);
  mw_after_decision : Act -> St -> Ctx -> call (Act * St * Ctx);
  mw_before_execution : Act -> Ctx -> call (Act * Ctx);
  mw_after_execution : Res -> Act -> Ctx -> call (Res * Act * Ctx)
}.

(** The base class: every phase hands its arguments back. *)
Definition base_middleware : Middleware := {|
  mw_before_perception := fun c w => (Returned c, w);
  mw_after_perception := fun s c w => (Returned (s, c), w);
  mw_before_decision := fun s c w => (Returned (s, c), w);
  mw_after_decision := fun a s c w => (Returned (a, s, c), w);
  mw_before_execution := fun a c w => (Returned (a, c), w);
  mw_after_execution := fun r a c w => (Returned (r, a, c), w)
|}.

(** How a [for middleware in self.middlewares] loop ended. *)
Inductive loop_exit : Type := Exhausted | Broke.

(** The loop shared by the six manager methods:
    [try: x = middleware.phase(x); if rejected(x): break]
    [except Exception: log] -- the loop variables keep their bindings. *)
Fixpoint for_each {X : Type} (phase : Middleware -> X -> call X)
    (rejected : X -> bool) (middlewares : list Middleware) (x : X) (w : W)
    : X * W * loop_exit :=
  match middlewares with
  | [] => (x, w, Exhausted)
  | m :: rest =>
      match phase m x w with
      | (Returned x', w') =>
          if rejected x' then (x', w', Broke)
          else for_each phase rejected rest x' w'
      | (Raised, w') => for_each phase rejected rest x w'
      end
  end.

Definition never {X : Type} (_ : X) : bool := false.

Definition phase1 (m : Middleware) (c : Ctx) : call Ctx :=
  mw_before_perception m c.
Definition phase2 (m : Middleware) (x : St * Ctx) : call (St * Ctx) :=
  mw_after_perception m (fst x) (snd x).
Definition phase3 (m : Middleware) (x : St * Ctx) : call (St * Ctx) :=
  mw_before_decision m (fst x) (snd x).
Definition phase4 (m : Middleware) (x : Act * St * Ctx)
    : call (Act * St * Ctx) :=
  mw_after_decision m (fst (fst x)) (snd (fst x)) (snd x).
Definition phase5 (m : Middleware) (x : Act * Ctx) : call (Act * Ctx) :=
  mw_before_execution m (fst x) (snd x).
Definition phase6 (m : Middleware) (x : Res * Act * Ctx)
    : call (Res * Act * Ctx) :=
  mw_after_execution m (fst (fst x)) (snd (fst x)) (snd x).

Definition rejected4 (x : Act * St * Ctx) : bool := is_None (fst (fst x)).
Definition rejected5 (x : Act * Ctx) : bool := is_None (fst x).

Definition finish {X : Type} (r : X * W * loop_exit) : X * W := fst r.

(** [MiddlewareManager.process_*]: none of them raises. *)
Definition process_before_perception (middlewares : list Middleware)
    (context : Ctx) (w : W) : Ctx * W :=
  finish (for_each phase1 never middlewares context w).

Definition process_after_perception (middlewares : list Middleware)
    (state : St) (context : Ctx) (w : W) : (St * Ctx) * W :=
  finish (for_each phase2 never middlewares (state, context) w).

Definition process_before_decision (middlewares : list Middleware)
    (state : St) (context : Ctx) (w : W) : (St * Ctx) * W :=
  finish (for_each phase3 never middlewares (state, context) w).

Definition process_after_decision (middlewares : list Middleware)
    (action : Act) (state : St) (context : Ctx) (w : W)
    : (Act * St * Ctx) * W :=
  finish (for_each phase4 rejected4 middlewares (action, state, context) w).

Definition process_before_execution (middlewares : list Middleware)
    (action : Act) (context : Ctx) (w : W) : (Act * Ctx) * W :=
  finish (for_each phase5 rejected5 middlewares (action, context) w).

Definition process_after_execution (middlewares : list Middleware)
    (result : Res) (action : Act) (context : Ctx) (w : W)
    : (Res * Act * Ctx) * W :=
  finish (for_each phase6 never middlewares (result, action, context) w).

(** Error isolation for one phase, run by [manager]: when the chain
    reaches [m] with the values [x1] and [m] raises, the call goes on
    with [x1] through the rest of the chain; and when every later
    middleware raises as well, [x1] is the output of the phase. *)
Definition isolates {X : Type} (phase : Middleware -> X -> call X)
    (rejected : X -> bool)
    (manager : list Middleware -> X -> W -> X * W) : Prop :=
  forall pre m post x w x1 w1 w2,
    for_each phase rejected pre x w = (x1, w1, Exhausted) ->
    phase m x1 w1 = (Raised, w2) ->
    manager (pre ++ m :: post) x w = manager post x1 w2
    /\ ((forall m' w', In m' post -> fst (phase m' x1 w') = Raised) ->
        fst (manager (pre ++ m :: post) x w) = x1).

(** What a middleware returns is handed on: when the chain reaches [m]
    with the values [x1] and [m] returns [x2], the call goes on with [x2]
    through the rest of the chain; and when every later middleware
    raises, [x2] -- the output of the last middleware that returned --
    is the output of the phase. *)
Definition passes_on {X : Type} (phase : Middleware -> X -> call X)
    (rejected : X -> bool)
    (manager : list Middleware -> X -> W -> X * W) : Prop :=
  forall pre m post x w x1 w1 x2 w2,
    for_each phase rejected pre x w = (x1, w1, Exhausted) ->
    phase m x1 w1 = (Returned x2, w2) ->
    rejected x2 = false ->
    manager (pre ++ m :: post) x w = manager post x2 w2
    /\ ((forall m' w', In m' post -> fst (phase m' x2 w') = Raised) ->
        manager (pre ++ m :: post) x w
        = (x2, snd (manager post x2 w2))).

(** Rejection in one phase: when [m] returns a rejected value, the phase
    returns it at once, whatever the rest of the chain. *)
Definition short_circuits {X : Type} (phase : Middleware -> X -> call X)
    (rejected : X -> bool)
    (manager : list Middleware -> X -> W -> X * W) : Prop :=
  forall pre m post x w x1 w1 x2 w2,
    for_each phase rejected pre x w = (x1, w1, Exhausted) ->
    phase m x1 w1 = (Returned x2, w2) ->
    rejected x2 = true ->
    manager (pre ++ m :: post) x w = (x2, w2).

End Manager.

Arguments Middleware : clear implicits.

End Pipeline.

(** ** The store: the objects the agent and its middlewares mutate *)

Module Store.

Export Pipeline.

(** The configuration dictionary, after [config.get(key, default)]. *)
Record Config : Type := {
  max_iterations : Z;
  iteration_delay : Z;
  default_prompt_name : string;
  auto_prompt : bool;
  task_prompt_mapping : list (string * list string);
  prompts : list string;
  action_delay : Z;
  action_delays : list (string * Z);
  max_history : Z;
  track_stats : bool;
  track_duration : bool
}.

(** [StateTrackingMiddleware.stats] *)
Record TypeStats : Type := { ts_total : Z; ts_success : Z; ts_fail : Z }.

Record Stats : Type := {
  total_actions : Z;
  successful_actions : Z;
  failed_actions : Z;
  action_types : list (value * TypeStats);
  stats_start_time : Z;
  runtime : Z
}.

(** Times are clock ticks of one fixed resolution.  [latencies] is the
    time that passes, unknown to the program, before each of the coming
    clock-visible operations.  [exec_log] holds the invocations of
    [Executor.execute], oldest first: the argument and the time of each
    call.  [context_stats] is the entry
    [context["stats"]], a copy of [stats] whose keys need not be strings. *)
Record World {U : Type} : Type := {
  context : dict;
  clock : Z;
  latencies : list nat;
  exec_log : list (value * Z);
  last_action_time : Z;
  stats : Stats;
  context_stats : option Stats;
  current_prompt : string;
  user : U
}.
Arguments World : clear implicits.

(** [self.context] is a reference to the one context dictionary; the
    dictionary itself is [context] of the store. *)
Inductive ref : Type := the_context.

Section Effects.

Context {U : Type}.

Definition with_context (c : dict) (w : World U) : World U :=
  {| context := c; clock := clock w; latencies := latencies w;
     exec_log := exec_log w; last_action_time := last_action_time w;
     stats := stats w; context_stats := context_stats w;
     current_prompt := current_prompt w; user := user w |}.

Definition with_clock (t : Z) (l : list nat) (w : World U) : World U :=
  {| context := context w; clock := t; latencies := l;
     exec_log := exec_log w; last_action_time := last_action_time w;
     stats := stats w; context_stats := context_stats w;
     current_prompt := current_prompt w; user := user w |}.

Definition with_exec_log (l : list (value * Z)) (w : World U) : World U :=
  {| context := context w; clock := clock w; latencies := latencies w;
     exec_log := l; last_action_time := last_action_time w;
     stats := stats w; context_stats := context_stats w;
     current_prompt := current_prompt w; user := user w |}.

Definition with_last_action_time (t : Z) (w : World U) : World U :=
  {| context := context w; clock := clock w; latencies := latencies w;
     exec_log := exec_log w; last_action_time := t;
     stats := stats w; context_stats := context_stats w;
     current_prompt := current_prompt w; user := user w |}.

Definition with_stats (s : Stats) (w : World U) : World U :=
  {| context := context w; clock := clock w; latencies := latencies w;
     exec_log := exec_log w; last_action_time := last_action_time w;
     stats := s; context_stats := context_stats w;
     current_prompt := current_prompt w; user := user w |}.

Definition with_context_stats (s : option Stats) (w : World U) : World U :=
  {| context := context w; clock := clock w; latencies := latencies w;
     exec_log := exec_log w; last_action_time := last_action_time w;
     stats := stats w; context_stats := s;
     current_prompt := current_prompt w; user := user w |}.

Definition with_current_prompt (p : string) (w : World U) : World U :=
  {| context := context w; clock := clock w; latencies := latencies w;
     exec_log := exec_log w; last_action_time := last_action_time w;
     stats := stats w; context_stats := context_stats w;
     current_prompt := p; user := user w |}.

Definition M (A : Type) : Type := World U -> outcome A * World U.

Definition ret {A : Type} (a : A) : M A := fun w => (Returned a, w).

Definition raise {A : Type} : M A := fun w => (Raised, w).

Definition bind {A B : Type} (m : M A) (k : A -> M B) : M B :=
  fun w =>
    match m w with
    | (Returned a, w') => k a w'
    | (Raised, w') => (Raised, w')
    end.

Definition lift {A : Type} (o : outcome A) : M A := fun w => (o, w).

(** Time passes before the operation takes effect. *)
Definition next_latency (w : World U) : Z :=
  match latencies w with
  | [] => 0
  | n :: _ => Z.of_nat n
  end.

Definition elapse (w : World U) : World U :=
  with_clock (clock w + next_latency w) (tl (latencies w)) w.

(** [time.time()] *)
Definition tick (w : World U) : Z * World U :=
  let w' := elapse w in (clock w', w').

Definition time_time : M Z :=
  fun w => let w' := elapse w in (Returned (clock w'), w').

(** [time.sleep(secs)]: suspends for at least [secs]. *)
Definition sleep (secs : Z) (w : World U) : World U :=
  let w' := elapse w in with_clock (clock w' + secs) (latencies w') w'.

Definition time_sleep (secs : Z) : M unit :=
  fun w => (Returned tt, sleep secs w).

(** Reading and mutating the context dictionary through its reference. *)
Definition deref (r : ref) : M dict := fun w => (Returned (context w), w).

Definition assign (r : ref) (c : dict) : M unit :=
  fun w => (Returned tt, with_context c w).

(** Middlewares of this agent: states, actions and results are Python
    values, the context travels as its reference. *)
Definition PyMiddleware : Type := Middleware (World U) ref value value value.

Definition base : PyMiddleware := base_middleware.

(** A computation that takes every store to one that [R] relates to
    it; and one that, when it returns, returns [a]. *)
Definition frames (R : World U -> World U -> Prop) {A : Type} (m : M A)
    : Prop :=
  forall w, R w (snd (m w)).

Definition hands_back {A : Type} (a : A) (m : M A) : Prop :=
  forall w, fst (m w) = Raised \/ fst (m w) = Returned a.

(** A middleware is quiet, for a relation [R] between stores, when every
    call of every phase hands back the very arguments it was given, or
    raises, and takes the store to one that [R] relates to it. *)
Definition quiet_call (R : World U -> World U -> Prop) {X : Type}
    (phase : PyMiddleware -> X -> call (W := World U) X)
    (m : PyMiddleware) : Prop :=
  forall x w,
    (fst (phase m x w) = Raised \/ fst (phase m x w) = Returned x)
    /\ R w (snd (phase m x w)).

Definition quiet (R : World U -> World U -> Prop) (m : PyMiddleware)
    : Prop :=
  quiet_call R phase1 m /\ quiet_call R phase2 m /\ quiet_call R phase3 m
  /\ quiet_call R phase4 m /\ quiet_call R phase5 m
  /\ quiet_call R phase6 m.

(** [discreet]: leaves the context and the executor alone.
    [patient]: leaves the executor and the throttle alone and does not
    turn the clock back. *)
Definition same_context (w w' : World U) : Prop :=
  context w' = context w /\ exec_log w' = exec_log w.

Definition later (w w' : World U) : Prop :=
  exec_log w' = exec_log w
  /\ last_action_time w' = last_action_time w
  /\ clock w <= clock w'.

Definition discreet (m : PyMiddleware) : Prop := quiet same_context m.

Definition patient (m : PyMiddleware) : Prop := quiet later m.

End Effects.

Declare Scope monad_scope.
Delimit Scope monad_scope with monad.
Notation "x <- m ;; k" := (bind m (fun x => k))
  (at level 61, m at next level, right associativity) : monad_scope.
Notation "m ;; k" := (bind m (fun _ => k))
  (at level 61, right associativity) : monad_scope.

End Store.

(** ** middlewares/throttling.py *)

Module ThrottlingMiddleware.

Import Store.
Local Open Scope monad_scope.

Section Throttling.

Context {U : Type}.
Variable config : Config.

(** [self.action_delays.get(action_type, self.default_delay)] for a
    hashable [action_type]; the keys of [action_delays] are strings. *)
Fixpoint assoc (k : string) (l : list (string * Z)) : option Z :=
  match l with
  | [] => None
  | (k', d) :: l' => if String.eqb k k' then Some d else assoc k l'
  end.

Definition delay_of (action_type : value) : Z :=
  match action_type with
  | VStr t =>
      match assoc t (action_delays config) with
      | Some d => d
      | None => action_delay config
      end
  | _ => action_delay config
  end.

Definition keyed_delay (action_type : value) : outcome Z :=
  if Py.hashable action_type then Returned (delay_of action_type) else Raised.

(** [_get_action_delay(action)].  The recursion descends into the
    ["actions"] entry of a composite action; iterating a string or a dict
    yields no dict, iterating anything else raises. *)
Fixpoint _get_action_delay (action : value) : outcome Z :=
  match action with
  | VDict a =>
      let action_type := Py.get "type" (VStr "") a in
      if Py.eq_str action_type "composite" then
        (fix scan (d : dict) : outcome Z :=
           match d with
           | [] => keyed_delay action_type
           | (k, v) :: d' =>
               if String.eqb "actions" k then
                 match v with
                 | VList subs =>
                     match
                       (fix each (l : list value) (max_delay : Z)
                          : outcome Z :=
                          match l with
                          | [] => Returned max_delay
                          | sub_action :: l' =>
                              if Py.is_dict sub_action then
                                match _get_action_delay sub_action with
                                | Returned x => each l' (Z.max max_delay x)
                                | Raised => Raised
                                end
                              else each l' max_delay
                          end) subs 0
                     with
                     | Returned max_delay =>
                         Returned
                           (Z.max max_delay (delay_of (VStr "composite")))
                     | Raised => Raised
                     end
                 | VStr _ | VDict _ =>
                     Returned (Z.max 0 (delay_of (VStr "composite")))
                 | _ => Raised
                 end
               else scan d'
           end) a
      else keyed_delay action_type
  | _ => Returned 0
  end.

(** [_get_max_delay(action)] *)
Fixpoint max_over (l : list value) (max_delay : Z) : outcome Z :=
  match l with
  | [] => Returned max_delay
  | act :: l' =>
      if Py.is_dict act then
        match _get_action_delay act with
        | Returned x => max_over l' (Z.max max_delay x)
        | Raised => Raised
        end
      else max_over l' max_delay
  end.

Definition _get_max_delay (action : value) : outcome Z :=
  match action with
  | VList l => max_over l 0
  | VDict _ => _get_action_delay action
  | _ => Returned 0
  end.

(** [ThrottlingMiddleware.process_before_execution] *)
Definition process_before_execution (action : value) (context : ref)
    : M (U := U) (value * ref) :=
  if Py.is_none action then ret (action, context)
  else
    current_time <- time_time ;;
    delay <- lift (_get_max_delay action) ;;
    last <- (fun w => (Returned (last_action_time w), w)) ;;
    let elapsed := current_time - last in
    let wait_time := Z.max 0 (delay - elapsed) in
    (if 0 <? wait_time then time_sleep wait_time else ret tt) ;;
    ret (action, context).

(** [ThrottlingMiddleware.process_after_execution].  What follows the
    assignment only formats a log line and hands the arguments back. *)
Definition process_after_execution (result action : value) (context : ref)
    : M (U := U) (value * value * ref) :=
  now <- time_time ;;
  (fun w => (Returned tt, with_last_action_time now w)) ;;
  ret (result, action, context).

Definition middleware : PyMiddleware (U := U) := {|
  mw_before_perception := mw_before_perception base;
  mw_after_perception := mw_after_perception base;
  mw_before_decision := mw_before_decision base;
  mw_after_decision := mw_after_decision base;
  mw_before_execution := process_before_execution;
  mw_after_execution := process_after_execution
|}.

End Throttling.

End ThrottlingMiddleware.

(** ** middlewares/state_tracking.py *)

Module StateTrackingMiddleware.

Import Store.
Local Open Scope monad_scope.

(** Keys of [stats["action_types"]]: equality of hashable values, where
    [True == 1] and [False == 0]. *)
Definition key_num (v : value) : option Z :=
  match v with
  | VNum n => Some n
  | VBool b => Some (if b then 1 else 0)
  | _ => None
  end.

Definition key_eqb (a b : value) : bool :=
  match a, b with
  | VNone, VNone => true
  | VStr s, VStr t => String.eqb s t
  | _, _ =>
      match key_num a, key_num b with
      | Some n, Some m => n =? m
      | _, _ => false
      end
  end.

Definition count (success : bool) (t : TypeStats) : TypeStats :=
  {| ts_total := ts_total t + 1;
     ts_success := if success then ts_success t + 1 else ts_success t;
     ts_fail := if success then ts_fail t else ts_fail t + 1 |}.

Definition no_counts : TypeStats :=
  {| ts_total := 0; ts_success := 0; ts_fail := 0 |}.

(** Insert the type with zero counts when it is new, then count. *)
Fixpoint count_type (action_type : value) (success : bool)
    (types : list (value * TypeStats)) : list (value * TypeStats) :=
  match types with
  | [] => [(action_type, count success no_counts)]
  | (k, t) :: types' =>
      if key_eqb action_type k then (k, count success t) :: types'
      else (k, t) :: count_type action_type success types'
  end.

Definition fresh_stats (now : Z) : Stats :=
  {| total_actions := 0; successful_actions := 0; failed_actions := 0;
     action_types := []; stats_start_time := now; runtime := 0 |}.

(** What the trim keeps of a history [h], for a bound [m]:
    [h[-m:]] when [len(h) > m], all of [h] otherwise. *)
Definition trim (m : Z) (h : list value) : list value :=
  if m <? Z.of_nat (length h) then Py.slice_from_neg m h else h.

(** A record whose ["start_time"], when it has one, is a number. *)
Definition timed (record : dict) : Prop :=
  match Py.lookup "start_time" record with
  | Some (VNum _) | None => True
  | Some _ => False
  end.


Section StateTracking.

Context {U : Type}.
Variable config : Config.

Definition modify_stats (f : Stats -> Stats) : M (U := U) unit :=
  fun w => (Returned tt, with_stats (f (stats w)) w).

(** [_update_stats(action, result)] *)
Definition _update_stats (action result : value) : M (U := U) unit :=
  if negb (track_stats config) || negb (Py.truthy action) then ret tt
  else
    match action with
    | VDict a =>
        let action_type := Py.get "type" (VStr "unknown") a in
        success <- lift
          (if Py.truthy result then
             match result with
             | VDict r => Returned (Py.truthy (Py.get "success" (VBool false) r))
             | _ => Raised
             end
           else Returned false) ;;
        modify_stats (fun s =>
          {| total_actions := total_actions s + 1;
             successful_actions :=
               if success then successful_actions s + 1
               else successful_actions s;
             failed_actions :=
               if success then failed_actions s else failed_actions s + 1;
             action_types := action_types s;
             stats_start_time := stats_start_time s;
             runtime := runtime s |}) ;;
        (if Py.hashable action_type then
           modify_stats (fun s =>
             {| total_actions := total_actions s;
                successful_actions := successful_actions s;
                failed_actions := failed_actions s;
                action_types := count_type action_type success (action_types s);
                stats_start_time := stats_start_time s;
                runtime := runtime s |})
         else raise) ;;
        now <- time_time ;;
        modify_stats (fun s =>
          {| total_actions := total_actions s;
             successful_actions := successful_actions s;
             failed_actions := failed_actions s;
             action_types := action_types s;
             stats_start_time := stats_start_time s;
             runtime := now - stats_start_time s |})
    | _ => raise
    end.

(** [StateTrackingMiddleware.process_before_perception] *)
Definition process_before_perception (context : ref) : M (U := U) ref :=
  c <- deref context ;;
  (if negb (Py.has_key "history" c)
   then assign context (Py.set "history" (VList []) c) else ret tt) ;;
  now <- time_time ;;
  c <- deref context ;;
  assign context (Py.set "current_time" (VNum now) c) ;;
  (if track_stats config
   then fun w => (Returned tt, with_context_stats (Some (stats w)) w)
   else ret tt) ;;
  ret context.

(** The [state_snapshot] entry: [{...} if state else None]. *)
Definition state_snapshot (state : value) : outcome value :=
  if Py.truthy state then
    match state with
    | VDict s =>
        Returned (VDict
          [("screen_width", Py.get "screen_width" (VNum 0) s);
           ("screen_height", Py.get "screen_height" (VNum 0) s);
           ("cursor_position",
            Py.get "cursor_position" (VList [VNum 0; VNum 0]) s)])
    | _ => Raised
    end
  else Returned VNone.

(** [context["_current_action"] = {"action": ..., "timestamp": ...,
    "state_snapshot": ...}]; the default of [context.get] is evaluated,
    so the clock is read in any case. *)
Definition remember (action state : value) (context : ref) : M (U := U) unit :=
  now <- time_time ;;
  c <- deref context ;;
  snapshot <- lift (state_snapshot state) ;;
  assign context
    (Py.set "_current_action"
       (VDict [("action", action);
               ("timestamp", Py.get "current_time" (VNum now) c);
               ("state_snapshot", snapshot)]) c).

Fixpoint remember_each (l : list value) (action state : value)
    (context : ref) : M (U := U) unit :=
  match l with
  | [] => ret tt
  | act :: l' =>
      (if Py.is_dict act then remember action state context else ret tt) ;;
      remember_each l' action state context
  end.

(** [StateTrackingMiddleware.process_after_decision] *)
Definition process_after_decision (action state : value) (context : ref)
    : M (U := U) (value * value * ref) :=
  if Py.is_none action then ret (action, state, context)
  else
    (match action with
     | VList l => remember_each l action state context
     | _ => ret tt
     end) ;;
    (match action with
     | VDict _ =>
         remember action state context ;;
         (if track_duration config then
            now <- time_time ;;
            c <- deref context ;;
            match Py.lookup "_current_action" c with
            | Some (VDict record) =>
                assign context
                  (Py.set "_current_action"
                     (VDict (Py.set "start_time" (VNum now) record)) c)
            | _ => raise
            end
          else ret tt)
     | _ => ret tt
     end) ;;
    ret (action, state, context).

(** [context["history"].append(action_record)] and the trim that
    follows it. *)
Definition append_and_trim (action_record : dict) (context : ref)
    : M (U := U) unit :=
  c <- deref context ;;
  if Py.has_key "history" c then
    match Py.lookup "history" c with
    | Some (VList h) =>
        let h1 := (h ++ [VDict action_record])%list in
        assign context (Py.set "history" (VList h1) c) ;;
        (if max_history config <? Z.of_nat (length h1) then
           assign context
             (Py.set "history"
                (VList (Py.slice_from_neg (max_history config) h1))
                (Py.set "history" (VList h1) c))
         else ret tt)
    | _ => raise
    end
  else ret tt.

Fixpoint update_each (l : list value) (result : value) : M (U := U) unit :=
  match l with
  | [] => ret tt
  | act :: l' =>
      (if Py.is_dict act then _update_stats act result else ret tt) ;;
      update_each l' result
  end.

(** [StateTrackingMiddleware.process_after_execution].  [action_record]
    is the object stored under ["_current_action"]: what is written to
    it is written to the context entry as well. *)
Definition process_after_execution (result action : value) (context : ref)
    : M (U := U) (value * value * ref) :=
  c <- deref context ;;
  if Py.is_none action || negb (Py.has_key "_current_action" c)
  then ret (result, action, context)
  else
    match Py.lookup "_current_action" c with
    | Some (VDict action_record) =>
        let action_record := Py.set "result" result action_record in
        assign context (Py.set "_current_action" (VDict action_record) c) ;;
        action_record <-
          (if track_duration config && Py.has_key "start_time" action_record
           then
             now <- time_time ;;
             match Py.lookup "start_time" action_record with
             | Some (VNum start_time) =>
                 let action_record :=
                   Py.del "start_time"
                     (Py.set "duration" (VNum (now - start_time))
                        action_record) in
                 assign context
                   (Py.set "_current_action" (VDict action_record) c) ;;
                 ret action_record
             | _ => raise
             end
           else ret action_record) ;;
        append_and_trim action_record context ;;
        (match action with
         | VList l => update_each l result
         | _ => _update_stats action result
         end) ;;
        c <- deref context ;;
        assign context (Py.del "_current_action" c) ;;
        ret (result, action, context)
    | _ => raise
    end.

Definition middleware : PyMiddleware (U := U) := {|
  mw_before_perception := process_before_perception;
  mw_after_perception := mw_after_perception base;
  mw_before_decision := mw_before_decision base;
  mw_after_decision := process_after_decision;
  mw_before_execution := mw_before_execution base;
  mw_after_execution := process_after_execution
|}.

End StateTracking.

End StateTrackingMiddleware.

(** ** core/ui_agent.py *)

Module UIAgent.

Import Store.
Local Open Scope monad_scope.

(** [should_stop(action)] *)
Definition stop_item (item : value) : bool :=
  match item with
  | VDict i => Py.eq_str (Py.get "type" VNone i) "stop"
  | _ => false
  end.

Fixpoint any_stop (l : list value) : bool :=
  match l with
  | [] => false
  | item :: l' => if stop_item item then true else any_stop l'
  end.

Definition should_stop (action : value) : bool :=
  match action with
  | VDict a => Py.eq_str (Py.get "type" VNone a) "stop"
  | VList l => any_stop l
  | _ => false
  end.

(** [actions = action if isinstance(action, list) else [action]] *)
Definition normalize (action : value) : list value :=
  match action with
  | VList l => l
  | _ => [action]
  end.

(** [str.lower()], on the ASCII letters. *)
Definition lower_ascii (c : ascii) : ascii :=
  let n := nat_of_ascii c in
  if ((65 <=? n) && (n <=? 90))%nat then ascii_of_nat (n + 32) else c.

Fixpoint lower (s : string) : string :=
  match s with
  | EmptyString => EmptyString
  | String c s' => String (lower_ascii c) (lower s')
  end.

(** [needle in hay] *)
Definition contains (needle hay : string) : bool :=
  match String.index 0 needle hay with Some _ => true | None => false end.

(** The record [run] returns. *)
Record Summary : Type := {
  iterations : Z;
  elapsed_time : Z;
  task : string;
  history : value
}.

(** Views of a history: the actions recorded, and the [success] flags
    of their results, in order. *)
Definition entry_field (k : string) (entry : value) : value :=
  match entry with
  | VDict e => Py.get k VNone e
  | _ => VNone
  end.

Definition recorded (k : string) (history : value) : list value :=
  match history with
  | VList l => map (entry_field k) l
  | _ => []
  end.

Definition recorded_actions (history : value) : list value :=
  recorded "action" history.

Definition recorded_successes (history : value) : list value :=
  map (entry_field "success") (recorded "result" history).

Definition recorded_messages (history : value) : list value :=
  map (entry_field "message") (recorded "result" history).

(** How the body of [for act in actions] ends: [continue] (or the end of
    the body), or [return] out of [step]. *)
Inductive verdict : Type :=
| Continue (state : value) (final_result : bool)
| Return (b : bool).

Section Agent.

Context {U : Type}.
Variable config : Config.

(** The collaborators: [self.perception.process()],
    [self.brain.decide(state, self.context)] and
    [self.executor.execute(action)], each answering from what it can
    observe; and the middleware chain built by [setup_middlewares]. *)
Variable perceive : World U -> value.
Variable decide : World U -> value -> value.
Variable executor : World U -> value -> bool.
Variable middlewares : list (PyMiddleware (U := U)).

(** [PromptManager.set_current_prompt] then [LLMDecision.set_prompt] *)
Definition set_prompt (name : string) (context : ref) (w : World U)
    : bool * World U :=
  if existsb (String.eqb name) (prompts config) then
    (true,
     with_context (Py.set "prompt_name" (VStr name) (Store.context w))
       (with_current_prompt name w))
  else (false, w).

(** [UIAgent._auto_select_prompt(task)] *)
Fixpoint by_keywords (prompt_name : string) (keywords : list string)
    (task_lower : string) (w : World U) : bool * World U :=
  match keywords with
  | [] => (false, w)
  | keyword :: keywords' =>
      if contains (lower keyword) task_lower then
        let '(success, w') := set_prompt prompt_name the_context w in
        if success then (true, w')
        else by_keywords prompt_name keywords' task_lower w'
      else by_keywords prompt_name keywords' task_lower w
  end.

Fixpoint by_categories (mapping : list (string * list string))
    (task_lower : string) (w : World U) : bool * World U :=
  match mapping with
  | [] => (false, w)
  | (prompt_name, keywords) :: mapping' =>
      let '(found, w') := by_keywords prompt_name keywords task_lower w in
      if found then (true, w') else by_categories mapping' task_lower w'
  end.

Definition _auto_select_prompt (task : string) (w : World U)
    : bool * World U :=
  let task_lower := lower task in
  let '(found, w') :=
    by_categories (task_prompt_mapping config) task_lower w in
  if found then (true, w')
  else set_prompt (default_prompt_name config) the_context w'.

(** [UIAgent.setup()]: a fresh context, a brain whose prompt manager
    starts on the default prompt. *)
Definition setup (w : World U) : World U :=
  let '(now, w) := tick w in
  with_context_stats None
    (with_current_prompt (default_prompt_name config)
       (with_context
          [("history", VList []);
           ("start_time", VNum now);
           ("iteration", VNum 0);
           ("prompt_name", VStr (default_prompt_name config))] w)).

(** [UIAgent.setup_middlewares()]: the instances start with
    [last_action_time = 0] and fresh counters. *)
Definition setup_middlewares (w : World U) : World U :=
  let '(now, w) := tick w in
  with_last_action_time 0 (with_stats (StateTrackingMiddleware.fresh_stats now) w).

(** [success = self.executor.execute(current_action)] *)
Definition execute (action : value) (w : World U) : bool * World U :=
  let w' := elapse w in
  (executor w' action,
   with_exec_log (exec_log w' ++ [(action, clock w')])%list w').

(** [history_item = {...}; self.context["history"].append(history_item)] *)
Definition history_item (current_action result timestamp : value) : value :=
  VDict [("action", current_action);
         ("result", result);
         ("timestamp", timestamp)].

Definition record_history (current_action result : value) (context : ref)
    : M (U := U) unit :=
  match result with
  | VDict r =>
      match Py.lookup "timestamp" r with
      | Some timestamp =>
          c <- deref context ;;
          match Py.lookup "history" c with
          | Some (VList h) =>
              assign context
                (Py.set "history"
                   (VList (h ++ [history_item current_action result
                                   timestamp])%list) c)
          | _ => raise
          end
      | None => raise
      end
  | _ => raise
  end.

(** The result synthesized for a stop action, and the result built
    after [execute]. *)
Definition stop_result (a : dict) (now : Z) : value :=
  VDict [("success", VBool true);
         ("timestamp", VNum now);
         ("message", Py.get "reason" (VStr "任务完成") a)].

Definition execution_result (success : bool) (now : Z) : value :=
  VDict [("success", VBool success);
         ("timestamp", VNum now);
         ("error", if success then VNone else VStr "执行失败")].

(** The body of [for act in actions], inside its [try]; an exception
    leaves the loop variables as they are and continues. *)
Definition process_action (act state : value) (final_result : bool)
    (w : World U) : verdict * World U :=
  let '((current_action, state, context), w) :=
    process_after_decision Py.is_none middlewares act state the_context w in
  if Py.is_none current_action then (Continue state final_result, w)
  else if should_stop current_action then
    match current_action with
    | VDict a =>
        let '(now, w) := tick w in
        let result := stop_result a now in
        let '((result, current_action, context), w) :=
          process_after_execution middlewares result current_action
            context w in
        match record_history current_action result context w with
        | (Returned _, w) => (Return true, w)
        | (Raised, w) => (Continue state final_result, w)
        end
    | _ => (Continue state final_result, w)
    end
  else
    let '((current_action, context), w) :=
      process_before_execution Py.is_none middlewares current_action
        context w in
    if Py.is_none current_action then (Continue state final_result, w)
    else
      let '(success, w) := execute current_action w in
      let '(now, w) := tick w in
      let result := execution_result success now in
      let '((result, current_action, context), w) :=
        process_after_execution middlewares result current_action
          context w in
      match record_history current_action result context w with
      | (Returned _, w) => (Continue state (final_result || success), w)
      | (Raised, w) => (Continue state final_result, w)
      end.

Fixpoint for_actions (actions : list value) (state : value)
    (final_result : bool) (w : World U) : bool * World U :=
  match actions with
  | [] => let '(_, w) := tick w in (final_result, w)
  | act :: rest =>
      match process_action act state final_result w with
      | (Return b, w) => (b, w)
      | (Continue state final_result, w) =>
          for_actions rest state final_result w
      end
  end.

(** The loop over the first elements of a sequence, up to where the
    next element would be taken. *)
Fixpoint through (actions : list value) (state : value)
    (final_result : bool) (w : World U) : verdict * World U :=
  match actions with
  | [] => (Continue state final_result, w)
  | act :: rest =>
      match process_action act state final_result w with
      | (Return b, w) => (Return b, w)
      | (Continue state final_result, w) =>
          through rest state final_result w
      end
  end.

(** [UIAgent.step()] *)
Definition step (w : World U) : bool * World U :=
  let '(_, w) := tick w in
  let '(context, w) := process_before_perception middlewares the_context w in
  let state := perceive w in
  let '((state, context), w) :=
    process_after_perception middlewares state context w in
  let '((state, context), w) :=
    process_before_decision middlewares state context w in
  let action := decide w state in
  let actions := normalize action in
  for_actions actions state false w.

(** The [while self.running] loop: [fuel] bounds the number of passes. *)
Fixpoint main_loop (fuel : nat) (iteration : Z) (w : World U)
    : Z * World U :=
  match fuel with
  | O => (iteration, w)
  | S fuel' =>
      let iteration := iteration + 1 in
      let w := with_context (Py.set "iteration" (VNum iteration) (context w)) w in
      let '(now, w) := tick w in
      let w := with_context (Py.set "current_time" (VNum now) (context w)) w in
      let '(stop, w) := step w in
      if stop then (iteration, w)
      else if max_iterations config <=? iteration then (iteration, w)
      else
        let w :=
          if 0 <? iteration_delay config
          then sleep (iteration_delay config) w else w in
        main_loop fuel' iteration w
  end.

(** Passes needed at most: the loop leaves once
    [iteration >= max_iterations]. *)
Definition passes : nat := Z.to_nat (Z.max 1 (max_iterations config)).

(** [UIAgent.run(task)] *)
Definition run (task : string) (w : World U) : Summary * World U :=
  let w := setup_middlewares (setup w) in
  let w := with_context (Py.set "task" (VStr task) (context w)) w in
  let w :=
    if auto_prompt config && negb (Py.has_key "prompt_name" (context w))
    then snd (_auto_select_prompt task w) else w in
  let '(start_time, w) := tick w in
  let w := with_context (Py.set "start_time" (VNum start_time) (context w)) w in
  let '(iteration, w) := main_loop passes 0 w in
  let '(now, w) := tick w in
  ({| iterations := iteration;
      elapsed_time := now - start_time;
      task := task;
      history := Py.get "history" (VList []) (context w) |}, w).

End Agent.

End UIAgent.

(** ** Pacing of the executor calls *)

Module Timing.

Import Store.

Section Gaps.

Variable config : Config.

(** The delay the throttle asks for before [action]; none when
    [_get_max_delay] raises. *)
Definition required_gap (action : value) : Z :=
  match ThrottlingMiddleware._get_max_delay config action with
  | Returned d => d
  | Raised => 0
  end.

(** Invocations, newest first: each one comes no sooner after the one
    before it than the delay asked for it. *)
Fixpoint spaced_back (newest_first : list (value * Z)) : Prop :=
  match newest_first with
  | [] => True
  | (a2, t2) :: older =>
      match older with
      | [] => True
      | (_, t1) :: _ => t1 + required_gap a2 <= t2
      end
      /\ spaced_back older
  end.

(** The latest invocation of [log] is not after [bound]. *)
Definition latest_le (bound : Z) (log : list (value * Z)) : Prop :=
  match rev log with
  | [] => True
  | (_, t) :: _ => t <= bound
  end.

Definition paced {U : Type} (w : World U) : Prop :=
  spaced_back (rev (exec_log w))
  /\ latest_le (last_action_time w) (exec_log w)
  /\ latest_le (clock w) (exec_log w).

(** A middleware that, in the two phases that can reject, leaves
    [last_action_time] of the throttle as it is. *)
Definition keeps_throttle {U : Type} (m : PyMiddleware (U := U)) : Prop :=
  (forall a s c w,
      last_action_time (snd (mw_after_decision m a s c w))
      = last_action_time w)
  /\ (forall a c w,
         last_action_time (snd (mw_before_execution m a c w))
         = last_action_time w).

End Gaps.

End Timing.

(** ** Scenarios *)

Module Scenario.

Import Store.

Definition click11 : value :=
  VDict [("type", VStr "click"); ("x", VNum 1); ("y", VNum 1)].
Definition move00 : value :=
  VDict [("type", VStr "move"); ("x", VNum 0); ("y", VNum 0)].
Definition stop_done : value :=
  VDict [("type", VStr "stop"); ("reason", VStr "done")].
Definition two_clicks : value := VList [click11; click11].
Definition screen : value :=
  VDict [("screen_width", VNum 1920); ("screen_height", VNum 1080)].

(** The shipped configuration, with [max_iterations] and [max_history]
    left open. *)
Definition config (max_iterations max_history : Z) : Config := {|
  Store.max_iterations := max_iterations;
  iteration_delay := 5;
  default_prompt_name := "default";
  auto_prompt := true;
  task_prompt_mapping :=
    [("browser", ["chrome"; "firefox"; "edge"]);
     ("office", ["excel"; "word"; "powerpoint"])];
  prompts := ["default"; "browser"; "office"];
  action_delay := 10;
  action_delays :=
    [("move", 1); ("click", 1); ("type", 2); ("key", 1); ("scroll", 2)];
  Store.max_history := max_history;
  track_stats := true;
  track_duration := true
|}.

(** A store before [run]: nothing in it yet. *)
Definition blank : World unit := {|
  context := [];
  clock := 0;
  latencies := [];
  exec_log := [];
  last_action_time := 0;
  stats := StateTrackingMiddleware.fresh_stats 0;
  context_stats := None;
  current_prompt := "default";
  user := tt
|}.

Definition always (action : value) {U : Type} (_ : World U) (_ : value)
    : value := action.
Definition succeeds {U : Type} (_ : World U) (_ : value) : bool := true.
Definition fails {U : Type} (_ : World U) (_ : value) : bool := false.
Definition sees_screen {U : Type} (_ : World U) : value := screen.

(** A middleware that rejects every action after the decision, one that
    rejects it before the execution, and one that raises in every
    phase. *)
Definition veto {U : Type} : PyMiddleware (U := U) := {|
  mw_before_perception := mw_before_perception base;
  mw_after_perception := mw_after_perception base;
  mw_before_decision := mw_before_decision base;
  mw_after_decision := fun _ s c w => (Returned (VNone, s, c), w);
  mw_before_execution := mw_before_execution base;
  mw_after_execution := mw_after_execution base
|}.

Definition late_veto {U : Type} : PyMiddleware (U := U) := {|
  mw_before_perception := mw_before_perception base;
  mw_after_perception := mw_after_perception base;
  mw_before_decision := mw_before_decision base;
  mw_after_decision := mw_after_decision base;
  mw_before_execution := fun _ c w => (Returned (VNone, c), w);
  mw_after_execution := mw_after_execution base
|}.

Definition broken {U : Type} : PyMiddleware (U := U) := {|
  mw_before_perception := fun _ w => (Raised, w);
  mw_after_perception := fun _ _ w => (Raised, w);
  mw_before_decision := fun _ _ w => (Raised, w);
  mw_after_decision := fun _ _ _ w => (Raised, w);
  mw_before_execution := fun _ _ w => (Raised, w);
  mw_after_execution := fun _ _ _ w => (Raised, w)
|}.

(** A middleware that answers every result with one of its own, and
    notes in the store that it ran. *)
Definition overrides {U : Type} : PyMiddleware (U := U) := {|
  mw_before_perception := mw_before_perception base;
  mw_after_perception := mw_after_perception base;
  mw_before_decision := mw_before_decision base;
  mw_after_decision := mw_after_decision base;
  mw_before_execution := mw_before_execution base;
  mw_after_execution :=
    fun _ a c w =>
      (Returned (VNum 42, a, c),
       with_context (Py.set "overridden" (VBool true) (context w)) w)
|}.

(** The store as [setup] leaves it. *)
Definition ready : World unit := UIAgent.setup (config 5 10) blank.

End Scenario.

(** ** middlewares/state_tracking.py: the statistics *)

Module Statistics.

Import Store StateTrackingMiddleware.
Local Open Scope monad_scope.

(** [get_success_rate()]; the quotient is exact here, a float there. *)
Definition get_success_rate (s : Stats) : Q :=
  if total_actions s =? 0 then 0%Q
  else (inject_Z (successful_actions s) / inject_Z (total_actions s))%Q.

(** [self.stats["action_types"].get(action_type, {"total": 0, ...})] *)
Fixpoint row (action_type : value) (types : list (value * TypeStats))
    : TypeStats :=
  match types with
  | [] => no_counts
  | (k, t) :: types' =>
      if key_eqb action_type k then t else row action_type types'
  end.

(** [get_action_stats(action_type)]: every row when [action_type] is
    falsy, the row of [action_type] otherwise. *)
Inductive answer : Type :=
| AllTypes (types : list (value * TypeStats))
| OneType (t : TypeStats).

Definition get_action_stats (action_type : value) (s : Stats)
    : outcome answer :=
  if negb (Py.truthy action_type) then Returned (AllTypes (action_types s))
  else if Py.hashable action_type
       then Returned (OneType (row action_type (action_types s)))
       else Raised.

(** [reset_stats()] *)
Definition reset_stats {U : Type} : M (U := U) unit :=
  now <- time_time ;;
  modify_stats (fun _ => fresh_stats now).

(** The counters add up: in total and in every row the successes and
    the failures make the total, and the rows hold no more than the
    totals do. *)
Definition row_ok (t : TypeStats) : Prop :=
  0 <= ts_success t /\ 0 <= ts_fail t
  /\ ts_total t = ts_success t + ts_fail t.

Fixpoint rows_success (types : list (value * TypeStats)) : Z :=
  match types with
  | [] => 0
  | (_, t) :: types' => ts_success t + rows_success types'
  end.

Fixpoint rows_fail (types : list (value * TypeStats)) : Z :=
  match types with
  | [] => 0
  | (_, t) :: types' => ts_fail t + rows_fail types'
  end.

Definition consistent (s : Stats) : Prop :=
  0 <= successful_actions s /\ 0 <= failed_actions s
  /\ total_actions s = successful_actions s + failed_actions s
  /\ Forall (fun kt => row_ok (snd kt)) (action_types s)
  /\ rows_success (action_types s) <= successful_actions s
  /\ rows_fail (action_types s) <= failed_actions s.

(** Steps that keep the counters adding up. *)
Definition sound {U : Type} (w w' : World U) : Prop :=
  consistent (stats w) -> consistent (stats w').

(** [result.get("success", False) if result else False] *)
Definition succeeded (result : value) : outcome bool :=
  if Py.truthy result then
    match result with
    | VDict r => Returned (Py.truthy (Py.get "success" (VBool false) r))
    | _ => Raised
    end
  else Returned false.

End Statistics.

(** ** What a run leaves behind *)

Module Ledger.

Import Store.

Section Ledger.

Context {U : Type}.

(** A dictionary that holds a history list; the context does. *)
Definition listed (c : dict) : Prop :=
  exists h, Py.lookup "history" c = Some (VList h).

Definition has_history (w : World U) : Prop := listed (context w).

Definition keeps_history (w w' : World U) : Prop :=
  has_history w -> has_history w'.

(** The executor was left alone and the clock was not turned back. *)
Definition unhurried (w w' : World U) : Prop :=
  exec_log w' = exec_log w /\ clock w <= clock w'.

Definition steady (w w' : World U) : Prop :=
  unhurried w w' /\ keeps_history w w'.

(** [well_behaved]: hands its arguments back, leaves the executor alone
    and the history list in place, and does not turn the clock back. *)
Definition well_behaved (m : PyMiddleware (U := U)) : Prop :=
  quiet steady m.

(** The history holds, in order, the actions the executor was called
    with, and after them [stops]. *)
Definition faithful (stops : list value) (w : World U) : Prop :=
  exists h,
    Py.lookup "history" (context w) = Some (VList h)
    /\ map (UIAgent.entry_field "action") h = map fst (exec_log w) ++ stops.

(** An action the loop body of [step] hands to the executor. *)
Definition performable (action : value) : bool :=
  negb (Py.is_none action) && negb (UIAgent.should_stop action).

(** The log of the executor holds performable actions only. *)
Definition all_performable (w : World U) : Prop :=
  Forall (fun e => performable (fst e) = true) (exec_log w).

(** The store [run] enters its loop with: [setup], [setup_middlewares],
    the task and the start time. *)
Definition started (config : Config) (task : string) (w : World U)
    : World U :=
  let w := UIAgent.setup_middlewares (UIAgent.setup config w) in
  let w := with_context (Py.set "task" (VStr task) (context w)) w in
  let '(start_time, w) := tick w in
  with_context (Py.set "start_time" (VNum start_time) (context w)) w.

End Ledger.

End Ledger.

(** ** core/input_controller.py: executing an action *)

Module InputExecution.

Import Pipeline.

(** The calls of [pyautogui] the controller makes, with their
    arguments. *)
Inductive gui_call : Type :=
| moveTo (x y duration : value)
| click_at (x y clicks interval button duration : value)
| click_here (clicks interval button : value)
| position
| typewrite (text interval : value)
| press (key : value)
| hotkey (keys : list value)
| scroll (clicks : value)
| hscroll (clicks : value).

(** [-clicks] *)
Definition neg (v : value) : outcome value :=
  match v with
  | VNum n => Returned (VNum (- n))
  | VBool b => Returned (VNum (- (if b then 1 else 0)))
  | _ => Raised
  end.

(** [len(text) < 20] and, when it is not, [text[:17]]: whether the log
    line of [_type_text] can be built. *)
Definition loggable_text (text : value) : bool :=
  match text with
  | VStr _ | VList _ => true
  | VDict d => (length d <? 20)%nat
  | _ => false
  end.

(** ["+".join(keys)] is defined for strings only. *)
Definition is_str (v : value) : bool :=
  match v with VStr _ => true | _ => false end.

(** The controller: [self.move_duration], [self.type_interval], the
    interval [0.25] that [_click_mouse] takes when the action names
    none (a float, so a value left open here), and the device it
    drives -- whether a call raises, given the calls made so far. *)
Record Controller : Type := {
  move_duration : value;
  type_interval : value;
  click_interval : value;
  raises : list gui_call -> gui_call -> bool
}.

Section Controller.

Variable self : Controller.

(** One call: it is made, and it returns or raises. *)
Definition gui (c : gui_call) (trace : list gui_call)
    : outcome unit * list gui_call :=
  (if raises self trace c then Raised else Returned tt, trace ++ [c]).

(** [try: call; return True / except Exception: return False] *)
Definition attempt (c : gui_call) (trace : list gui_call)
    : bool * list gui_call :=
  match gui c trace with
  | (Returned _, trace') => (true, trace')
  | (Raised, trace') => (false, trace')
  end.

(** [_move_mouse(action)] *)
Definition _move_mouse (action : dict) (trace : list gui_call)
    : bool * list gui_call :=
  let x := Py.get "x" (VNum 0) action in
  let y := Py.get "y" (VNum 0) action in
  let duration := Py.get "duration" (move_duration self) action in
  attempt (moveTo x y duration) trace.

(** [_click_mouse(action)] *)
Definition _click_mouse (action : dict) (trace : list gui_call)
    : bool * list gui_call :=
  let x := Py.get "x" VNone action in
  let y := Py.get "y" VNone action in
  let button := Py.get "button" (VStr "left") action in
  let clicks := Py.get "clicks" (VNum 1) action in
  let interval := Py.get "interval" (click_interval self) action in
  let duration := Py.get "duration" (move_duration self) action in
  if negb (Py.is_none x) && negb (Py.is_none y) then
    attempt (click_at x y clicks interval button duration) trace
  else
    match gui (click_here clicks interval button) trace with
    | (Returned _, trace') => attempt position trace'
    | (Raised, trace') => (false, trace')
    end.

(** [_type_text(action)] *)
Definition _type_text (action : dict) (trace : list gui_call)
    : bool * list gui_call :=
  let text := Py.get "text" (VStr "") action in
  let interval := Py.get "interval" (type_interval self) action in
  match gui (typewrite text interval) trace with
  | (Returned _, trace') => (loggable_text text, trace')
  | (Raised, trace') => (false, trace')
  end.

(** [_press_key(action)] *)
Definition _press_key (action : dict) (trace : list gui_call)
    : bool * list gui_call :=
  let keys := Py.get "keys" (VList []) action in
  let keys := match keys with VStr _ => VList [keys] | _ => keys end in
  match keys with
  | VList [] => (false, trace)
  | VList [key] => attempt (press key) trace
  | VList keys =>
      match gui (hotkey keys) trace with
      | (Returned _, trace') => (forallb is_str keys, trace')
      | (Raised, trace') => (false, trace')
      end
  | VDict [] => (false, trace)
  | VDict [_] => (false, trace)
  | VDict d => attempt (hotkey (map (fun kv => VStr (fst kv)) d)) trace
  | _ => (false, trace)
  end.

(** [_scroll(action)] *)
Definition _scroll (action : dict) (trace : list gui_call)
    : bool * list gui_call :=
  let clicks := Py.get "clicks" (VNum 1) action in
  let direction := Py.get "direction" (VStr "down") action in
  if Py.eq_str direction "down" then
    match neg clicks with
    | Returned n => attempt (scroll n) trace
    | Raised => (false, trace)
    end
  else if Py.eq_str direction "up" then attempt (scroll clicks) trace
  else if Py.eq_str direction "left" then
    match neg clicks with
    | Returned n => attempt (hscroll n) trace
    | Raised => (false, trace)
    end
  else if Py.eq_str direction "right" then attempt (hscroll clicks) trace
  else (false, trace).

(** The dispatch of [execute] on the type of a validated action. *)
Definition dispatch (action : dict) (trace : list gui_call)
    : bool * list gui_call :=
  let action_type := Py.get "type" (VStr "") action in
  if Py.eq_str action_type "move" then _move_mouse action trace
  else if Py.eq_str action_type "click" then _click_mouse action trace
  else if Py.eq_str action_type "type" then _type_text action trace
  else if Py.eq_str action_type "key" then _press_key action trace
  else if Py.eq_str action_type "scroll" then _scroll action trace
  else if Py.eq_str action_type "stop" then (true, trace)
  else (false, trace).

(** [execute(action)] *)
Fixpoint execute (action : value) (trace : list gui_call)
    : bool * list gui_call :=
  match action with
  | VList l =>
      (fix each (l : list value) (trace : list gui_call)
         : bool * list gui_call :=
         match l with
         | [] => (true, trace)
         | act :: l' =>
             let '(suc, trace) := execute act trace in
             let '(rest, trace) := each l' trace in
             (suc && rest, trace)
         end) l trace
  | VDict a =>
      if negb (InputController.validate action) then (false, trace)
      else dispatch a trace
  | _ => (false, trace)
  end.

(** The calls [calls], made from [trace] on, all returned. *)
Fixpoint went_through (trace calls : list gui_call) : Prop :=
  match calls with
  | [] => True
  | c :: calls' =>
      raises self trace c = false /\ went_through (trace ++ [c]) calls'
  end.

End Controller.

(** A controller whose device never raises. *)
Definition calm : Controller := {|
  move_duration := VNum 0;
  type_interval := VNum 0;
  click_interval := VNum 0;
  raises := fun _ _ => false
|}.

(** Whether an action, or some action in a list of actions, passes
    [validate]. *)
Fixpoint any_valid (action : value) : bool :=
  match action with
  | VList l =>
      (fix any (l : list value) : bool :=
         match l with
         | [] => false
         | act :: l' => any_valid act || any l'
         end) l
  | _ => InputController.validate action
  end.

End InputExecution.

(** ** middlewares/logging_mw.py *)

Module LoggingMiddleware.

Import Store.
Local Open Scope monad_scope.

(** The lines the middleware writes to the log are not part of the
    store; what is kept of them is whether building a line raises. *)

(** [len(x)] is defined. *)
Definition sized (v : value) : bool :=
  match v with VStr _ | VList _ | VDict _ => true | _ => false end.

(** [text if len(text) < 20 else f"{text[:17]}..."] can be built. *)
Definition short_text (text : value) : bool :=
  match text with
  | VStr _ | VList _ => true
  | VDict d => (length d <? 20)%nat
  | _ => false
  end.

Definition is_str (v : value) : bool :=
  match v with VStr _ => true | _ => false end.

(** [_log_action(action)] *)
Definition _log_action (action : value) : outcome unit :=
  match action with
  | VDict a =>
      let action_type := Py.get "type" (VStr "unknown") a in
      if Py.eq_str action_type "type" then
        if short_text (Py.get "text" (VStr "") a) then Returned tt
        else Raised
      else if Py.eq_str action_type "key" then
        match Py.get "keys" (VList []) a with
        | VStr _ | VDict _ => Returned tt
        | VList keys => if forallb is_str keys then Returned tt else Raised
        | _ => Raised
        end
      else Returned tt
  | _ => Raised
  end.

Fixpoint log_each (l : list value) : outcome unit :=
  match l with
  | [] => Returned tt
  | act :: l' =>
      match _log_action act with
      | Returned _ => log_each l'
      | Raised => Raised
      end
  end.

(** The characters of a string, as iterating it yields them. *)
Fixpoint chars (s : string) : list value :=
  match s with
  | EmptyString => []
  | String c s' => VStr (String c EmptyString) :: chars s'
  end.

(** [_log_single_result(res, act)] *)
Definition _log_single_result (res act : value) : outcome unit :=
  if Py.is_dict res && Py.is_dict act then Returned tt else Raised.

(** [for i, (res, act) in enumerate(zip(result, action), 1)] *)
Fixpoint log_results (pairs : list (value * value)) : outcome unit :=
  match pairs with
  | [] => Returned tt
  | (res, act) :: pairs' =>
      match _log_single_result res act with
      | Returned _ => log_results pairs'
      | Raised => Raised
      end
  end.

Definition iterate (v : value) : outcome (list value) :=
  match v with
  | VList l => Returned l
  | VDict d => Returned (map (fun kv => VStr (fst kv)) d)
  | VStr s => Returned (chars s)
  | _ => Raised
  end.

(** ["start_time" in v] *)
Definition holds_start_time (v : value) : outcome bool :=
  match v with
  | VDict l => Returned (Py.has_key "start_time" l)
  | VStr s => Returned (UIAgent.contains "start_time" s)
  | VList l => Returned (existsb (fun x => Py.eq_str x "start_time") l)
  | _ => Raised
  end.

(** [time.time() - x] is defined. *)
Definition is_number (v : value) : bool :=
  match v with VNum _ | VBool _ => true | _ => false end.

Section Logging.

Context {U : Type}.

(** [self.log_state], and where the instance keeps its
    [operation_counter].  [self.log_details] adds lines that can
    always be built, the [json.dumps] of an action. *)
Variable log_state : bool.
Variable operation_counter : U -> Z.
Variable set_operation_counter : Z -> U -> U.

Definition with_user (u : U) (w : World U) : World U :=
  {| context := context w; clock := clock w; latencies := latencies w;
     exec_log := exec_log w; last_action_time := last_action_time w;
     stats := stats w; context_stats := context_stats w;
     current_prompt := current_prompt w; user := u |}.

(** [context["_logging"][key] = time.time()] *)
Definition stamp (key : string) (context : ref) : M (U := U) unit :=
  now <- time_time ;;
  c <- deref context ;;
  match Py.lookup "_logging" c with
  | Some (VDict l) =>
      assign context
        (Py.set "_logging" (VDict (Py.set key (VNum now) l)) c)
  | _ => raise
  end.

(** [LoggingMiddleware.process_before_perception] *)
Definition process_before_perception (context : ref) : M (U := U) ref :=
  (fun w =>
     (Returned tt,
      with_user
        (set_operation_counter (operation_counter (user w) + 1) (user w))
        w)) ;;
  c <- deref context ;;
  assign context (Py.set "_logging" (Py.get "_logging" (VDict []) c) c) ;;
  stamp "start_time" context ;;
  ret context.

(** [LoggingMiddleware.process_after_perception] *)
Definition process_after_perception (state : value) (context : ref)
    : M (U := U) (value * ref) :=
  (if Py.truthy state then
     match state with
     | VDict s =>
         if log_state && Py.has_key "image" s then
           let image := Py.get "image" VNone s in
           if Py.truthy image && negb (sized image) then raise else ret tt
         else ret tt
     | _ => raise
     end
   else ret tt) ;;
  ret (state, context).

(** [LoggingMiddleware.process_before_decision] *)
Definition process_before_decision (state : value) (context : ref)
    : M (U := U) (value * ref) :=
  ret (state, context).

(** [LoggingMiddleware.process_after_decision] *)
Definition process_after_decision (action state : value) (context : ref)
    : M (U := U) (value * value * ref) :=
  if negb (Py.truthy action) then ret (action, state, context)
  else
    lift (match action with
          | VList l => log_each l
          | _ => _log_action action
          end) ;;
    ret (action, state, context).

(** [LoggingMiddleware.process_before_execution] *)
Definition process_before_execution (action : value) (context : ref)
    : M (U := U) (value * ref) :=
  (if Py.truthy action then
     (match action with
      | VList _ | VDict _ => ret tt
      | _ => raise
      end) ;;
     c <- deref context ;;
     if Py.has_key "_logging" c then stamp "execute_start_time" context
     else ret tt
   else ret tt) ;;
  ret (action, context).

(** [LoggingMiddleware.process_after_execution] *)
Definition process_after_execution (result action : value) (context : ref)
    : M (U := U) (value * value * ref) :=
  if negb (Py.truthy result) || negb (Py.truthy action)
  then ret (result, action, context)
  else
    lift (match action with
          | VList l =>
              match iterate result with
              | Returned results => log_results (combine results l)
              | Raised => Raised
              end
          | _ => _log_single_result result action
          end) ;;
    c <- deref context ;;
    (match Py.lookup "_logging" c with
     | Some logging =>
         timed <- lift (holds_start_time logging) ;;
         if timed then
           now <- time_time ;;
           match logging with
           | VDict l =>
               if is_number (Py.get "start_time" VNone l) then ret tt
               else raise
           | _ => raise
           end
         else ret tt
     | None => ret tt
     end) ;;
    ret (result, action, context).

Definition middleware : PyMiddleware (U := U) := {|
  mw_before_perception := process_before_perception;
  mw_after_perception := process_after_perception;
  mw_before_decision := process_before_decision;
  mw_after_decision := process_after_decision;
  mw_before_execution := process_before_execution;
  mw_after_execution := process_after_execution
|}.

(** A step that keeps a property of the context. *)
Definition kept (P : dict -> Prop) (w w' : World U) : Prop :=
  P (context w) -> P (context w').

(** Two dictionaries that differ under ["_logging"] at most. *)
Definition same_but_logging (c c' : dict) : Prop :=
  forall k, k <> "_logging" -> Py.lookup k c' = Py.lookup k c.

End Logging.

End LoggingMiddleware.

(** ** utils/prompt_manager.py *)

Module PromptManager.

Import Pipeline.

(** Why a statement raised; the text of the exception is left open. *)
Inductive failure : Type :=
| no_attribute (v : value) (attribute : string)
| not_iterable (v : value)
| unhashable (v : value)
| no_len (v : value)
| bad_index (v : value)
| bad_argument (v : value).

(** ["s" in v] for a string literal: a key of a dict, a part of a
    string, an element of a list; a [TypeError] otherwise. *)
Definition member (s : string) (v : value) : option bool :=
  match v with
  | VDict d => Some (Py.has_key s d)
  | VStr t => Some (UIAgent.contains s t)
  | VList l => Some (existsb (fun x => Py.eq_str x s) l)
  | _ => None
  end.

Definition newline : string := String (ascii_of_nat 10) EmptyString.

(** The paths the manager works with: its two directories, the file of
    a prompt, and a backup file, named after a prompt and a time. *)
Inductive path : Type :=
| prompt_dir
| backup_dir
| prompt_file (name : string)
| backup_file (name : string) (time : Z).

(** The environment: the file system and the clock, whatever they are.
    An operation leaves an environment behind and tells whether it
    returned ([true]) or raised. *)
Record Environment (Env : Type) : Type := {
  path_exists : path -> Env -> bool;
  makedirs : path -> Env -> bool * Env;
  copy2 : path -> path -> Env -> bool * Env;
  move : path -> path -> Env -> bool * Env;
  remove : path -> Env -> bool * Env;
  write : path -> value -> Env -> bool * Env;
  time : Env -> Z
}.
Arguments path_exists {Env}.
Arguments makedirs {Env}.
Arguments copy2 {Env}.
Arguments move {Env}.
Arguments remove {Env}.
Arguments write {Env}.
Arguments time {Env}.

(** [self.prompts], [self.current_prompt], and the environment. *)
Record Manager (Env : Type) : Type := {
  prompts : dict;
  current_prompt : string;
  env : Env
}.
Arguments prompts {Env}.
Arguments current_prompt {Env}.
Arguments env {Env}.

Section Manager.

Context {Env : Type}.
Variable os : Environment Env.

Definition P (A : Type) : Type := Manager Env -> outcome A * Manager Env.

Definition with_env (e : Env) (m : Manager Env) : Manager Env :=
  {| prompts := prompts m; current_prompt := current_prompt m; env := e |}.

Definition with_prompts (p : dict) (m : Manager Env) : Manager Env :=
  {| prompts := p; current_prompt := current_prompt m; env := env m |}.

Definition with_current_prompt (name : string) (m : Manager Env)
    : Manager Env :=
  {| prompts := prompts m; current_prompt := name; env := env m |}.

(** [os.makedirs(p)] when [p] does not exist. *)
Definition ensure (p : path) : P unit :=
  fun m =>
    if path_exists os p (env m) then (Returned tt, m)
    else
      let '(ok, e) := makedirs os p (env m) in
      (if ok then Returned tt else Raised, with_env e m).

(** [_ensure_dirs()] *)
Definition _ensure_dirs : P unit :=
  fun m =>
    match ensure prompt_dir m with
    | (Returned _, m1) => ensure backup_dir m1
    | (Raised, m1) => (Raised, m1)
    end.

(** [save_prompt(name, content, overwrite)] *)
Definition save_prompt (name : string) (content : value) (overwrite : bool)
    : P bool :=
  fun m =>
    match _ensure_dirs m with
    | (Raised, m1) => (Raised, m1)
    | (Returned _, m1) =>
        let m2 :=
          if path_exists os (prompt_file name) (env m1) && negb overwrite
          then
            with_env
              (snd (copy2 os (prompt_file name)
                      (backup_file name (time os (env m1))) (env m1))) m1
          else m1 in
        let '(ok, e) := write os (prompt_file name) content (env m2) in
        if ok then
          (Returned true,
           with_prompts (Py.set name content (prompts m2)) (with_env e m2))
        else (Returned false, with_env e m2)
    end.

(** [delete_prompt(name, backup)] *)
Definition delete_prompt (name : string) (backup : bool) : P bool :=
  fun m =>
    if String.eqb name "default" then (Returned false, m)
    else
      let forgotten :=
        match Py.lookup name (prompts m) with
        | Some content =>
            let saved :=
              if backup
              then save_prompt (name ++ "_deleted")%string content true m
              else (Returned true, m) in
            match saved with
            | (Raised, m1) => (Raised, m1)
            | (Returned _, m1) =>
                let m2 := with_prompts (Py.del name (prompts m1)) m1 in
                (Returned tt,
                 if String.eqb (current_prompt m2) name
                 then with_current_prompt "default" m2 else m2)
            end
        | None => (Returned tt, m)
        end in
      match forgotten with
      | (Raised, m1) => (Raised, m1)
      | (Returned _, m1) =>
          if path_exists os (prompt_file name) (env m1) then
            let '(ok, e) :=
              if backup
              then move os (prompt_file name)
                     (backup_file name (time os (env m1))) (env m1)
              else remove os (prompt_file name) (env m1) in
            (Returned ok, with_env e m1)
          else (Returned true, m1)
      end.

(** [get_prompt(name)]; [name] is [None] for the current prompt. *)
Definition get_prompt (name : value) (m : Manager Env) : outcome value :=
  let name := if Py.is_none name then VStr (current_prompt m) else name in
  match name with
  | VStr n =>
      match Py.lookup n (prompts m) with
      | Some content => Returned content
      | None => Returned (Py.get "default" (VStr "") (prompts m))
      end
  | VList _ | VDict _ => Raised
  | _ => Returned (Py.get "default" (VStr "") (prompts m))
  end.

(** [set_current_prompt(name)] *)
Definition set_current_prompt (name : string) : P bool :=
  fun m =>
    if negb (Py.has_key name (prompts m)) then (Returned false, m)
    else (Returned true, with_current_prompt name m).

(** [list_prompts()] *)
Definition list_prompts (m : Manager Env) : list string :=
  map fst (prompts m).

(** [LLMDecision.add_prompt(name, content, save_to_file)] *)
Definition add_prompt (name : string) (content : value) (save_to_file : bool)
    : P bool :=
  fun m =>
    if negb (Py.has_key name (prompts m)) then
      let m1 := with_prompts (Py.set name content (prompts m)) m in
      if save_to_file then save_prompt name content false m1
      else (Returned true, m1)
    else (Returned false, m).

(** The manager can always fall back: the default prompt is loaded, and
    so is the current one. *)
Definition grounded (m : Manager Env) : Prop :=
  Py.has_key "default" (prompts m) = true
  /\ Py.has_key (current_prompt m) (prompts m) = true.

End Manager.

(** Whether every prompt is a text. *)
Definition all_text (d : dict) : bool :=
  forallb (fun kv => match snd kv with VStr _ => true | _ => false end) d.

Section Format.

(** [self.config], and the library: [json.dumps(_, ensure_ascii=False)],
    [str], and [str.replace] ([replace s old new] is
    [s.replace(old, new)]). *)
Variable config : Store.Config.
Variable json_dumps : value -> string.
Variable str : value -> string.
Variable replace : string -> string -> string -> string.

(** The body of [for i, item in enumerate(recent_history)]: the line
    added to [history_text], if any. *)
Definition line (i : Z) (item : value) : option string + failure :=
  match member "action" item with
  | None => inr (not_iterable item)
  | Some false => inl None
  | Some true =>
      match member "result" item with
      | None => inr (not_iterable item)
      | Some false => inl None
      | Some true =>
          match item with
          | VDict it =>
              let action_str := json_dumps (Py.get "action" VNone it) in
              match Py.get "result" VNone it with
              | VDict r =>
                  let result_str :=
                    if Py.truthy (Py.get "success" (VBool false) r)
                    then "成功" else "失败" in
                  inl (Some (str (VNum (i + 1)) ++ ". " ++ action_str
                             ++ " - " ++ result_str ++ newline)%string)
              | result => inr (no_attribute result "get")
              end
          | _ => inr (bad_index item)
          end
      end
  end.

Fixpoint lines (i : Z) (items : list value) (history_text : string)
    : string + failure :=
  match items with
  | [] => inl history_text
  | item :: rest =>
      match line i item with
      | inr e => inr e
      | inl None => lines (i + 1) rest history_text
      | inl (Some l) => lines (i + 1) rest (history_text ++ l)%string
      end
  end.

(** [history_text], from [history = context.get("history", [])].  A
    string has a length and slices, and none of its characters holds
    ["action"]. *)
Definition history_text (history : value) : string + failure :=
  if negb (Py.truthy history) then inl EmptyString
  else
    match history with
    | VList h =>
        lines 0
          (Py.slice_from_neg
             (Z.min (Store.max_history config) (Z.of_nat (length h))) h)
          EmptyString
    | VStr _ => inl EmptyString
    | VDict _ => inr (bad_index history)
    | _ => inr (no_len history)
    end.

(** [for var_name, var_value in custom_vars.items()] *)
Fixpoint custom (vars : dict) (result : string) : string :=
  match vars with
  | [] => result
  | (var_name, var_value) :: rest =>
      let placeholder := ("{" ++ var_name ++ "}")%string in
      custom rest
        (if UIAgent.contains placeholder result
         then replace result placeholder (str var_value)
         else result)
  end.

(** [format_prompt(prompt_content, context)] *)
Definition format_prompt (prompt_content : value) (context : dict)
    : string + failure :=
  let task := Py.get "task" (VStr EmptyString) context in
  match history_text (Py.get "history" (VList []) context) with
  | inr e => inr e
  | inl text =>
      match prompt_content with
      | VStr content =>
          match task with
          | VStr task =>
              let result := replace content "{task}" task in
              let result := replace result "{history}" text in
              match Py.get "prompt_vars" (VDict []) context with
              | VDict vars => inl (custom vars result)
              | custom_vars => inr (no_attribute custom_vars "items")
              end
          | _ => inr (bad_argument task)
          end
      | _ => inr (no_attribute prompt_content "replace")
      end
  end.

(** An entry as [step] appends it to the history: a dict whose result
    is a dict. *)
Definition recorded_entry (item : value) : bool :=
  match item with
  | VDict it =>
      match Py.lookup "result" it with
      | Some (VDict _) => true
      | _ => false
      end
  | _ => false
  end.

(** An entry with an action and a result dict, as [step] and the
    state-tracking middleware append them to the history. *)
Definition complete_entry (item : value) : bool :=
  match item with
  | VDict it => Py.has_key "action" it && recorded_entry item
  | _ => false
  end.

(** The line [f"{i+1}. {action_str} - {result_str}\n"] of such an
    entry, [number] being [i+1]. *)
Definition entry_line (number : Z) (item : value) : string :=
  (str (VNum number) ++ ". "
   ++ json_dumps (UIAgent.entry_field "action" item) ++ " - "
   ++ (if Py.truthy
            (UIAgent.entry_field "success"
               (UIAgent.entry_field "result" item))
       then "成功" else "失败")
   ++ newline)%string.

End Format.

End PromptManager.

(** ** core/screen_capture.py *)

Module ScreenCapture.

(** The calls of [pyautogui] the module makes. *)
Inductive gui_call : Type := take_screenshot | read_position.

(** The screen: what [pyautogui.screenshot()] returns ([None] when it
    raises) and what [pyautogui.position()] returns (or the text of the
    exception), given the calls made so far; the size of an image; and
    its PNG data in base64 (or the text of the exception when saving or
    encoding raises). *)
Record Screen (Image : Type) : Type := {
  screenshot : list gui_call -> option Image;
  position : list gui_call -> value + string;
  size : Image -> Z * Z;
  encode : Image -> string + string
}.
Arguments screenshot {Image}.
Arguments position {Image}.
Arguments size {Image}.
Arguments encode {Image}.

(** [self.min_capture_interval], [self.last_screenshot],
    [self.last_capture_time], and the calls made so far. *)
Record Capture (Image : Type) : Type := {
  min_capture_interval : Z;
  last_screenshot : option Image;
  last_capture_time : Z;
  calls : list gui_call
}.
Arguments min_capture_interval {Image}.
Arguments last_screenshot {Image}.
Arguments last_capture_time {Image}.
Arguments calls {Image}.

Section Capture.

Context {Image : Type}.
Variable screen : Screen Image.

(** [ScreenCapture(config)] *)
Definition init (min_capture_interval : Z) : Capture Image :=
  {| min_capture_interval := min_capture_interval;
     last_screenshot := None;
     last_capture_time := 0;
     calls := [] |}.

(** [capture()], with the reading [current_time] of [time.time()]. *)
Definition capture (current_time : Z) (self : Capture Image)
    : option Image * Capture Image :=
  if current_time - last_capture_time self <? min_capture_interval self then
    (last_screenshot self, self)
  else
    match screenshot screen (calls self) with
    | Some image =>
        (Some image,
         {| min_capture_interval := min_capture_interval self;
            last_screenshot := Some image;
            last_capture_time := current_time;
            calls := calls self ++ [take_screenshot] |})
    | None =>
        (None,
         {| min_capture_interval := min_capture_interval self;
            last_screenshot := last_screenshot self;
            last_capture_time := last_capture_time self;
            calls := calls self ++ [take_screenshot] |})
    end.

Definition failed (message : string) (timestamp : Z) : dict :=
  [("error", VStr message); ("timestamp", VNum timestamp)].

(** [process()], with the readings of [time.time()]: the one of
    [capture], and the one that stamps the state. *)
Definition process (current_time timestamp : Z) (self : Capture Image)
    : dict * Capture Image :=
  let '(shot, self) := capture current_time self in
  match shot with
  | None => (failed "Failed to capture screen" timestamp, self)
  | Some image =>
      match encode screen image with
      | inr message => (failed message timestamp, self)
      | inl img_str =>
          let '(width, height) := size screen image in
          let self' :=
            {| min_capture_interval := min_capture_interval self;
               last_screenshot := last_screenshot self;
               last_capture_time := last_capture_time self;
               calls := calls self ++ [read_position] |} in
          match position screen (calls self) with
          | inl cursor_position =>
              ([("image", VStr img_str);
                ("screen_width", VNum width);
                ("screen_height", VNum height);
                ("timestamp", VNum timestamp);
                ("cursor_position", cursor_position)], self')
          | inr message => (failed message timestamp, self')
          end
      end
  end.

End Capture.

End ScreenCapture.

(** ** middlewares/screenshot_logger.py: the stop test *)

Module ScreenshotLoggerMiddleware.

(** [_is_stop_action(action)]; the rest of the middleware writes
    images and text files and is not embedded. *)
Fixpoint _is_stop_action (action : value) : bool :=
  match action with
  | VDict a => Py.eq_str (Py.get "type" VNone a) "stop"
  | VList l =>
      (fix any (l : list value) : bool :=
         match l with
         | [] => false
         | a :: l' =>
             match a with
             | VDict _ => _is_stop_action a || any l'
             | _ => any l'
             end
         end) l
  | _ => false
  end.

End ScreenshotLoggerMiddleware.

(** ** core/llm_decision.py: the decision *)

Module Brain.

Import Pipeline PromptManager.

(** ["error" in state] *)
Definition holds_error (state : value) : option bool :=
  member "error" state.

(** What the brain takes from outside: [re.search] and [json.loads] as
    for [_parse_response]; [json.dumps], [str] and [str.replace] as for
    [format_prompt]; [str(e)] for an exception; and what [_call_api]
    makes of a request to the model, given the requests sent before --
    the text of the reply, [None] when the reply has no text, or the
    text that reports the failure. *)
Record Library : Type := {
  fenced_block : string -> option string;
  json_loads : string -> option value;
  json_dumps : value -> string;
  str : value -> string;
  replace : string -> string -> string -> string;
  describe : failure -> string;
  request : list (string * value) -> string -> value -> option string
}.

(** [self.api_key], [self.prompt_manager], [self.request_count], and the
    requests sent so far. *)
Record LLMDecision (Env : Type) : Type := {
  api_key : value;
  prompt_manager : Manager Env;
  request_count : Z;
  requests : list (string * value)
}.
Arguments api_key {Env}.
Arguments prompt_manager {Env}.
Arguments request_count {Env}.
Arguments requests {Env}.

Section Decide.

Context {Env : Type}.
Variable config : Store.Config.
Variable lib : Library.

(** [_call_api(prompt, image_data)] *)
Definition _call_api (prompt : string) (image_data : value)
    (self : LLMDecision Env) : option string * LLMDecision Env :=
  if negb (Py.truthy (api_key self)) then (Some "API密钥未提供", self)
  else
    (request lib (requests self) prompt image_data,
     {| api_key := api_key self;
        prompt_manager := prompt_manager self;
        request_count := request_count self;
        requests := requests self ++ [(prompt, image_data)] |}).

(** What [context["_full_model_response"]] is set to. *)
Definition response_value (full_response : option string) : value :=
  match full_response with
  | Some text => VStr text
  | None => VNone
  end.

(** [decide(state, context)]: the action, the context as it leaves it,
    and the brain. *)
Definition decide (state : value) (context : dict) (self : LLMDecision Env)
    : value * dict * LLMDecision Env :=
  let failed (e : failure) :=
    (LLMDecision.stop_action ("决策过程错误: " ++ describe lib e)%string,
     context, self) in
  let invalid :=
    match state with
    | VDict s =>
        (LLMDecision.stop_action
           ("状态获取失败: "
            ++ str lib (Py.get "error" (VStr "未知错误") s))%string,
         context, self)
    | _ => failed (no_attribute state "get")
    end in
  if negb (Py.truthy state) then invalid
  else
    match holds_error state with
    | None => failed (not_iterable state)
    | Some true => invalid
    | Some false =>
        let prompt_name := Py.get "prompt_name" VNone context in
        match get_prompt prompt_name (prompt_manager self) with
        | Raised => failed (unhashable prompt_name)
        | Returned prompt_content =>
            match format_prompt config (json_dumps lib) (str lib)
                    (replace lib) prompt_content context with
            | inr e => failed e
            | inl prompt =>
                match state with
                | VDict s =>
                    let '(full_response, self) :=
                      _call_api prompt (Py.get "image" (VStr EmptyString) s)
                        self in
                    (LLMDecision._parse_response (fenced_block lib)
                       (json_loads lib) full_response,
                     Py.set "_full_model_response"
                       (response_value full_response) context,
                     {| api_key := api_key self;
                        prompt_manager := prompt_manager self;
                        request_count := request_count self + 1;
                        requests := requests self |})
                | _ => failed (no_attribute state "get")
                end
            end
        end
    end.

End Decide.

(** A library that finds nothing and never gets a reply. *)
Definition silent : Library := {|
  fenced_block := fun _ => None;
  json_loads := fun _ => None;
  json_dumps := fun _ => "null";
  str := fun _ => "?";
  replace := fun s _ _ => s;
  describe := fun _ => "?";
  request := fun _ _ _ => None
|}.

End Brain.

(** * Properties *)

(** ** Dictionaries and slices *)

Module PyFacts.

Import Py.

Lemma lookup_set_same k v d : lookup k (set k v d) = Some v.
Proof.
  induction d as [|[k' v'] d IH]; simpl.
  - now rewrite String.eqb_refl.
  - destruct (String.eqb k k') eqn:E; simpl; rewrite E; auto.
Qed.

Lemma lookup_set_other k k' v d :
  k <> k' -> lookup k (set k' v d) = lookup k d.
Proof.
  intros Hne. induction d as [|[k0 v0] d IH]; simpl.
  - destruct (String.eqb_spec k k'); congruence.
  - destruct (String.eqb_spec k' k0) as [->|Hk]; simpl.
    + destruct (String.eqb_spec k k0); congruence.
    + destruct (String.eqb_spec k k0); auto.
Qed.

Lemma lookup_del_same k d : lookup k (del k d) = None.
Proof.
  induction d as [|[k' v'] d IH]; simpl; auto.
  destruct (String.eqb k k') eqn:E; simpl; auto. now rewrite E.
Qed.

Lemma lookup_del_other k k' d :
  k <> k' -> lookup k (del k' d) = lookup k d.
Proof.
  intros Hne. induction d as [|[k0 v0] d IH]; simpl; auto.
  destruct (String.eqb_spec k' k0) as [->|Hk]; simpl.
  - destruct (String.eqb_spec k k0); congruence.
  - destruct (String.eqb_spec k k0); auto.
Qed.

Lemma set_set k v v' d : set k v' (set k v d) = set k v' d.
Proof.
  induction d as [|[k0 v0] d IH]; simpl.
  - now rewrite String.eqb_refl.
  - destruct (String.eqb k k0) eqn:E; simpl; rewrite E; [reflexivity|].
    now rewrite IH.
Qed.

Lemma has_key_lookup k d v : lookup k d = Some v -> has_key k d = true.
Proof. unfold has_key. now intros ->. Qed.

Lemma last_n_length {A} n (l : list A) :
  length (last_n n l) = Nat.min n (length l).
Proof. unfold last_n. rewrite length_skipn. lia. Qed.

Lemma last_n_suffix {A} n (l : list A) :
  exists old, l = old ++ last_n n l.
Proof.
  exists (firstn (length l - n) l). unfold last_n.
  now rewrite firstn_skipn.
Qed.

Lemma last_n_all {A} n (l : list A) :
  (length l <= n)%nat -> last_n n l = l.
Proof.
  intros H. unfold last_n.
  replace (length l - n)%nat with 0%nat by lia. reflexivity.
Qed.

End PyFacts.

(** ** Validation of actions *)

Module ValidateFacts.

Import InputController.

Lemma truthy_tag (t : string) :
  Py.truthy (VStr t) = negb (String.eqb t "").
Proof. reflexivity. Qed.

Lemma validate_dict_tag (a : dict) (t : string) :
  Py.lookup "type" a = Some (VStr t) ->
  validate (VDict a) = presence_rules (VDict a).
Proof.
  intros Ht. unfold validate, presence_rules, given, Py.get. rewrite Ht.
  cbn [Py.truthy Py.eq_str].
  destruct (String.eqb_spec t "") as [->|_]; [reflexivity|].
  cbn [negb].
  destruct (String.eqb t "move").
  { now destruct (Py.has_key "x" a), (Py.has_key "y" a). }
  destruct (String.eqb t "click").
  { now destruct (Py.lookup "x" a) as [[]|], (Py.lookup "y" a) as [[]|]. }
  destruct (String.eqb t "type").
  { now destruct (Py.has_key "text" a). }
  destruct (String.eqb t "key").
  { now destruct (Py.has_key "keys" a). }
  destruct (String.eqb t "scroll").
  { now destruct (Py.has_key "direction" a), (Py.has_key "x" a),
      (Py.has_key "y" a). }
  reflexivity.
Qed.

Lemma validate_other_tag (a : dict) :
  (forall t, Py.lookup "type" a <> Some (VStr t)) ->
  validate (VDict a) = false.
Proof.
  intros Ht. unfold validate, Py.get.
  destruct (Py.lookup "type" a) as [[| b | n | t | l | d]|]; cbn;
    try reflexivity.
  - now destruct b.
  - now destruct (n =? 0).
  - now destruct (Ht t).
  - now destruct l.
  - now destruct d.
Qed.

(** C7, as the code has it: [validate] checks which keys are present,
    never what their values are.  [move] needs the keys [x] and [y];
    [click] needs [x] and [y] both given (not [None]) or both not given;
    [type] needs [text]; [key] needs [keys], of any value, an empty list
    included; [scroll] needs [direction] or both [x] and [y]; [stop] is
    valid; a missing, non-string or unknown tag is invalid.  The five rows
    of the validation table hold. *)
Theorem validate_checks_presence :
  (forall action, validate action = presence_rules action)
  /\ validate move_x10 = false
  /\ validate click_bare = true
  /\ validate scroll_bare = false
  /\ validate key_a = true
  /\ validate scroll_up = true.
Proof.
  split; [|repeat split; reflexivity].
  intros [| b | n | s | l | a]; try reflexivity.
  destruct (Py.lookup "type" a) as [[| b | n | t | l | d]|] eqn:Ht;
    try (rewrite validate_other_tag by congruence;
         unfold presence_rules; now rewrite Ht).
  now apply validate_dict_tag with (t := t).
Qed.

(** C7 as stated fails: a [key] action with an empty key list and a
    [move] action with non-numeric coordinates both pass [validate]. *)
Lemma validate_ignores_values :
  validate key_empty = true /\ spec_validate key_empty = false
  /\ validate move_text = true /\ spec_validate move_text = false.
Proof. repeat split; reflexivity. Qed.

End ValidateFacts.

(** ** Decoding and normalizing a decision *)

Module DecisionFacts.

Import LLMDecision UIAgent.

Section Decoding.

Variable fenced_block : string -> option string.
Variable json_loads : string -> option value.

Lemma normalize_stop_action (reason : string) :
  normalize (stop_action reason) = [stop_action reason].
Proof. reflexivity. Qed.

Lemma invalid_format_well_formed (v : value) :
  invalid_format v = negb (well_formed v).
Proof.
  destruct v as [| b | n | s | l | d]; try reflexivity.
  destruct l as [|[| b | n | s | l' | d] l]; reflexivity.
Qed.

Lemma normalize_well_formed (v : value) :
  well_formed v = true ->
  normalize v <> []
  /\ match v with VList l => normalize v = l | _ => normalize v = [v] end.
Proof.
  destruct v as [| b | n | s | l | d]; cbn; try discriminate.
  - destruct l; [discriminate|]. intros _. split; [discriminate|reflexivity].
  - intros _. split; [discriminate|reflexivity].
Qed.

(** C6: the action sequence obtained from a response of the decision
    backend is never empty.  A decoded dict with a type tag is wrapped
    into a one-element list, a decoded list whose first element is a dict
    with a type tag is used as it is, and every other outcome -- nothing
    decoded, an empty list, a value that is neither dict nor list, a dict
    without a tag, a list whose first element is not a tagged dict --
    yields exactly one stop action that carries a reason. *)
Theorem normalize_never_empty (response : option string) :
  let actions := normalize (_parse_response fenced_block json_loads response) in
  actions <> []
  /\ match decoded fenced_block json_loads response with
     | Some decision =>
         if well_formed decision then
           match decision with
           | VList l => actions = l
           | _ => actions = [decision]
           end
         else exists reason,
             actions = [stop_action reason]
             /\ should_stop (stop_action reason) = true
     | None =>
         exists reason,
           actions = [stop_action reason]
           /\ should_stop (stop_action reason) = true
     end.
Proof.
  unfold _parse_response, decoded.
  destruct response as [r|]; cbn zeta.
  2:{ split; [discriminate|]. eexists. split; reflexivity. }
  destruct (String.prefix "API" r).
  { split; [discriminate|]. eexists. split; reflexivity. }
  destruct (fenced_block r) as [json_str|].
  2:{ split; [discriminate|]. eexists. split; reflexivity. }
  destruct (json_loads json_str) as [action|].
  2:{ split; [discriminate|]. eexists. split; reflexivity. }
  rewrite invalid_format_well_formed.
  destruct (well_formed action) eqn:Hwf; cbn [negb].
  - destruct (normalize_well_formed action Hwf) as [Hne Hshape].
    split; [exact Hne|]. destruct action; exact Hshape.
  - split; [discriminate|]. eexists. split; reflexivity.
Qed.

End Decoding.

End DecisionFacts.

(** ** The middleware manager *)

Module PipelineFacts.

Import Pipeline.

Section Chain.

Context {W Ctx St Act Res X : Type}.
Variable phase : Middleware W Ctx St Act Res -> X -> call (W := W) X.
Variable rejected : X -> bool.

Lemma for_each_raise pre m post x w x1 w1 w2 :
  for_each phase rejected pre x w = (x1, w1, Exhausted) ->
  phase m x1 w1 = (Raised, w2) ->
  for_each phase rejected (pre ++ m :: post) x w
  = for_each phase rejected post x1 w2.
Proof.
  revert x w. induction pre as [|m0 pre IH]; intros x w Hpre Hm; cbn in *.
  - injection Hpre as -> ->. now rewrite Hm.
  - destruct (phase m0 x w) as [[x'|] w'].
    + destruct (rejected x'); [discriminate|]. now apply IH.
    + now apply IH.
Qed.

Lemma for_each_return pre m post x w x1 w1 x2 w2 :
  for_each phase rejected pre x w = (x1, w1, Exhausted) ->
  phase m x1 w1 = (Returned x2, w2) ->
  for_each phase rejected (pre ++ m :: post) x w
  = if rejected x2 then (x2, w2, Broke)
    else for_each phase rejected post x2 w2.
Proof.
  revert x w. induction pre as [|m0 pre IH]; intros x w Hpre Hm; cbn in *.
  - injection Hpre as -> ->. now rewrite Hm.
  - destruct (phase m0 x w) as [[x'|] w'].
    + destruct (rejected x'); [discriminate|]. now apply IH.
    + now apply IH.
Qed.

Lemma for_each_all_raise ms x w :
  (forall m w', In m ms -> fst (phase m x w') = Raised) ->
  fst (fst (for_each phase rejected ms x w)) = x.
Proof.
  revert w. induction ms as [|m ms IH]; intros w Hall; cbn; [reflexivity|].
  pose proof (Hall m w (or_introl eq_refl)) as Hm.
  destruct (phase m x w) as [[x'|] w']; cbn in Hm; [discriminate|].
  apply IH. intros m' w'' Hin. apply Hall. now right.
Qed.

Lemma isolates_for_each :
  isolates phase rejected
    (fun ms x w => finish (for_each phase rejected ms x w)).
Proof.
  intros pre m post x w x1 w1 w2 Hpre Hm. unfold finish.
  rewrite (for_each_raise pre m post x w x1 w1 w2 Hpre Hm).
  split; [reflexivity|]. intros Hall. now apply for_each_all_raise.
Qed.

Lemma passes_on_for_each :
  passes_on phase rejected
    (fun ms x w => finish (for_each phase rejected ms x w)).
Proof.
  intros pre m post x w x1 w1 x2 w2 Hpre Hm Hrej. unfold finish.
  rewrite (for_each_return pre m post x w x1 w1 x2 w2 Hpre Hm), Hrej.
  split; [reflexivity|]. intros Hall.
  pose proof (for_each_all_raise post x2 w2 Hall) as Hout.
  destruct (for_each phase rejected post x2 w2) as [[x3 w3] e].
  cbn in Hout |- *. now rewrite Hout.
Qed.

Lemma short_circuits_for_each :
  short_circuits phase rejected
    (fun ms x w => finish (for_each phase rejected ms x w)).
Proof.
  intros pre m post x w x1 w1 x2 w2 Hpre Hm Hrej. unfold finish.
  rewrite (for_each_return pre m post x w x1 w1 x2 w2 Hpre Hm).
  now rewrite Hrej.
Qed.

End Chain.

Section SixPhases.

Context {W Ctx St Act Res : Type}.
Variable is_None : Act -> bool.

(** C3: in each of the six phases the manager carries the values of the
    last middleware that returned.  A middleware that raises is passed
    over: the call goes on with the values held before it, and the rest
    of the chain still runs on them.  A middleware that returns hands
    its output to the rest of the chain.  So when no later middleware
    returns, the output of the phase is the output of the last
    middleware that did return -- or, when a middleware raised and none
    returned after it, the values held before that middleware. *)
Theorem error_isolation :
  (isolates (W := W) (Ctx := Ctx) (St := St) (Act := Act) (Res := Res)
     phase1 never
     (fun ms c => process_before_perception ms c)
   /\ passes_on (W := W) (Ctx := Ctx) (St := St) (Act := Act) (Res := Res)
        phase1 never
        (fun ms c => process_before_perception ms c))
  /\ (isolates (W := W) (Ctx := Ctx) (St := St) (Act := Act) (Res := Res)
        phase2 never
        (fun ms x => process_after_perception ms (fst x) (snd x))
      /\ passes_on (W := W) (Ctx := Ctx) (St := St) (Act := Act) (Res := Res)
           phase2 never
           (fun ms x => process_after_perception ms (fst x) (snd x)))
  /\ (isolates (W := W) (Ctx := Ctx) (St := St) (Act := Act) (Res := Res)
        phase3 never
        (fun ms x => process_before_decision ms (fst x) (snd x))
      /\ passes_on (W := W) (Ctx := Ctx) (St := St) (Act := Act) (Res := Res)
           phase3 never
           (fun ms x => process_before_decision ms (fst x) (snd x)))
  /\ (isolates (W := W) (Ctx := Ctx) (St := St) (Act := Act) (Res := Res)
        phase4 (rejected4 is_None)
        (fun ms x =>
           process_after_decision is_None ms (fst (fst x)) (snd (fst x))
             (snd x))
      /\ passes_on (W := W) (Ctx := Ctx) (St := St) (Act := Act) (Res := Res)
           phase4 (rejected4 is_None)
           (fun ms x =>
              process_after_decision is_None ms (fst (fst x)) (snd (fst x))
                (snd x)))
  /\ (isolates (W := W) (Ctx := Ctx) (St := St) (Act := Act) (Res := Res)
        phase5 (rejected5 is_None)
        (fun ms x => process_before_execution is_None ms (fst x) (snd x))
      /\ passes_on (W := W) (Ctx := Ctx) (St := St) (Act := Act) (Res := Res)
           phase5 (rejected5 is_None)
           (fun ms x => process_before_execution is_None ms (fst x) (snd x)))
  /\ (isolates (W := W) (Ctx := Ctx) (St := St) (Act := Act) (Res := Res)
        phase6 never
        (fun ms x =>
           process_after_execution ms (fst (fst x)) (snd (fst x)) (snd x))
      /\ passes_on (W := W) (Ctx := Ctx) (St := St) (Act := Act) (Res := Res)
           phase6 never
           (fun ms x =>
              process_after_execution ms (fst (fst x)) (snd (fst x))
                (snd x))).
Proof.
  refine (conj (conj _ _) (conj (conj _ _) (conj (conj _ _)
           (conj (conj _ _) (conj (conj _ _) (conj _ _)))))).
  all: try (intros pre m post x w x1 w1 w2 Hpre Hm;
            first
              [ destruct x as [[? ?] ?], x1 as [[? ?] ?]
              | destruct x as [? ?], x1 as [? ?]
              | idtac ];
            exact (isolates_for_each _ _ pre m post _ w _ w1 w2 Hpre Hm)).
  all: intros pre m post x w x1 w1 x2 w2 Hpre Hm Hrej.
  all: first
    [ destruct x as [[? ?] ?], x1 as [[? ?] ?], x2 as [[? ?] ?]
    | destruct x as [? ?], x1 as [? ?], x2 as [? ?]
    | idtac ].
  all: exact (passes_on_for_each _ _ pre m post _ w _ w1 _ w2 Hpre Hm Hrej).
Qed.

End SixPhases.

Lemma error_isolation_witness :
  process_after_execution
    [Store.base; Scenario.broken; Scenario.late_veto]
    (VBool true) Scenario.click11 Store.the_context Scenario.ready
  = process_after_execution [Scenario.late_veto]
      (VBool true) Scenario.click11 Store.the_context Scenario.ready
  /\ fst (process_after_decision Py.is_none
            [Store.base; Scenario.broken; Scenario.broken]
            Scenario.click11 Scenario.screen Store.the_context
            Scenario.ready)
     = (Scenario.click11, Scenario.screen, Store.the_context)
  /\ fst (process_after_execution
            [Store.base; Scenario.overrides; Scenario.broken;
             Scenario.broken]
            (VBool true) Scenario.click11 Store.the_context Scenario.ready)
     = (VNum 42, Scenario.click11, Store.the_context)
  /\ fst (process_after_execution
            [Scenario.broken; Scenario.overrides]
            (VBool true) Scenario.click11 Store.the_context Scenario.ready)
     = (VNum 42, Scenario.click11, Store.the_context).
Proof.
  destruct (error_isolation (W := Store.World unit) (Ctx := Store.ref)
              (St := value) (Act := value) (Res := value) Py.is_none)
    as (_ & _ & _ & [H4 _] & _ & [H6 P6]).
  split; [|split; [|split]].
  - exact (proj1 (H6 [Store.base] Scenario.broken [Scenario.late_veto]
                    (VBool true, Scenario.click11, Store.the_context)
                    Scenario.ready
                    (VBool true, Scenario.click11, Store.the_context)
                    Scenario.ready Scenario.ready eq_refl eq_refl)).
  - apply (proj2 (H4 [Store.base] Scenario.broken [Scenario.broken]
                    (Scenario.click11, Scenario.screen, Store.the_context)
                    Scenario.ready
                    (Scenario.click11, Scenario.screen, Store.the_context)
                    Scenario.ready Scenario.ready eq_refl eq_refl)).
    intros m' w' [<-|[]]. reflexivity.
  - refine (f_equal fst
              (proj2 (P6 [Store.base] Scenario.overrides
                        [Scenario.broken; Scenario.broken]
                        (VBool true, Scenario.click11, Store.the_context)
                        Scenario.ready
                        (VBool true, Scenario.click11, Store.the_context)
                        Scenario.ready
                        (VNum 42, Scenario.click11, Store.the_context)
                        _ eq_refl eq_refl eq_refl) _)).
    intros m' w' [<-|[<-|[]]]; reflexivity.
  - exact (eq_trans
             (f_equal fst
                (proj1 (H6 [] Scenario.broken [Scenario.overrides]
                          (VBool true, Scenario.click11, Store.the_context)
                          Scenario.ready
                          (VBool true, Scenario.click11, Store.the_context)
                          Scenario.ready Scenario.ready eq_refl eq_refl)))
             eq_refl).
Defined.

End PipelineFacts.

(** ** Chains of quiet middlewares *)

Module FrameFacts.

Import Store.
Local Open Scope monad_scope.

Section Quiet.

Context {U : Type}.
Variable R : World U -> World U -> Prop.
Hypothesis R_refl : forall w, R w w.
Hypothesis R_trans : forall w1 w2 w3, R w1 w2 -> R w2 w3 -> R w1 w3.

Context {X : Type}.
Variable phase : PyMiddleware (U := U) -> X -> call (W := World U) X.
Variable rejected : X -> bool.

Lemma for_each_quiet ms x w :
  Forall (quiet_call R phase) ms ->
  rejected x = false ->
  exists w',
    for_each phase rejected ms x w = (x, w', Exhausted) /\ R w w'.
Proof.
  intros Hall Hx. revert w.
  induction Hall as [|m ms Hm _ IH]; intros w.
  - exists w. split; [reflexivity|apply R_refl].
  - cbn [for_each]. destruct (Hm x w) as [Hout Hw].
    destruct (phase m x w) as [o w1]. cbn [fst snd] in Hout, Hw.
    destruct (IH w1) as (w' & Hrun & Hw').
    exists w'. split; [|now apply R_trans with w1].
    destruct Hout as [->| ->]; [exact Hrun|]. now rewrite Hx.
Qed.

Lemma for_each_quiet_any ms x w :
  Forall (quiet_call R phase) ms ->
  fst (fst (for_each phase rejected ms x w)) = x
  /\ R w (snd (fst (for_each phase rejected ms x w))).
Proof.
  intros Hall. revert w.
  induction Hall as [|m ms Hm _ IH]; intros w.
  - split; [reflexivity|apply R_refl].
  - cbn [for_each]. destruct (Hm x w) as [Hout Hw].
    destruct (phase m x w) as [o w1]. cbn [fst snd] in Hout, Hw.
    destruct (IH w1) as [Hv Hl].
    destruct Hout as [->| ->].
    + split; [exact Hv|now apply R_trans with w1].
    + destruct (rejected x).
      * split; [reflexivity|exact Hw].
      * split; [exact Hv|now apply R_trans with w1].
Qed.

Lemma for_each_around pre m0 post x w :
  Forall (quiet_call R phase) pre ->
  Forall (quiet_call R phase) post ->
  rejected x = false ->
  (forall w1, fst (phase m0 x w1) = Raised
              \/ fst (phase m0 x w1) = Returned x) ->
  exists w1 w3,
    for_each phase rejected (pre ++ m0 :: post) x w = (x, w3, Exhausted)
    /\ R w w1 /\ R (snd (phase m0 x w1)) w3.
Proof.
  intros Hpre Hpost Hx Hm0.
  destruct (for_each_quiet pre x w Hpre Hx) as (w1 & Hrun1 & Hw1).
  destruct (for_each_quiet post x (snd (phase m0 x w1)) Hpost Hx)
    as (w3 & Hrun3 & Hw3).
  exists w1, w3. split; [|split; assumption].
  specialize (Hm0 w1). destruct (phase m0 x w1) as [o w2] eqn:Hcall.
  cbn [fst snd] in Hm0, Hrun3.
  destruct Hm0 as [->| ->].
  - exact (eq_trans
             (PipelineFacts.for_each_raise phase rejected pre m0 post
                x w x w1 w2 Hrun1 Hcall) Hrun3).
  - refine (eq_trans
              (PipelineFacts.for_each_return phase rejected pre m0 post
                 x w x w1 x w2 Hrun1 Hcall) _).
    now rewrite Hx.
Qed.

End Quiet.

Section Frames.

Context {U : Type}.
Variable R : World U -> World U -> Prop.
Hypothesis R_refl : forall w, R w w.
Hypothesis R_trans : forall w1 w2 w3, R w1 w2 -> R w2 w3 -> R w1 w3.

Lemma frames_ret {A} (a : A) : frames R (ret a).
Proof. intros w. apply R_refl. Qed.

Lemma frames_raise {A} : frames R (raise (A := A)).
Proof. intros w. apply R_refl. Qed.

Lemma frames_lift {A} (o : outcome A) : frames R (lift o).
Proof. intros w. apply R_refl. Qed.

Lemma frames_deref r : frames R (deref r).
Proof. intros w. apply R_refl. Qed.

Lemma frames_bind {A B} (m : M A) (k : A -> M B) :
  frames R m -> (forall a, frames R (k a)) -> frames R (bind m k).
Proof.
  intros Hm Hk w. unfold bind. specialize (Hm w).
  destruct (m w) as [[a|] w1]; cbn [snd] in Hm |- *; [|exact Hm].
  apply R_trans with w1; [exact Hm|apply Hk].
Qed.

Lemma hands_back_ret {A} (a : A) : hands_back (U := U) a (ret a).
Proof. intros w. now right. Qed.

Lemma hands_back_raise {A} (a : A) : hands_back (U := U) a raise.
Proof. intros w. now left. Qed.

Lemma hands_back_bind {A B} (b : B) (m : M A) (k : A -> M B) :
  (forall a, hands_back (U := U) b (k a)) -> hands_back b (bind m k).
Proof.
  intros Hk w. unfold bind.
  destruct (m w) as [[a|] w1]; [apply Hk|now left].
Qed.

End Frames.

Section Later.

Context {U : Type}.

Lemma next_latency_nonneg (w : World U) : 0 <= next_latency w.
Proof. unfold next_latency. destruct (latencies w); lia. Qed.

Lemma later_refl (w : World U) : later w w.
Proof. unfold later. repeat split; lia. Qed.

Lemma later_trans (w1 w2 w3 : World U) :
  later w1 w2 -> later w2 w3 -> later w1 w3.
Proof. unfold later. intros (? & ? & ?) (? & ? & ?). repeat split; try congruence; lia. Qed.

Lemma same_context_refl (w : World U) : same_context w w.
Proof. now split. Qed.

Lemma same_context_trans (w1 w2 w3 : World U) :
  same_context w1 w2 -> same_context w2 w3 -> same_context w1 w3.
Proof. unfold same_context. intros (? & ?) (? & ?). split; congruence. Qed.

Lemma later_time_time : frames (U := U) later time_time.
Proof.
  intros w. pose proof (next_latency_nonneg w).
  unfold later. cbn. repeat split; lia.
Qed.

Lemma later_assign r c : frames (U := U) later (assign r c).
Proof. intros w. unfold later. cbn. repeat split; lia. Qed.

End Later.


Ltac frame_step R_refl R_trans :=
  first
    [ apply (frames_bind _ R_trans); [|intro]
    | apply (frames_ret _ R_refl)
    | apply (frames_raise _ R_refl)
    | apply (frames_lift _ R_refl)
    | apply (frames_deref _ R_refl)
    | match goal with
      | |- frames _ (if ?b then _ else _) => destruct b
      | |- frames _ (match ?v with _ => _ end) => destruct v
      end ].

Section Patient.

Context {U : Type}.
Variable cfg : Config.

Ltac later_step :=
  first
    [ apply later_time_time
    | apply later_assign
    | frame_step (later_refl (U := U)) (later_trans (U := U))
    | (intros ?w; unfold later; cbn; repeat split; lia) ].

Lemma later_update_stats action result :
  frames (U := U) later (StateTrackingMiddleware._update_stats cfg action result).
Proof.
  unfold StateTrackingMiddleware._update_stats,
    StateTrackingMiddleware.modify_stats.
  repeat later_step.
Qed.


Ltac hands_step :=
  first
    [ apply hands_back_ret
    | apply hands_back_raise
    | apply hands_back_bind; intro
    | match goal with
      | |- hands_back _ (if ?b then _ else _) => destruct b
      | |- hands_back _ (match ?v with _ => _ end) => destruct v
      end ].

Lemma later_remember action state context :
  frames (U := U) later
    (StateTrackingMiddleware.remember action state context).
Proof. unfold StateTrackingMiddleware.remember. repeat later_step. Qed.

Lemma later_remember_each l action state context :
  frames (U := U) later
    (StateTrackingMiddleware.remember_each l action state context).
Proof.
  induction l as [|act l IH]; cbn [StateTrackingMiddleware.remember_each].
  - later_step.
  - later_step; [|exact IH]. later_step; [apply later_remember|later_step].
Qed.

Lemma later_update_each l result :
  frames (U := U) later (StateTrackingMiddleware.update_each cfg l result).
Proof.
  induction l as [|act l IH]; cbn [StateTrackingMiddleware.update_each].
  - later_step.
  - later_step; [|exact IH].
    later_step; [apply later_update_stats|later_step].
Qed.

Lemma later_append_and_trim record context :
  frames (U := U) later
    (StateTrackingMiddleware.append_and_trim cfg record context).
Proof.
  unfold StateTrackingMiddleware.append_and_trim. repeat later_step.
Qed.

Lemma quiet_call_intro {X : Type}
    (R : World U -> World U -> Prop)
    (phase : PyMiddleware (U := U) -> X -> call (W := World U) X)
    (m : PyMiddleware) :
  (forall x, hands_back x (phase m x)) ->
  (forall x, frames R (phase m x)) ->
  quiet_call R phase m.
Proof. intros Hback Hframe x w. split; [apply Hback|apply Hframe]. Qed.

Lemma later_base_phases (m : PyMiddleware (U := U)) :
  mw_after_perception m = mw_after_perception base ->
  mw_before_decision m = mw_before_decision base ->
  quiet_call later phase2 m /\ quiet_call later phase3 m.
Proof.
  intros H2 H3. split; intros [s c] w; unfold phase2, phase3;
    rewrite ?H2, ?H3; (split; [now right|apply later_refl]).
Qed.

Lemma state_tracking_patient :
  patient (StateTrackingMiddleware.middleware (U := U) cfg).
Proof.
  destruct (later_base_phases (StateTrackingMiddleware.middleware cfg)
              eq_refl eq_refl) as [H2 H3].
  refine (conj _ (conj H2 (conj H3 (conj _ (conj _ _)))));
    apply quiet_call_intro.
  - intros context. unfold phase1.
    cbn [mw_before_perception StateTrackingMiddleware.middleware].
    unfold StateTrackingMiddleware.process_before_perception.
    repeat hands_step.
  - intros context. unfold phase1.
    cbn [mw_before_perception StateTrackingMiddleware.middleware].
    unfold StateTrackingMiddleware.process_before_perception.
    repeat later_step.
  - intros [[action state] context]. unfold phase4.
    cbn [fst snd mw_after_decision StateTrackingMiddleware.middleware].
    unfold StateTrackingMiddleware.process_after_decision.
    repeat hands_step.
  - intros [[action state] context]. unfold phase4.
    cbn [fst snd mw_after_decision StateTrackingMiddleware.middleware].
    unfold StateTrackingMiddleware.process_after_decision.
    destruct (Py.is_none action); [later_step|].
    later_step.
    { destruct action; try (now later_step). apply later_remember_each. }
    later_step; [|later_step].
    destruct action; try (now later_step).
    later_step; [apply later_remember|]. repeat later_step.
  - intros [action context] w. now right.
  - intros [action context] w. apply later_refl.
  - intros [[result action] context]. unfold phase6.
    cbn [fst snd mw_after_execution StateTrackingMiddleware.middleware].
    unfold StateTrackingMiddleware.process_after_execution.
    repeat hands_step.
  - intros [[result action] context]. unfold phase6.
    cbn [fst snd mw_after_execution StateTrackingMiddleware.middleware].
    unfold StateTrackingMiddleware.process_after_execution.
    later_step; [later_step|].
    destruct (Py.is_none action || _); [later_step|].
    destruct (Py.lookup "_current_action" a) as [[| | | | |record]|];
      try (now later_step).
    cbv zeta. later_step; [later_step|].
    later_step.
    { repeat later_step. }
    later_step; [apply later_append_and_trim|].
    later_step.
    { destruct action; try apply later_update_stats.
      apply later_update_each. }
    repeat later_step.
Qed.

End Patient.

End FrameFacts.

(** ** The agent loop *)

Module AgentFacts.

Import Store UIAgent Scenario.

(** C1 fails on the code: [step] hands back [final_result], which a
    successful ordinary action sets.  With a brain that always answers one
    click, an executor that always succeeds, no middleware and
    [max_iterations = 3], the run ends after its first iteration with one
    history entry, whatever the clock does. *)
Theorem first_success_ends_run :
  forall (t : Z) (l : list nat) (task : string),
    let out :=
      run (config 3 10) sees_screen (always click11) succeeds [] task
        (with_clock t l blank) in
    iterations (fst out) = 1
    /\ recorded_actions (history (fst out)) = [click11]
    /\ recorded_successes (history (fst out)) = [VBool true]
    /\ map fst (exec_log (snd out)) = [click11].
Proof.
  intros t l task. cbv zeta. repeat split; vm_compute; reflexivity.
Qed.

Lemma setup_sets_prompt_name (U : Type) (cfg : Config) (w : World U)
    (task : string) :
  Py.has_key "prompt_name"
    (Py.set "task" (VStr task)
       (context (setup_middlewares (setup cfg w)))) = true.
Proof. reflexivity. Qed.

(** C8 fails on the code: [setup] always puts ["prompt_name"] into the
    context, so the guard ["prompt_name" not in self.context] of [run]
    never holds and [_auto_select_prompt] is never called, although
    automatic selection is enabled and would pick the matching
    category. *)
Theorem auto_select_never_runs :
  (forall (U : Type) (cfg : Config) (w : World U) (task : string),
      Py.has_key "prompt_name"
        (Py.set "task" (VStr task)
           (context (setup_middlewares (setup cfg w)))) = true)
  /\ (forall (t : Z) (l : list nat),
         let cfg := config 3 10 in
         let w1 := setup_middlewares (setup cfg (with_clock t l blank)) in
         auto_prompt cfg = true
         /\ Py.lookup "prompt_name"
              (context (snd (_auto_select_prompt cfg "Open Chrome" w1)))
            = Some (VStr "browser"))
  /\ (forall (t : Z) (l : list nat),
         let out :=
           run (config 3 10) sees_screen (always stop_done) succeeds []
             "Open Chrome" (with_clock t l blank) in
         Py.lookup "prompt_name" (context (snd out)) = Some (VStr "default")
         /\ current_prompt (snd out) = "default").
Proof.
  split; [|split].
  - intros U cfg w task. apply setup_sets_prompt_name.
  - intros t l. cbv zeta. split; vm_compute; reflexivity.
  - intros t l. cbv zeta. split; vm_compute; reflexivity.
Qed.

Section Loop.

Context {U : Type}.
Variable executor : World U -> value -> bool.
Variable middlewares : list (PyMiddleware (U := U)).

Lemma for_actions_through actions state final_result (w : World U) :
  for_actions executor middlewares actions state final_result w
  = match through executor middlewares actions state final_result w with
    | (Return b, w') => (b, w')
    | (Continue _ final_result', w') => (final_result', snd (tick w'))
    end.
Proof.
  revert state final_result w.
  induction actions as [|act rest IH]; intros state final_result w; cbn.
  - reflexivity.
  - destruct (process_action executor middlewares act state final_result w)
      as [[state' final_result'|b] w']; [apply IH|reflexivity].
Qed.

Lemma through_app pre actions state final_result (w : World U) :
  through executor middlewares (pre ++ actions) state final_result w
  = match through executor middlewares pre state final_result w with
    | (Return b, w') => (Return b, w')
    | (Continue state' final_result', w') =>
        through executor middlewares actions state' final_result' w'
    end.
Proof.
  revert state final_result w.
  induction pre as [|act pre IH]; intros state final_result w; cbn.
  - reflexivity.
  - destruct (process_action executor middlewares act state final_result w)
      as [[state' final_result'|b] w']; [apply IH|reflexivity].
Qed.

Lemma for_actions_app pre actions state final_result (w : World U) :
  for_actions executor middlewares (pre ++ actions) state final_result w
  = match through executor middlewares pre state final_result w with
    | (Return b, w') => (b, w')
    | (Continue state' final_result', w') =>
        for_actions executor middlewares actions state' final_result' w'
    end.
Proof.
  rewrite for_actions_through, through_app.
  destruct (through executor middlewares pre state final_result w)
    as [[state' final_result'|b] w']; [|reflexivity].
  now rewrite for_actions_through.
Qed.

(** The stop path of the loop body. *)
Lemma process_action_stop act state final_result (w : World U)
    a state1 c1 w1 r2 action2 c2 w3 timestamp h :
  process_after_decision Py.is_none middlewares act state the_context w
  = ((VDict a, state1, c1), w1) ->
  should_stop (VDict a) = true ->
  process_after_execution middlewares (stop_result a (fst (tick w1)))
    (VDict a) c1 (snd (tick w1))
  = ((VDict r2, action2, c2), w3) ->
  Py.lookup "timestamp" r2 = Some timestamp ->
  Py.lookup "history" (context w3) = Some (VList h) ->
  process_action executor middlewares act state final_result w
  = (Return true,
     with_context
       (Py.set "history"
          (VList (h ++ [history_item action2 (VDict r2) timestamp]))
          (context w3)) w3).
Proof.
  intros Hdec Hstop Hafter Hts Hh. unfold process_action.
  rewrite Hdec. cbn [Py.is_none]. rewrite Hstop.
  destruct (tick w1) as [now w2] eqn:Htick. cbn [fst snd] in Hafter.
  rewrite Hafter. unfold record_history, bind, deref, assign.
  rewrite Hts. destruct c2. cbn. rewrite Hh. reflexivity.
Qed.

(** Rejection after the decision, and before the execution. *)
Lemma process_action_rejected act state final_result (w : World U)
    current state1 c1 w1 :
  process_after_decision Py.is_none middlewares act state the_context w
  = ((current, state1, c1), w1) ->
  Py.is_none current = true ->
  process_action executor middlewares act state final_result w
  = (Continue state1 final_result, w1).
Proof.
  intros Hdec Hnone. unfold process_action. rewrite Hdec. now rewrite Hnone.
Qed.

Lemma process_action_rejected_late act state final_result (w : World U)
    current state1 c1 w1 current2 c2 w2 :
  process_after_decision Py.is_none middlewares act state the_context w
  = ((current, state1, c1), w1) ->
  Py.is_none current = false ->
  should_stop current = false ->
  process_before_execution Py.is_none middlewares current c1 w1
  = ((current2, c2), w2) ->
  Py.is_none current2 = true ->
  process_action executor middlewares act state final_result w
  = (Continue state1 final_result, w2).
Proof.
  intros Hdec Hsome Hgo Hbefore Hnone. unfold process_action.
  rewrite Hdec, Hsome, Hgo, Hbefore. now rewrite Hnone.
Qed.

End Loop.

Section Fuel.

Context {U : Type}.
Variable config : Config.
Variable perceive : World U -> value.
Variable decide : World U -> value -> value.
Variable executor : World U -> value -> bool.
Variable middlewares : list (PyMiddleware (U := U)).

(** The [while True] loop of [run] leaves by one of its two [break]s
    before the passes allotted to [main_loop] run out: more passes change
    nothing. *)
Lemma main_loop_enough (fuel extra : nat) (iteration : Z) (w : World U) :
  (1 <= fuel)%nat ->
  max_iterations config <= iteration + Z.of_nat fuel ->
  main_loop config perceive decide executor middlewares (fuel + extra)
    iteration w
  = main_loop config perceive decide executor middlewares fuel iteration w.
Proof.
  revert iteration w.
  induction fuel as [|fuel IH]; intros iteration w Hfuel Hmax; [lia|].
  cbn [main_loop Nat.add].
  destruct (tick _) as [now w1].
  destruct (step _ _ _ _ _) as [stop w2].
  destruct stop; [reflexivity|].
  destruct (max_iterations config <=? iteration + 1) eqn:Hlast;
    [reflexivity|].
  apply Z.leb_gt in Hlast.
  apply IH; lia.
Qed.

Lemma passes_enough (extra : nat) (w : World U) :
  main_loop config perceive decide executor middlewares
    (passes config + extra) 0 w
  = main_loop config perceive decide executor middlewares (passes config) 0 w.
Proof. apply main_loop_enough; unfold passes; lia. Qed.

End Fuel.

(** C4: when the loop of [step] comes to an element that the
    after-decision phase leaves as a stop action, it synthesizes the
    result [{success: True, message: reason}], runs the after-execution
    phase, appends one history entry for the stop and returns [True] at
    once: the elements after the stop are neither executed nor recorded.
    A decision [[move, stop]] in iteration 1 gives [iterations = 1] and a
    history of two entries, the move and then the stop. *)
Theorem stop_ends_step :
  (forall (U : Type) (executor : World U -> value -> bool)
      (middlewares : list PyMiddleware) pre act rest state (w : World U)
      state0 final_result0 w0 a state1 c1 w1 r2 action2 c2 w3 timestamp h,
      through executor middlewares pre state false w
      = (Continue state0 final_result0, w0) ->
      process_after_decision Py.is_none middlewares act state0 the_context w0
      = ((VDict a, state1, c1), w1) ->
      should_stop (VDict a) = true ->
      process_after_execution middlewares (stop_result a (fst (tick w1)))
        (VDict a) c1 (snd (tick w1))
      = ((VDict r2, action2, c2), w3) ->
      Py.lookup "timestamp" r2 = Some timestamp ->
      Py.lookup "history" (context w3) = Some (VList h) ->
      for_actions executor middlewares (pre ++ act :: rest) state false w
      = (true,
         with_context
           (Py.set "history"
              (VList (h ++ [history_item action2 (VDict r2) timestamp]))
              (context w3)) w3))
  /\ (forall (t : Z) (l : list nat) (task : string),
         let out :=
           run (config 5 10) sees_screen (always (VList [move00; stop_done]))
             succeeds [] task (with_clock t l blank) in
         iterations (fst out) = 1
         /\ recorded_actions (history (fst out)) = [move00; stop_done]
         /\ recorded_successes (history (fst out)) = [VBool true; VBool true]
         /\ recorded_messages (history (fst out)) = [VNone; VStr "done"]
         /\ map fst (exec_log (snd out)) = [move00]).
Proof.
  split.
  - intros U executor middlewares pre act rest state w state0 final_result0
      w0 a state1 c1 w1 r2 action2 c2 w3 timestamp h
      Hpre Hdec Hstop Hafter Hts Hh.
    rewrite for_actions_app, Hpre. cbn [for_actions].
    now rewrite (process_action_stop executor middlewares act state0
                   final_result0 w0 a state1 c1 w1 r2 action2 c2 w3
                   timestamp h Hdec Hstop Hafter Hts Hh).
  - intros t l task. cbv zeta. repeat split; vm_compute; reflexivity.
Qed.

Lemma stop_ends_step_witness :
  exists w',
    for_actions succeeds [] ([move00] ++ stop_done :: [click11]) screen
      false ready = (true, w')
    /\ exec_log w' = [(move00, 0)].
Proof.
  eexists. split.
  - eapply (proj1 stop_ends_step unit succeeds [] [move00] stop_done
              [click11] screen ready); reflexivity.
  - reflexivity.
Defined.

(** C5: in the after-decision and before-execution phases the manager
    leaves the chain as soon as a middleware returns [None] for the
    action and returns normally with it; the loop of [step] then goes
    straight on to the next element, from the store the phase left:
    no call of the executor, no history entry. *)
Theorem rejection_skips_action :
  forall (U : Type) (executor : World U -> value -> bool)
    (middlewares : list (PyMiddleware (U := U))),
    short_circuits phase4 (rejected4 Py.is_none)
      (fun (ms : list (PyMiddleware (U := U))) (x : value * value * ref) =>
         process_after_decision Py.is_none ms (fst (fst x)) (snd (fst x))
           (snd x))
    /\ short_circuits phase5 (rejected5 Py.is_none)
         (fun (ms : list (PyMiddleware (U := U))) (x : value * ref) =>
            process_before_execution Py.is_none ms (fst x) (snd x))
    /\ (forall act rest state final_result (w : World U)
           current state1 c1 w1,
           process_after_decision Py.is_none middlewares act state
             the_context w = ((current, state1, c1), w1) ->
           Py.is_none current = true ->
           for_actions executor middlewares (act :: rest) state
             final_result w
           = for_actions executor middlewares rest state1 final_result w1)
    /\ (forall act rest state final_result (w : World U)
           current state1 c1 w1 current2 c2 w2,
           process_after_decision Py.is_none middlewares act state
             the_context w = ((current, state1, c1), w1) ->
           Py.is_none current = false ->
           should_stop current = false ->
           process_before_execution Py.is_none middlewares current c1 w1
           = ((current2, c2), w2) ->
           Py.is_none current2 = true ->
           for_actions executor middlewares (act :: rest) state
             final_result w
           = for_actions executor middlewares rest state1 final_result w2).
Proof.
  intros U executor middlewares. split; [|split; [|split]].
  - intros pre m post [[a s] c] w [[a1 s1] c1] w1 x2 w2 Hpre Hm Hrej.
    exact (PipelineFacts.short_circuits_for_each _ _ pre m post _ w _ w1
             x2 w2 Hpre Hm Hrej).
  - intros pre m post [a c] w [a1 c1] w1 x2 w2 Hpre Hm Hrej.
    exact (PipelineFacts.short_circuits_for_each _ _ pre m post _ w _ w1
             x2 w2 Hpre Hm Hrej).
  - intros act rest state final_result w current state1 c1 w1 Hdec Hnone.
    cbn [for_actions].
    now rewrite (process_action_rejected executor middlewares act state
                   final_result w current state1 c1 w1 Hdec Hnone).
  - intros act rest state final_result w current state1 c1 w1 current2 c2
      w2 Hdec Hsome Hgo Hbefore Hnone.
    cbn [for_actions].
    now rewrite (process_action_rejected_late executor middlewares act
                   state final_result w current state1 c1 w1 current2 c2 w2
                   Hdec Hsome Hgo Hbefore Hnone).
Qed.

Lemma rejection_skips_action_witness :
  process_after_decision Py.is_none [base; veto; broken] click11 screen
    the_context ready = ((VNone, screen, the_context), ready)
  /\ process_before_execution Py.is_none [late_veto; broken] click11
       the_context ready = ((VNone, the_context), ready)
  /\ for_actions succeeds [veto] [click11; move00] screen false ready
     = for_actions succeeds [veto] [move00] screen false ready
  /\ for_actions succeeds [late_veto] [click11; move00] screen false ready
     = for_actions succeeds [late_veto] [move00] screen false ready.
Proof.
  destruct (rejection_skips_action unit succeeds [veto])
    as (H4 & _ & Hskip & _).
  destruct (rejection_skips_action unit succeeds [late_veto])
    as (_ & H5 & _ & Hlate).
  split; [|split; [|split]].
  - exact (H4 [base] veto [broken] (click11, screen, the_context) ready
             (click11, screen, the_context) ready
             (VNone, screen, the_context) ready
             eq_refl eq_refl eq_refl).
  - exact (H5 [] late_veto [broken] (click11, the_context) ready
             (click11, the_context) ready (VNone, the_context) ready
             eq_refl eq_refl eq_refl).
  - exact (Hskip click11 [move00] screen false ready VNone screen
             the_context ready eq_refl eq_refl).
  - exact (Hlate click11 [move00] screen false ready click11 screen
             the_context ready VNone the_context ready
             eq_refl eq_refl eq_refl eq_refl eq_refl).
Defined.

End AgentFacts.

(** ** The history kept in the context *)

Module HistoryFacts.

Import Store StateTrackingMiddleware FrameFacts.

Lemma trim_last_n (m : Z) (h : list value) :
  1 <= m -> trim m h = Py.last_n (Z.to_nat m) h.
Proof.
  intros Hm. unfold trim, Py.slice_from_neg.
  destruct (Z.ltb_spec m (Z.of_nat (length h))).
  - destruct (Z.ltb_spec 0 m); [reflexivity|lia].
  - symmetry. apply PyFacts.last_n_all. lia.
Qed.

Lemma last_n_bound {A : Type} (m : Z) (l : list A) :
  1 <= m -> Z.of_nat (length (Py.last_n (Z.to_nat m) l)) <= m.
Proof. intros Hm. rewrite PyFacts.last_n_length. lia. Qed.

Section Tracking.

Context {U : Type}.
Variable cfg : Config.

Lemma update_stats_frame (action result : value) (w : World U) :
  context (snd (_update_stats cfg action result w)) = context w
  /\ exec_log (snd (_update_stats cfg action result w)) = exec_log w.
Proof.
  unfold _update_stats.
  destruct (negb (track_stats cfg) || negb (Py.truthy action)); [now split|].
  destruct action; try now split.
  unfold bind, lift, modify_stats, time_time, raise.
  destruct (Py.truthy result); [destruct result|]; cbn; try now split.
  all: destruct (Py.hashable _); cbn; now split.
Qed.

Lemma after_decision_dict (a s : dict) (w : World U) :
  exists record w1,
    process_after_decision cfg (VDict a) (VDict s) the_context w
    = (Returned (VDict a, VDict s, the_context), w1)
    /\ context w1 = Py.set "_current_action" (VDict record) (context w)
    /\ exec_log w1 = exec_log w
    /\ Py.lookup "action" record = Some (VDict a)
    /\ timed record.
Proof.
  unfold process_after_decision. cbn [Py.is_none].
  unfold remember, bind, time_time, deref, lift, assign, ret.
  assert (Hsnap : exists snap, state_snapshot (VDict s) = Returned snap).
  { unfold state_snapshot. destruct (Py.truthy (VDict s)); eauto. }
  destruct Hsnap as [snap ->]. cbn.
  destruct (track_duration cfg); cbn.
  - rewrite PyFacts.lookup_set_same. cbn. rewrite PyFacts.set_set.
    do 2 eexists. split; [reflexivity|]. cbn. repeat split; reflexivity.
  - do 2 eexists. split; [reflexivity|]. cbn. repeat split; reflexivity.
Qed.


Lemma append_and_trim_history record h (w : World U) :
  Py.lookup "history" (context w) = Some (VList h) ->
  exists w',
    append_and_trim cfg record the_context w = (Returned tt, w')
    /\ context w'
       = Py.set "history"
           (VList (trim (max_history cfg) (h ++ [VDict record]))) (context w)
    /\ exec_log w' = exec_log w.
Proof.
  intros Hh. unfold append_and_trim, bind, deref, assign, ret, trim.
  rewrite (PyFacts.has_key_lookup _ _ _ Hh), Hh.
  destruct (max_history cfg <? Z.of_nat (length (h ++ [VDict record]))).
  - eexists. split; [reflexivity|]. cbn. now rewrite PyFacts.set_set.
  - eexists. split; [reflexivity|]. now cbn.
Qed.

Lemma after_execution_dict result a record h (w : World U) :
  Py.lookup "_current_action" (context w) = Some (VDict record) ->
  timed record ->
  Py.lookup "history" (context w) = Some (VList h) ->
  exists o w' record',
    process_after_execution cfg result (VDict a) the_context w = (o, w')
    /\ (o = Raised \/ o = Returned (result, VDict a, the_context))
    /\ Py.lookup "history" (context w')
       = Some (VList (trim (max_history cfg) (h ++ [VDict record'])))
    /\ exec_log w' = exec_log w
    /\ Py.lookup "action" record' = Py.lookup "action" record
    /\ Py.lookup "result" record' = Some result.
Proof.
  intros Hcur Htimed Hh.
  assert (Hfinish : forall record' (w2 : World U),
             context w2 = Py.set "_current_action" (VDict record') (context w) ->
             exec_log w2 = exec_log w ->
             exists o w',
               bind (append_and_trim cfg record' the_context)
                 (fun _ =>
                    bind (_update_stats cfg (VDict a) result)
                      (fun _ =>
                         bind (deref the_context)
                           (fun c =>
                              bind
                                (assign the_context
                                   (Py.del "_current_action" c))
                                (fun _ => ret (result, VDict a, the_context)))))
                 w2 = (o, w')
               /\ (o = Raised \/ o = Returned (result, VDict a, the_context))
               /\ Py.lookup "history" (context w')
                  = Some (VList (trim (max_history cfg)
                                   (h ++ [VDict record'])))
               /\ exec_log w' = exec_log w).
  { intros record' w2 Hc2 He2.
    assert (Hh2 : Py.lookup "history" (context w2) = Some (VList h)).
    { rewrite Hc2, PyFacts.lookup_set_other by discriminate. exact Hh. }
    destruct (append_and_trim_history record' h w2 Hh2)
      as (w3 & Happ & Hc3 & He3).
    unfold bind at 1. rewrite Happ.
    destruct (update_stats_frame (VDict a) result w3) as [Hc4 He4].
    unfold bind at 1.
    destruct (_update_stats cfg (VDict a) result w3) as [[[]|] w4];
      cbn [snd] in Hc4, He4.
    - do 2 eexists. split; [reflexivity|]. split; [now right|].
      cbn. rewrite Hc4, Hc3.
      rewrite PyFacts.lookup_del_other by discriminate.
      rewrite PyFacts.lookup_set_same. split; [reflexivity|]. congruence.
    - do 2 eexists. split; [reflexivity|]. split; [now left|].
      rewrite Hc4, Hc3, PyFacts.lookup_set_same.
      split; [reflexivity|]. congruence. }
  unfold process_after_execution.
  unfold bind at 1. unfold deref at 1. cbn [Py.is_none orb].
  rewrite (PyFacts.has_key_lookup _ _ _ Hcur), Hcur. cbn [negb].
  unfold bind at 1. unfold assign at 1.
  unfold bind at 1.
  assert (Hst : Py.lookup "start_time" (Py.set "result" result record)
                = Py.lookup "start_time" record).
  { now rewrite PyFacts.lookup_set_other by discriminate. }
  cbv beta zeta. unfold Py.has_key. rewrite !Hst.
  destruct (track_duration cfg); cbn [andb].
  - unfold timed in Htimed.
    destruct (Py.lookup "start_time" record) as [v|] eqn:Hs.
    + destruct v; try contradiction.
      unfold bind at 1. unfold time_time at 1.
      unfold bind at 1. unfold assign at 1. unfold ret at 1.
      edestruct Hfinish as (o & w' & Hrun & Ho & Hhist & Hlog);
        [| |exists o, w'; eexists; split; [exact Hrun|];
              split; [exact Ho|]; split; [exact Hhist|];
              split; [exact Hlog|] ].
      * reflexivity.
      * reflexivity.
      * rewrite PyFacts.lookup_del_other by discriminate.
        rewrite !PyFacts.lookup_set_other by discriminate.
        split; [reflexivity|].
        rewrite PyFacts.lookup_del_other by discriminate.
        rewrite PyFacts.lookup_set_other by discriminate.
        apply PyFacts.lookup_set_same.
    + unfold ret at 1.
      edestruct Hfinish as (o & w' & Hrun & Ho & Hhist & Hlog);
        [| |exists o, w'; eexists; split; [exact Hrun|];
              split; [exact Ho|]; split; [exact Hhist|];
              split; [exact Hlog|] ].
      * reflexivity.
      * reflexivity.
      * rewrite PyFacts.lookup_set_other by discriminate.
        split; [reflexivity|]. apply PyFacts.lookup_set_same.
  - unfold ret at 1.
    edestruct Hfinish as (o & w' & Hrun & Ho & Hhist & Hlog);
      [| |exists o, w'; eexists; split; [exact Hrun|];
            split; [exact Ho|]; split; [exact Hhist|];
            split; [exact Hlog|] ].
    + reflexivity.
    + reflexivity.
    + rewrite PyFacts.lookup_set_other by discriminate.
      split; [reflexivity|]. apply PyFacts.lookup_set_same.
Qed.








Lemma before_execution_same_context action (context : ref) (w : World U) :
  (fst (ThrottlingMiddleware.process_before_execution cfg action context w)
   = Raised
   \/ fst (ThrottlingMiddleware.process_before_execution cfg action
             context w) = Returned (action, context))
  /\ same_context w
       (snd (ThrottlingMiddleware.process_before_execution cfg action
               context w)).
Proof.
  unfold ThrottlingMiddleware.process_before_execution.
  destruct (Py.is_none action); [split; [now right|now split]|].
  unfold bind, time_time, lift.
  destruct (ThrottlingMiddleware._get_max_delay cfg action) as [d|];
    [|split; [now left|now split]].
  cbn [last_action_time elapse with_clock].
  destruct (0 <? Z.max 0 (d - (clock (elapse w) - last_action_time w)));
    (split; [now right|now split]).
Qed.

Lemma throttling_discreet :
  discreet (ThrottlingMiddleware.middleware (U := U) cfg).
Proof.
  refine (conj _ (conj _ (conj _ (conj _ (conj _ _))))).
  - intros c w. split; [now right|now split].
  - intros [s c] w. split; [now right|now split].
  - intros [s c] w. split; [now right|now split].
  - intros [[a s] c] w. split; [now right|now split].
  - intros [a c] w. apply before_execution_same_context.
  - intros [[r a] c] w. split; [now right|now split].
Qed.

Section Around.

Variables pre post : list (PyMiddleware (U := U)).
Hypothesis Hpre : Forall discreet pre.
Hypothesis Hpost : Forall discreet post.

Lemma discreet_phase {X : Type}
    (phase : PyMiddleware (U := U) -> X -> call (W := World U) X)
    (ms : list (PyMiddleware (U := U))) :
  (forall m, discreet m -> quiet_call same_context phase m) ->
  Forall discreet ms -> Forall (quiet_call same_context phase) ms.
Proof. intros Hp. apply Forall_impl. exact Hp. Qed.

Lemma chain_after_decision (a s : dict) (w : World U) :
  exists record w1,
    Pipeline.process_after_decision Py.is_none
      (pre ++ middleware cfg :: post) (VDict a) (VDict s) the_context w
    = ((VDict a, VDict s, the_context), w1)
    /\ context w1 = Py.set "_current_action" (VDict record) (context w)
    /\ exec_log w1 = exec_log w
    /\ Py.lookup "action" record = Some (VDict a)
    /\ timed record.
Proof.
  destruct (for_each_around same_context same_context_refl
              same_context_trans phase4 (rejected4 Py.is_none)
              pre (middleware cfg) post (VDict a, VDict s, the_context) w)
    as (w1 & w3 & Hrun & [Hc1 He1] & [Hc3 He3]).
  - apply discreet_phase; [|exact Hpre]. intros m Hm. apply Hm.
  - apply discreet_phase; [|exact Hpost]. intros m Hm. apply Hm.
  - reflexivity.
  - intros w1. unfold phase4.
    cbn [fst snd mw_after_decision middleware].
    destruct (after_decision_dict a s w1) as (r & w2 & -> & _).
    now right.
  - unfold phase4 in Hc3, He3.
    cbn [fst snd mw_after_decision middleware] in Hc3, He3.
    destruct (after_decision_dict a s w1)
      as (record & w2 & Hdec & Hc2 & He2 & Hact & Htimed).
    rewrite Hdec in Hc3, He3. cbn [snd] in Hc3, He3.
    exists record, w3. unfold Pipeline.process_after_decision, finish.
    rewrite Hrun. split; [reflexivity|].
    repeat split; try assumption; congruence.
Qed.


Lemma state_tracking_rests (m : PyMiddleware (U := U)) :
  m = middleware cfg -> quiet_call same_context phase5 m.
Proof. intros -> [a c] w. split; [now right|now split]. Qed.

Lemma chain_before_execution (act : value) (w : World U) :
  Py.is_none act = false ->
  exists w1,
    Pipeline.process_before_execution Py.is_none
      (pre ++ middleware cfg :: post) act the_context w
    = ((act, the_context), w1)
    /\ context w1 = context w
    /\ exec_log w1 = exec_log w.
Proof.
  intros Hsome.
  destruct (for_each_quiet same_context same_context_refl same_context_trans
              phase5 (rejected5 Py.is_none) (pre ++ middleware cfg :: post)
              (act, the_context) w) as (w1 & Hrun & Hc & He).
  - apply Forall_app. split.
    + apply discreet_phase; [|exact Hpre]. intros m Hm. apply Hm.
    + constructor; [now apply state_tracking_rests|].
      apply discreet_phase; [|exact Hpost]. intros m Hm. apply Hm.
  - exact Hsome.
  - exists w1. unfold Pipeline.process_before_execution, finish.
    rewrite Hrun. now repeat split.
Qed.

Lemma chain_after_execution result a record h (w : World U) :
  Py.lookup "_current_action" (context w) = Some (VDict record) ->
  timed record ->
  Py.lookup "history" (context w) = Some (VList h) ->
  exists w' record',
    Pipeline.process_after_execution (pre ++ middleware cfg :: post)
      result (VDict a) the_context w
    = ((result, VDict a, the_context), w')
    /\ Py.lookup "history" (context w')
       = Some (VList (trim (max_history cfg) (h ++ [VDict record'])))
    /\ exec_log w' = exec_log w
    /\ Py.lookup "action" record' = Py.lookup "action" record
    /\ Py.lookup "result" record' = Some result.
Proof.
  intros Hcur Htimed Hh.
  assert (Hback : forall w1 : World U,
             fst (phase6 (middleware cfg) (result, VDict a, the_context) w1)
             = Raised
             \/ fst (phase6 (middleware cfg)
                       (result, VDict a, the_context) w1)
                = Returned (result, VDict a, the_context)).
  { intros w1.
    destruct (state_tracking_patient (U := U) cfg) as (_ & _ & _ & _ & _ & H6).
    apply H6. }
  destruct (for_each_around same_context same_context_refl
              same_context_trans phase6 never
              pre (middleware cfg) post (result, VDict a, the_context) w)
    as (w1 & w3 & Hrun & [Hc1 He1] & [Hc3 He3]).
  - apply discreet_phase; [|exact Hpre]. intros m Hm. apply Hm.
  - apply discreet_phase; [|exact Hpost]. intros m Hm. apply Hm.
  - reflexivity.
  - exact Hback.
  - unfold phase6 in Hc3, He3.
    cbn [fst snd mw_after_execution middleware] in Hc3, He3.
    rewrite <- Hc1 in Hcur, Hh.
    destruct (after_execution_dict result a record h w1 Hcur Htimed Hh)
      as (o & w2 & record' & Hcall & _ & Hhist & Hlog & Hact & Hres).
    rewrite Hcall in Hc3, He3. cbn [snd] in Hc3, He3.
    exists w3, record'. unfold Pipeline.process_after_execution, finish.
    rewrite Hrun. split; [reflexivity|].
    rewrite Hc3, He3. repeat split; try assumption; congruence.
Qed.

Lemma tracked_result result r timestamp a record h (w2 : World U) :
  result = VDict r ->
  Py.lookup "timestamp" r = Some timestamp ->
  Py.lookup "_current_action" (context w2) = Some (VDict record) ->
  timed record ->
  Py.lookup "history" (context w2) = Some (VList h) ->
  exists w3 w4 record',
    Pipeline.process_after_execution (pre ++ middleware cfg :: post)
      result (VDict a) the_context w2
    = ((result, VDict a, the_context), w3)
    /\ UIAgent.record_history (VDict a) result the_context w3
       = (Returned tt, w4)
    /\ Py.lookup "history" (context w4)
       = Some (VList (trim (max_history cfg) (h ++ [VDict record'])
                      ++ [UIAgent.history_item (VDict a) result timestamp]))
    /\ exec_log w4 = exec_log w2
    /\ Py.lookup "action" record' = Py.lookup "action" record
    /\ Py.lookup "result" record' = Some result.
Proof.
  intros -> Hts Hcur Htimed Hh.
  destruct (chain_after_execution (VDict r) a record h w2 Hcur Htimed Hh)
    as (w3 & record' & Hrun & Hhist & Hlog & Hact & Hres).
  exists w3. eexists. exists record'.
  split; [exact Hrun|]. split; [|split; [|split; [|split]]].
  - unfold UIAgent.record_history, bind, deref, assign.
    rewrite Hts, Hhist. reflexivity.
  - cbn [context with_context]. apply PyFacts.lookup_set_same.
  - exact Hlog.
  - exact Hact.
  - exact Hres.
Qed.

Lemma tracked_action (executor : World U -> value -> bool) a s
    final_result (w : World U) h :
  Py.lookup "history" (context w) = Some (VList h) ->
  exists v w' record result timestamp,
    UIAgent.process_action executor (pre ++ middleware cfg :: post)
      (VDict a) (VDict s) final_result w = (v, w')
    /\ Py.lookup "history" (context w')
       = Some (VList (trim (max_history cfg) (h ++ [VDict record])
                      ++ [UIAgent.history_item (VDict a) result timestamp]))
    /\ Py.lookup "action" record = Some (VDict a)
    /\ Py.lookup "result" record = Some result
    /\ (if UIAgent.should_stop (VDict a)
        then v = UIAgent.Return true /\ exec_log w' = exec_log w
        else exists t, exec_log w' = exec_log w ++ [(VDict a, t)]).
Proof.
  intros Hh.
  destruct (chain_after_decision a s w)
    as (record & w1 & Hm & Hc1 & He1 & Hact & Htimed).
  assert (Hcur : Py.lookup "_current_action" (context w1)
                 = Some (VDict record)).
  { rewrite Hc1. apply PyFacts.lookup_set_same. }
  assert (Hh1 : Py.lookup "history" (context w1) = Some (VList h)).
  { rewrite Hc1, PyFacts.lookup_set_other by discriminate. exact Hh. }
  unfold UIAgent.process_action. rewrite Hm. cbn [Py.is_none].
  destruct (UIAgent.should_stop (VDict a)) eqn:Hstop.
  - unfold tick.
    destruct (tracked_result (UIAgent.stop_result a (clock (elapse w1)))
                _ (VNum (clock (elapse w1))) a record h (elapse w1)
                eq_refl eq_refl Hcur Htimed Hh1)
      as (w3 & w4 & record' & Hafter & Hrec & Hhist & Hlog & Hact' & Hres).
    rewrite Hafter, Hrec.
    do 5 eexists. split; [reflexivity|]. split; [exact Hhist|].
    split; [congruence|]. split; [exact Hres|].
    split; [reflexivity|]. rewrite Hlog. exact He1.
  - destruct (chain_before_execution (VDict a) w1 eq_refl)
      as (w2 & -> & Hc2 & He2).
    cbn [Py.is_none]. unfold UIAgent.execute, tick.
    rewrite <- Hc2 in Hcur, Hh1.
    match goal with
    | |- context [UIAgent.execution_result ?b ?t] =>
        destruct (fun w2 H1 H2 =>
                    tracked_result (UIAgent.execution_result b t) _ (VNum t)
                      a record h w2 eq_refl eq_refl H1 Htimed H2)
          with (w2 := elapse (with_exec_log
                                (exec_log (elapse w2)
                                 ++ [(VDict a, clock (elapse w2))])
                                (elapse w2)))
          as (w3 & w4 & record' & Hafter & Hrec & Hhist & Hlog & Hact'
              & Hres); [exact Hcur|exact Hh1|]
    end.
    rewrite Hafter, Hrec.
    do 5 eexists. split; [reflexivity|]. split; [exact Hhist|].
    split; [congruence|]. split; [exact Hres|].
    eexists. rewrite Hlog. cbn. rewrite He2, He1. reflexivity.
Qed.






End Around.

End Tracking.




(** What the trim does achieve, for one action dict: with the
    state-tracking middleware registered, alone or among middlewares
    that leave the context alone, and [max_history >= 1], the history
    right after the middleware's append and trim holds at most
    [max_history] entries, the most recent ones in their order; the
    append of the orchestrator that follows is not trimmed, so the
    history then holds one entry more. *)
Lemma history_bounded_up_to_one :
  forall (U : Type) (cfg : Config) (pre post : list (PyMiddleware (U := U)))
    (executor : World U -> value -> bool)
    (a s : dict) (final_result : bool) (w : World U) (h : list value),
    Forall discreet pre ->
    Forall discreet post ->
    1 <= max_history cfg ->
    Py.lookup "history" (context w) = Some (VList h) ->
    (forall record,
        exists kept,
          Py.lookup "history"
            (context (snd (append_and_trim cfg record the_context w)))
          = Some (VList kept)
          /\ Z.of_nat (length kept) <= max_history cfg
          /\ exists evicted, h ++ [VDict record] = evicted ++ kept)
    /\ exists v w' record item kept,
        UIAgent.process_action executor (pre ++ middleware cfg :: post)
          (VDict a) (VDict s) final_result w = (v, w')
        /\ kept = Py.last_n (Z.to_nat (max_history cfg)) (h ++ [VDict record])
        /\ Z.of_nat (length kept) <= max_history cfg
        /\ Py.lookup "history" (context w') = Some (VList (kept ++ [item]))
        /\ Z.of_nat (length (kept ++ [item])) <= max_history cfg + 1
        /\ exists evicted,
            h ++ [VDict record; item] = evicted ++ (kept ++ [item]).
Proof.
  intros U cfg pre post executor a s final_result w h Hpre Hpost Hm Hh.
  split.
  - intros record.
    destruct (append_and_trim_history cfg record h w Hh) as (w1 & -> & Hc & _).
    cbn [snd]. rewrite Hc, PyFacts.lookup_set_same, trim_last_n by exact Hm.
    eexists. split; [reflexivity|]. split; [now apply last_n_bound|].
    apply PyFacts.last_n_suffix.
  - destruct (tracked_action cfg pre post Hpre Hpost executor a s
                final_result w h Hh)
      as (v & w' & record & result & timestamp & Hrun & Hhist & _).
    rewrite trim_last_n in Hhist by exact Hm.
    exists v, w', record. do 2 eexists.
    split; [exact Hrun|]. split; [reflexivity|].
    split; [now apply last_n_bound|]. split; [exact Hhist|].
    split.
    + rewrite length_app. pose proof (last_n_bound (max_history cfg)
                                        (h ++ [VDict record]) Hm).
      cbn [length]. lia.
    + destruct (PyFacts.last_n_suffix (Z.to_nat (max_history cfg))
                  (h ++ [VDict record])) as [evicted Hev].
      exists evicted. rewrite app_assoc, <- Hev, <- app_assoc. reflexivity.
Qed.

Lemma history_bounded_up_to_one_witness :
  let cfg := Scenario.config 5 1 in
  exists v w' record item,
    UIAgent.process_action Scenario.succeeds
      [ThrottlingMiddleware.middleware cfg; middleware cfg]
      Scenario.click11 Scenario.screen false Scenario.ready = (v, w')
    /\ Py.lookup "history" (context w') = Some (VList [VDict record; item]).
Proof.
  cbv zeta.
  destruct (history_bounded_up_to_one unit (Scenario.config 5 1)
              [ThrottlingMiddleware.middleware (Scenario.config 5 1)] []
              Scenario.succeeds
              [("type", VStr "click"); ("x", VNum 1); ("y", VNum 1)]
              [("screen_width", VNum 1920); ("screen_height", VNum 1080)]
              false Scenario.ready []
              (Forall_cons _ (throttling_discreet _) (Forall_nil _))
              (Forall_nil _) ltac:(cbn; lia) eq_refl)
    as (_ & v & w' & record & item & kept & Hrun & -> & _ & Hhist & _).
  exists v, w', record, item. split; [exact Hrun|exact Hhist].
Defined.

(** C2 fails on the code: the trim follows the append of the
    state-tracking middleware only, and the append of the orchestrator
    that comes after it in the same step is never trimmed.  With the
    throttling and the state-tracking middleware and [max_history = 1],
    a run of three iterations whose decision is one click returns a
    history of two entries, the last record of the middleware and the
    last entry of the orchestrator; and when the decision is a click
    followed by three elements [5], the history returned holds five
    entries, one more for each element the middleware keeps no record
    of. *)
Theorem history_exceeds_max_history :
  let cfg := Scenario.config 3 1 in
  let chain := [ThrottlingMiddleware.middleware cfg; middleware cfg] in
  let out :=
    UIAgent.run cfg Scenario.sees_screen (Scenario.always Scenario.click11)
      Scenario.fails chain "task" Scenario.blank in
  let batch :=
    UIAgent.run cfg Scenario.sees_screen
      (Scenario.always
         (VList [Scenario.click11; VNum 5; VNum 5; VNum 5]))
      Scenario.fails chain "task" Scenario.blank in
  max_history cfg = 1
  /\ UIAgent.iterations (fst out) = 3
  /\ UIAgent.recorded_actions (UIAgent.history (fst out))
     = [Scenario.click11; Scenario.click11]
  /\ UIAgent.iterations (fst batch) = 3
  /\ UIAgent.recorded_actions (UIAgent.history (fst batch))
     = [Scenario.click11; Scenario.click11; VNum 5; VNum 5; VNum 5].
Proof. repeat split; vm_compute; reflexivity. Qed.

(** With [max_history = 0] the slice [history[-0:]] is the whole list:
    nothing is ever evicted. *)
Lemma zero_bound_keeps_everything :
  let cfg := Scenario.config 3 0 in
  let out :=
    UIAgent.run cfg Scenario.sees_screen (Scenario.always Scenario.click11)
      Scenario.fails [middleware cfg] "task" Scenario.blank in
  length (UIAgent.recorded_actions (UIAgent.history (fst out))) = 6%nat.
Proof. vm_compute. reflexivity. Qed.

End HistoryFacts.

(** ** Throttling *)

Module TimingFacts.

Import Store Timing FrameFacts.

Section Pace.

Context {U : Type}.
Variable cfg : Config.

Lemma clock_elapse (w : World U) : clock w <= clock (elapse w).
Proof. cbn. pose proof (next_latency_nonneg w). lia. Qed.

Lemma latest_le_mono b b' (log : list (value * Z)) :
  b <= b' -> latest_le b log -> latest_le b' log.
Proof. unfold latest_le. destruct (rev log) as [|[a t] l]; [easy|lia]. Qed.

Lemma latest_le_snoc b (log : list (value * Z)) a t :
  latest_le b (log ++ [(a, t)]) <-> t <= b.
Proof. unfold latest_le. rewrite rev_unit. reflexivity. Qed.

Lemma paced_frame (w w' : World U) :
  paced cfg w ->
  exec_log w' = exec_log w ->
  latest_le (last_action_time w') (exec_log w) ->
  clock w <= clock w' ->
  paced cfg w'.
Proof.
  intros (Hs & Hl & Hc) He Hl' Hc'. unfold paced. rewrite He.
  repeat split; [exact Hs|exact Hl'|]. now apply latest_le_mono with (clock w).
Qed.

Lemma paced_append (w w' : World U) a t :
  paced cfg w ->
  exec_log w' = exec_log w ++ [(a, t)] ->
  (forall t1, t1 <= last_action_time w -> t1 <= clock w ->
              t1 + required_gap cfg a <= t) ->
  t <= last_action_time w' ->
  t <= clock w' ->
  paced cfg w'.
Proof.
  intros (Hs & Hl & Hc) He Hgap Hl' Hc'. unfold paced. rewrite He.
  rewrite !latest_le_snoc, rev_unit. cbn [spaced_back].
  split; [split; [|exact Hs]|split; assumption].
  unfold latest_le in *.
  destruct (rev (exec_log w)) as [|[a1 t1] older]; [exact I|].
  now apply Hgap.
Qed.


Lemma record_history_frame (act result : value) (w : World U) :
  exec_log (snd (UIAgent.record_history act result the_context w))
  = exec_log w
  /\ last_action_time (snd (UIAgent.record_history act result the_context w))
     = last_action_time w
  /\ clock (snd (UIAgent.record_history act result the_context w)) = clock w.
Proof.
  unfold UIAgent.record_history.
  destruct result as [| | | | |r]; try (now repeat split).
  destruct (Py.lookup "timestamp" r); [|now repeat split].
  unfold bind, deref, assign, raise.
  destruct (Py.lookup "history" (context w)) as [[| | | |h|]|];
    now repeat split.
Qed.

Lemma throttle_call_before (act : value) (w : World U) :
  Py.is_none act = false ->
  (fst (phase5 (ThrottlingMiddleware.middleware cfg) (act, the_context) w)
   = Raised
   \/ fst (phase5 (ThrottlingMiddleware.middleware cfg)
             (act, the_context) w) = Returned (act, the_context))
  /\ later w
       (snd (phase5 (ThrottlingMiddleware.middleware cfg)
               (act, the_context) w))
  /\ (forall t1, t1 <= last_action_time w -> t1 <= clock w ->
                 t1 + required_gap cfg act
                 <= clock (snd (phase5 (ThrottlingMiddleware.middleware cfg)
                                  (act, the_context) w))).
Proof.
  intros Hsome. unfold phase5.
  cbn [fst snd mw_before_execution ThrottlingMiddleware.middleware].
  unfold ThrottlingMiddleware.process_before_execution. rewrite Hsome.
  unfold bind, time_time, lift, required_gap, later.
  pose proof (next_latency_nonneg w) as Hlat.
  destruct (ThrottlingMiddleware._get_max_delay cfg act) as [d|].
  - cbn [last_action_time elapse with_clock].
    unfold time_sleep, ret.
    destruct (Z.ltb_spec 0 (Z.max 0 (d - (clock (elapse w)
                                            - last_action_time w))))
      as [Hwait|Hwait].
    + pose proof (next_latency_nonneg (elapse w)).
      cbn in *. repeat split; try (now right); intros; lia.
    + cbn in *. repeat split; try (now right); intros; lia.
  - cbn in *. repeat split; try (now left); intros; lia.
Qed.

Lemma throttle_call_after (x : value * value * ref) (w : World U) :
  fst (phase6 (ThrottlingMiddleware.middleware cfg) x w) = Returned x
  /\ exec_log (snd (phase6 (ThrottlingMiddleware.middleware cfg) x w))
     = exec_log w
  /\ clock w
     <= clock (snd (phase6 (ThrottlingMiddleware.middleware cfg) x w))
  /\ last_action_time (snd (phase6 (ThrottlingMiddleware.middleware cfg) x w))
     = clock (snd (phase6 (ThrottlingMiddleware.middleware cfg) x w)).
Proof.
  destruct x as [[result action] context].
  pose proof (next_latency_nonneg w).
  cbn. repeat split; lia.
Qed.

Lemma throttling_rests :
  quiet_call later phase1 (ThrottlingMiddleware.middleware (U := U) cfg)
  /\ quiet_call later phase2 (ThrottlingMiddleware.middleware (U := U) cfg)
  /\ quiet_call later phase3 (ThrottlingMiddleware.middleware (U := U) cfg)
  /\ quiet_call later phase4 (ThrottlingMiddleware.middleware (U := U) cfg).
Proof.
  refine (conj _ (conj _ (conj _ _))).
  - intros c w. split; [now right|apply later_refl].
  - intros [s c] w. split; [now right|apply later_refl].
  - intros [s c] w. split; [now right|apply later_refl].
  - intros [[a s] c] w. split; [now right|apply later_refl].
Qed.

Section Around.

Variables pre post : list (PyMiddleware (U := U)).
Hypothesis Hpre : Forall patient pre.
Hypothesis Hpost : Forall patient post.

Lemma patient_phase {X : Type}
    (phase : PyMiddleware (U := U) -> X -> call (W := World U) X)
    (ms : list (PyMiddleware (U := U))) :
  (forall m, patient m -> quiet_call later phase m) ->
  Forall patient ms -> Forall (quiet_call later phase) ms.
Proof. intros Hp. apply Forall_impl. exact Hp. Qed.

Lemma chain_rests {X : Type}
    (phase : PyMiddleware (U := U) -> X -> call (W := World U) X)
    (rejected : X -> bool) (x : X) (w : World U) :
  (forall m, patient m -> quiet_call later phase m) ->
  quiet_call later phase (ThrottlingMiddleware.middleware cfg) ->
  rejected x = false ->
  exists w',
    for_each phase rejected
      (pre ++ ThrottlingMiddleware.middleware cfg :: post) x w
    = (x, w', Exhausted)
    /\ later w w'.
Proof.
  intros Hp Ht Hx.
  apply (for_each_quiet later later_refl later_trans); [|exact Hx].
  apply Forall_app. split; [now apply patient_phase|].
  constructor; [exact Ht|now apply patient_phase].
Qed.

Lemma chain_before (act : value) (w : World U) :
  Py.is_none act = false ->
  exists w2,
    Pipeline.process_before_execution Py.is_none
      (pre ++ ThrottlingMiddleware.middleware cfg :: post) act the_context w
    = ((act, the_context), w2)
    /\ later w w2
    /\ (forall t1, t1 <= last_action_time w -> t1 <= clock w ->
                   t1 + required_gap cfg act <= clock w2).
Proof.
  intros Hsome.
  destruct (for_each_around later later_refl later_trans phase5
              (rejected5 Py.is_none) pre
              (ThrottlingMiddleware.middleware cfg) post
              (act, the_context) w)
    as (w1 & w3 & Hrun & Hw1 & Hw3).
  - apply patient_phase; [|exact Hpre]. intros m Hm. apply Hm.
  - apply patient_phase; [|exact Hpost]. intros m Hm. apply Hm.
  - exact Hsome.
  - intros w1. apply (throttle_call_before act w1 Hsome).
  - destruct (throttle_call_before act w1 Hsome) as (_ & Hw2 & Hgap).
    exists w3. unfold Pipeline.process_before_execution, finish.
    rewrite Hrun. split; [reflexivity|].
    split.
    + apply later_trans with w1; [exact Hw1|].
      now apply later_trans
        with (snd (phase5 (ThrottlingMiddleware.middleware cfg)
                     (act, the_context) w1)).
    + intros t1 H1 H2. destruct Hw1 as (_ & Hl1 & Hc1).
      destruct Hw3 as (_ & _ & Hc3).
      specialize (Hgap t1). lia.
Qed.

Lemma chain_after (result act : value) (w : World U) :
  exists w2,
    Pipeline.process_after_execution
      (pre ++ ThrottlingMiddleware.middleware cfg :: post) result act
      the_context w
    = ((result, act, the_context), w2)
    /\ exec_log w2 = exec_log w
    /\ clock w <= last_action_time w2
    /\ last_action_time w2 <= clock w2.
Proof.
  destruct (for_each_around later later_refl later_trans phase6 never pre
              (ThrottlingMiddleware.middleware cfg) post
              (result, act, the_context) w)
    as (w1 & w3 & Hrun & Hw1 & Hw3).
  - apply patient_phase; [|exact Hpre]. intros m Hm. apply Hm.
  - apply patient_phase; [|exact Hpost]. intros m Hm. apply Hm.
  - reflexivity.
  - intros w1. right. apply throttle_call_after.
  - destruct (throttle_call_after (result, act, the_context) w1)
      as (_ & He2 & Hc2 & Hl2).
    destruct Hw1 as (He1 & Hl1 & Hc1). destruct Hw3 as (He3 & Hl3 & Hc3).
    exists w3. unfold Pipeline.process_after_execution, finish.
    rewrite Hrun. split; [reflexivity|].
    repeat split; [congruence|lia|lia].
Qed.


Variable perceive : World U -> value.
Variable decide : World U -> value -> value.
Variable executor : World U -> value -> bool.

Lemma paced_later (w w' : World U) :
  paced cfg w -> later w w' -> paced cfg w'.
Proof.
  intros Hp (He & Hl & Hc). apply (paced_frame w); [exact Hp|exact He| |exact Hc].
  rewrite Hl. apply Hp.
Qed.

Lemma paced_recorded (act result : value) (w w2 : World U) :
  paced cfg w ->
  exec_log w2 = exec_log w ->
  clock w <= last_action_time w2 ->
  last_action_time w2 <= clock w2 ->
  paced cfg (snd (UIAgent.record_history act result the_context w2)).
Proof.
  intros Hp He Hc Hl.
  destruct (record_history_frame act result w2) as (He3 & Hl3 & Hc3).
  apply (paced_frame w); [exact Hp|congruence| |lia].
  rewrite Hl3. destruct Hp as (_ & _ & Hlatest).
  now apply latest_le_mono with (clock w).
Qed.

Lemma paced_process_action act state final_result (w : World U) :
  paced cfg w ->
  paced cfg
    (snd (UIAgent.process_action executor
            (pre ++ ThrottlingMiddleware.middleware cfg :: post)
            act state final_result w)).
Proof.
  intros Hp. unfold UIAgent.process_action.
  destruct (Py.is_none act) eqn:Hnone.
  - (* the decision is [None]: whatever the chain does with it, the
       loop continues *)
    assert (Hq : Forall (quiet_call later phase4)
                   (pre ++ ThrottlingMiddleware.middleware cfg :: post)).
    { apply Forall_app. split;
        [apply patient_phase; [|exact Hpre]; intros m Hm; apply Hm|].
      constructor; [apply throttling_rests|].
      apply patient_phase; [|exact Hpost]. intros m Hm. apply Hm. }
    destruct (for_each_quiet_any later later_refl later_trans phase4
                (rejected4 Py.is_none) _ (act, state, the_context) w Hq)
      as [Hv Hl].
    unfold Pipeline.process_after_decision, finish.
    destruct (fst (for_each phase4 (rejected4 Py.is_none)
                     (pre ++ ThrottlingMiddleware.middleware cfg :: post)
                     (act, state, the_context) w))
      as [[[current state1] c1] w1].
    cbn [fst snd] in Hv, Hl. injection Hv as -> -> ->.
    rewrite Hnone. cbn [snd].
    exact (paced_later w w1 Hp Hl).
  - destruct (chain_rests phase4 (rejected4 Py.is_none)
                (act, state, the_context) w)
      as (w1 & Hrun & Hw1);
      [intros m Hm; apply Hm|apply throttling_rests|exact Hnone|].
    unfold Pipeline.process_after_decision, finish.
    rewrite Hrun. cbn [fst]. rewrite Hnone.
    pose proof (paced_later w w1 Hp Hw1) as Hp1.
    destruct (UIAgent.should_stop act).
    + destruct act as [| | | | |a]; try exact Hp1.
      unfold tick.
      destruct (chain_after (UIAgent.stop_result a (clock (elapse w1)))
                  (VDict a) (elapse w1)) as (w2 & -> & He & Hc & Hl).
      pose proof (clock_elapse w1) as Hclock.
      assert (Hrec := paced_recorded (VDict a)
                        (UIAgent.stop_result a (clock (elapse w1))) w1 w2
                        Hp1 He ltac:(lia) Hl).
      destruct (UIAgent.record_history (VDict a) _ the_context w2)
        as [[[]|] w3]; exact Hrec.
    + destruct (chain_before act w1 Hnone)
        as (w2 & -> & (He2 & Hl2 & Hc2) & Hgap).
      rewrite Hnone. unfold UIAgent.execute, tick.
      match goal with
      | |- context [Pipeline.process_after_execution _ ?r act the_context ?w3]
        => destruct (chain_after r act w3) as (w4 & -> & He4 & Hc4 & Hl4)
      end.
      destruct (record_history_frame act
                  (UIAgent.execution_result
                     (executor (elapse w2) act)
                     (clock (elapse (with_exec_log
                        (exec_log (elapse w2) ++ [(act, clock (elapse w2))])
                        (elapse w2))))) w4) as (He5 & Hl5 & Hc5).
      pose proof (clock_elapse w2) as Hclock2.
      pose proof (next_latency_nonneg
                    (with_exec_log
                       (exec_log (elapse w2) ++ [(act, clock (elapse w2))])
                       (elapse w2))) as Hlat.
      assert (Hpaced :
                paced cfg
                  (snd (UIAgent.record_history act
                          (UIAgent.execution_result
                             (executor (elapse w2) act)
                             (clock (elapse (with_exec_log
                                (exec_log (elapse w2)
                                 ++ [(act, clock (elapse w2))])
                                (elapse w2))))) the_context w4))).
      { apply (paced_append w1 _ act (clock (elapse w2)));
          [exact Hp1| | | |].
        - rewrite He5, He4. cbn. now rewrite He2.
        - intros t1 H1 H2. specialize (Hgap t1 H1 H2). lia.
        - rewrite Hl5. cbn in Hc4, Hlat |- *. lia.
        - rewrite Hc5. cbn in Hc4, Hlat |- *. lia. }
      destruct (UIAgent.record_history act _ the_context w4)
        as [[[]|] w5]; exact Hpaced.
Qed.


Lemma paced_tick (w : World U) : paced cfg w -> paced cfg (snd (tick w)).
Proof.
  intros Hp. apply (paced_later w _ Hp). unfold later.
  pose proof (next_latency_nonneg w). cbn. repeat split; lia.
Qed.

Lemma paced_for_actions actions state final_result (w : World U) :
  paced cfg w ->
  paced cfg
    (snd (UIAgent.for_actions executor
            (pre ++ ThrottlingMiddleware.middleware cfg :: post)
            actions state final_result w)).
Proof.
  revert state final_result w.
  induction actions as [|act rest IH]; intros state final_result w Hp.
  - apply (paced_tick w Hp).
  - cbn [UIAgent.for_actions].
    pose proof (paced_process_action act state final_result w Hp) as H1.
    destruct (UIAgent.process_action executor _ act state final_result w)
      as [[state' final_result'|b] w1]; cbn [snd] in H1.
    + now apply IH.
    + exact H1.
Qed.

Lemma paced_step (w : World U) :
  paced cfg w ->
  paced cfg
    (snd (UIAgent.step perceive decide executor
            (pre ++ ThrottlingMiddleware.middleware cfg :: post) w)).
Proof.
  intros Hp. unfold UIAgent.step. unfold tick at 1.
  pose proof (paced_tick w Hp) as Hp0. unfold tick in Hp0. cbn [snd] in Hp0.
  destruct (chain_rests phase1 never the_context (elapse w))
    as (w1 & Hrun1 & Hw1);
    [intros m Hm; apply Hm|apply throttling_rests|reflexivity|].
  unfold Pipeline.process_before_perception, finish. rewrite Hrun1.
  cbn [fst].
  destruct (chain_rests phase2 never (perceive w1, the_context) w1)
    as (w2 & Hrun2 & Hw2);
    [intros m Hm; apply Hm|apply throttling_rests|reflexivity|].
  unfold Pipeline.process_after_perception, finish. rewrite Hrun2.
  cbn [fst].
  destruct (chain_rests phase3 never (perceive w1, the_context) w2)
    as (w3 & Hrun3 & Hw3);
    [intros m Hm; apply Hm|apply throttling_rests|reflexivity|].
  unfold Pipeline.process_before_decision, finish. rewrite Hrun3.
  cbn [fst].
  apply paced_for_actions.
  apply (paced_later w2); [|exact Hw3].
  apply (paced_later w1); [|exact Hw2].
  now apply (paced_later (elapse w)).
Qed.

Lemma paced_sleep d (w : World U) :
  0 <= d -> paced cfg w -> paced cfg (sleep d w).
Proof.
  intros Hd Hp. apply (paced_later w _ Hp). unfold later.
  pose proof (next_latency_nonneg w). cbn. repeat split; lia.
Qed.

Lemma paced_main_loop fuel iteration (w : World U) :
  paced cfg w ->
  paced cfg
    (snd (UIAgent.main_loop cfg perceive decide executor
            (pre ++ ThrottlingMiddleware.middleware cfg :: post) fuel
            iteration w)).
Proof.
  revert iteration w.
  induction fuel as [|fuel IH]; intros iteration w Hp; [exact Hp|].
  cbn [UIAgent.main_loop]. unfold tick at 1.
  match goal with
  | |- context [UIAgent.step _ _ _ _ ?w1] =>
      assert (Hstep : paced cfg
                        (snd (UIAgent.step perceive decide executor
                                (pre ++ ThrottlingMiddleware.middleware cfg
                                     :: post) w1)))
  end.
  { apply paced_step.
    apply (paced_tick (with_context _ w) Hp). }
  match goal with
  | |- context [UIAgent.step _ _ _ _ ?w1] =>
      destruct (UIAgent.step perceive decide executor
                  (pre ++ ThrottlingMiddleware.middleware cfg :: post) w1)
        as [stop w2]
  end.
  cbn [snd] in Hstep.
  destruct stop; [exact Hstep|].
  destruct (max_iterations cfg <=? iteration + 1); [exact Hstep|].
  apply IH.
  destruct (Z.ltb_spec 0 (iteration_delay cfg)); [|exact Hstep].
  apply paced_sleep; [lia|exact Hstep].
Qed.

Lemma paced_run task (w : World U) :
  exec_log w = [] ->
  paced cfg
    (snd (UIAgent.run cfg perceive decide executor
            (pre ++ ThrottlingMiddleware.middleware cfg :: post) task w)).
Proof.
  intros Hlog. unfold UIAgent.run. cbv zeta. cbn [context with_context].
  rewrite AgentFacts.setup_sets_prompt_name. rewrite andb_false_r.
  unfold tick at 1.
  match goal with
  | |- context [UIAgent.main_loop _ _ _ _ _ _ _ ?w1] =>
      assert (Hloop : paced cfg
                        (snd (UIAgent.main_loop cfg perceive decide executor
                                (pre ++ ThrottlingMiddleware.middleware cfg
                                     :: post) (UIAgent.passes cfg) 0 w1)))
  end.
  { apply paced_main_loop. unfold paced, latest_le. cbn. rewrite Hlog.
    cbn. repeat split. }
  match goal with
  | |- context [UIAgent.main_loop _ _ _ _ _ _ _ ?w1] =>
      destruct (UIAgent.main_loop cfg perceive decide executor
                  (pre ++ ThrottlingMiddleware.middleware cfg :: post)
                  (UIAgent.passes cfg) 0 w1) as [iteration w2]
  end.
  cbn [snd] in Hloop. unfold tick. cbn [snd].
  apply (paced_tick w2 Hloop).
Qed.

End Around.

Lemma spaced_back_tail (l1 l2 : list (value * Z)) :
  spaced_back cfg (l1 ++ l2) -> spaced_back cfg l2.
Proof.
  induction l1 as [|[a t] l1 IH]; [easy|].
  intros [_ H]. now apply IH.
Qed.

Lemma spaced_back_adjacent (log pre post : list (value * Z)) a1 t1 a2 t2 :
  spaced_back cfg (rev log) ->
  log = pre ++ (a1, t1) :: (a2, t2) :: post ->
  t1 + required_gap cfg a2 <= t2.
Proof.
  intros Hs ->. rewrite rev_app_distr in Hs. cbn in Hs.
  rewrite <- !app_assoc in Hs. apply spaced_back_tail in Hs.
  cbn in Hs. apply Hs.
Qed.


Lemma per_type_delay (a : dict) (ty : string) (d : Z) :
  Py.lookup "type" a = Some (VStr ty) ->
  ty <> "composite" ->
  ThrottlingMiddleware.assoc ty (action_delays cfg) = Some d ->
  ThrottlingMiddleware._get_max_delay cfg (VDict a) = Returned d.
Proof.
  intros Hty Hplain Hd.
  unfold ThrottlingMiddleware._get_max_delay.
  cbn [ThrottlingMiddleware._get_action_delay].
  unfold Py.get. rewrite Hty. cbn [Py.eq_str].
  destruct (String.eqb_spec ty "composite") as [->|_]; [congruence|].
  unfold ThrottlingMiddleware.keyed_delay, ThrottlingMiddleware.delay_of.
  cbn [Py.hashable]. now rewrite Hd.
Qed.

Lemma throttle_sleeps (act : value) (d : Z) (w : World U) :
  Py.is_none act = false ->
  ThrottlingMiddleware._get_max_delay cfg act = Returned d ->
  ThrottlingMiddleware.process_before_execution cfg act the_context w
  = (Returned (act, the_context),
     let wait_time :=
       Z.max 0 (d - (clock (elapse w) - last_action_time w)) in
     if 0 <? wait_time then sleep wait_time (elapse w) else elapse w).
Proof.
  intros Hsome Hd. unfold ThrottlingMiddleware.process_before_execution.
  rewrite Hsome. unfold bind, time_time, lift. rewrite Hd. cbv zeta.
  cbn [last_action_time elapse with_clock].
  now destruct (0 <? Z.max 0 (d - (clock (elapse w) - last_action_time w))).
Qed.

Lemma throttle_keeps_throttle :
  keeps_throttle (ThrottlingMiddleware.middleware (U := U) cfg).
Proof.
  split; [reflexivity|]. intros a c w.
  cbn [mw_before_execution ThrottlingMiddleware.middleware].
  unfold ThrottlingMiddleware.process_before_execution.
  destruct (Py.is_none a); [reflexivity|].
  unfold bind, time_time, lift.
  destruct (ThrottlingMiddleware._get_max_delay cfg a) as [d|];
    [|reflexivity].
  cbn [last_action_time elapse with_clock].
  now destruct (0 <? Z.max 0 (d - (clock (elapse w) - last_action_time w))).
Qed.

Lemma phase4_keeps_throttle (ms : list (PyMiddleware (U := U))) :
  Forall keeps_throttle ms ->
  forall (w : World U) x,
    last_action_time
      (snd (fst (for_each phase4 (rejected4 Py.is_none) ms x w)))
    = last_action_time w.
Proof.
  induction ms as [|m ms IH]; intros Hall w x; [reflexivity|].
  apply Forall_cons_iff in Hall. destruct Hall as [[Hm _] Hms].
  cbn [for_each]. specialize (Hm (fst (fst x)) (snd (fst x)) (snd x) w).
  unfold phase4 at 1.
  destruct (mw_after_decision m (fst (fst x)) (snd (fst x)) (snd x) w)
    as [[x'|] w']; cbn [snd] in Hm.
  - destruct (rejected4 Py.is_none x'); [exact Hm|].
    rewrite (IH Hms). exact Hm.
  - rewrite (IH Hms). exact Hm.
Qed.

Lemma phase5_keeps_throttle (ms : list (PyMiddleware (U := U))) :
  Forall keeps_throttle ms ->
  forall (w : World U) x,
    last_action_time
      (snd (fst (for_each phase5 (rejected5 Py.is_none) ms x w)))
    = last_action_time w.
Proof.
  induction ms as [|m ms IH]; intros Hall w x; [reflexivity|].
  apply Forall_cons_iff in Hall. destruct Hall as [[_ Hm] Hms].
  cbn [for_each]. specialize (Hm (fst x) (snd x) w).
  unfold phase5 at 1.
  destruct (mw_before_execution m (fst x) (snd x) w)
    as [[x'|] w']; cbn [snd] in Hm.
  - destruct (rejected5 Py.is_none x'); [exact Hm|].
    rewrite (IH Hms). exact Hm.
  - rewrite (IH Hms). exact Hm.
Qed.

Lemma rejected_keeps_throttle (middlewares : list (PyMiddleware (U := U)))
    (executor : World U -> value -> bool)
    act state final_result (w : World U) current state1 c1 w1 :
  Forall keeps_throttle middlewares ->
  Pipeline.process_after_decision Py.is_none middlewares act state
    the_context w = ((current, state1, c1), w1) ->
  Py.is_none current = true
  \/ (UIAgent.should_stop current = false
      /\ Py.is_none
           (fst (fst (Pipeline.process_before_execution Py.is_none
                        middlewares current c1 w1))) = true) ->
  last_action_time
    (snd (UIAgent.process_action executor middlewares act state
            final_result w))
  = last_action_time w.
Proof.
  intros Hkeep Hdec Hrej.
  pose proof (phase4_keeps_throttle middlewares Hkeep w
                (act, state, the_context)) as H1.
  unfold Pipeline.process_after_decision, finish in Hdec.
  rewrite Hdec in H1. cbn [snd] in H1.
  unfold UIAgent.process_action.
  unfold Pipeline.process_after_decision at 1, finish at 1. rewrite Hdec.
  destruct Hrej as [Hnone|[Hgo Hnone]].
  - rewrite Hnone. exact H1.
  - destruct (Py.is_none current); [exact H1|]. rewrite Hgo.
    pose proof (phase5_keeps_throttle middlewares Hkeep w1
                  (current, c1)) as H2.
    unfold Pipeline.process_before_execution, finish in Hnone |- *.
    destruct (fst (for_each phase5 (rejected5 Py.is_none) middlewares
                     (current, c1) w1)) as [[current2 c2] w2].
    cbn [fst snd] in Hnone, H2. rewrite Hnone. cbn [snd]. congruence.
Qed.

End Pace.

(** C9: with the throttling middleware registered, alone or among
    middlewares that hand their arguments back and leave the executor and
    the throttle alone (the state-tracking middleware is one), any two
    successive calls of the executor in a run are at least as far apart
    as the delay configured for the later action, because
    [process_before_execution] sleeps [max(0, delay - elapsed)] counted
    from [last_action_time]; an action with a plain type tag has the
    delay configured for that tag; and an action rejected after the
    decision or before the execution leaves [last_action_time] as it
    was. *)
Theorem throttle_spaces_executions :
  (forall (U : Type) (cfg : Config) (pre post : list (PyMiddleware (U := U)))
      perceive decide executor task (w : World U) before a1 t1 a2 t2 after d,
      Forall patient pre ->
      Forall patient post ->
      exec_log w = [] ->
      exec_log
        (snd (UIAgent.run cfg perceive decide executor
                (pre ++ ThrottlingMiddleware.middleware cfg :: post) task w))
      = before ++ (a1, t1) :: (a2, t2) :: after ->
      ThrottlingMiddleware._get_max_delay cfg a2 = Returned d ->
      t1 + d <= t2)
  /\ (forall (U : Type) (cfg : Config),
         patient (StateTrackingMiddleware.middleware (U := U) cfg))
  /\ (forall (cfg : Config) (a : dict) (ty : string) (d : Z),
         Py.lookup "type" a = Some (VStr ty) ->
         ty <> "composite" ->
         ThrottlingMiddleware.assoc ty (action_delays cfg) = Some d ->
         ThrottlingMiddleware._get_max_delay cfg (VDict a) = Returned d)
  /\ (forall (U : Type) (cfg : Config) (act : value) (d : Z) (w : World U),
         Py.is_none act = false ->
         ThrottlingMiddleware._get_max_delay cfg act = Returned d ->
         ThrottlingMiddleware.process_before_execution cfg act the_context w
         = (Returned (act, the_context),
            let wait_time :=
              Z.max 0 (d - (clock (elapse w) - last_action_time w)) in
            if 0 <? wait_time then sleep wait_time (elapse w)
            else elapse w))
  /\ (forall (U : Type) (cfg : Config)
         (middlewares : list (PyMiddleware (U := U)))
         (executor : World U -> value -> bool)
         act state final_result (w : World U) current state1 c1 w1,
         Forall keeps_throttle
           (ThrottlingMiddleware.middleware cfg :: middlewares) ->
         process_after_decision Py.is_none
           (ThrottlingMiddleware.middleware cfg :: middlewares) act state
           the_context w = ((current, state1, c1), w1) ->
         Py.is_none current = true
         \/ (UIAgent.should_stop current = false
             /\ Py.is_none
                  (fst (fst (process_before_execution Py.is_none
                               (ThrottlingMiddleware.middleware cfg
                                  :: middlewares) current c1 w1))) = true) ->
         last_action_time
           (snd (UIAgent.process_action executor
                   (ThrottlingMiddleware.middleware cfg :: middlewares)
                   act state final_result w))
         = last_action_time w)
  /\ (forall (U : Type) (cfg : Config),
         keeps_throttle (ThrottlingMiddleware.middleware (U := U) cfg)).
Proof.
  split; [|split; [|split; [|split; [|split]]]].
  - intros U cfg pre post perceive decide executor task w before a1 t1 a2 t2
      after d Hpre Hpost Hlog Hshape Hd.
    destruct (paced_run cfg pre post Hpre Hpost perceive decide executor
                task w Hlog) as (Hspaced & _).
    pose proof (spaced_back_adjacent cfg _ before after a1 t1 a2 t2 Hspaced
                  Hshape) as Hgap.
    unfold required_gap in Hgap. now rewrite Hd in Hgap.
  - intros U cfg. apply state_tracking_patient.
  - intros cfg a ty d. apply per_type_delay.
  - intros U cfg act d w. apply throttle_sleeps.
  - intros U cfg middlewares executor act state final_result w current
      state1 c1 w1 Hkeep Hdec Hrej.
    exact (rejected_keeps_throttle _ executor act state final_result w
             current state1 c1 w1 Hkeep Hdec Hrej).
  - intros U cfg. apply throttle_keeps_throttle.
Qed.

Lemma throttle_spaces_executions_witness :
  let cfg := Scenario.config 3 10 in
  (exists t1 t2 after,
      exec_log
        (snd (UIAgent.run cfg Scenario.sees_screen
                (Scenario.always Scenario.two_clicks) Scenario.fails
                [ThrottlingMiddleware.middleware cfg;
                 StateTrackingMiddleware.middleware cfg] "task"
                (with_clock 100 [3; 0; 2]%nat Scenario.blank)))
      = (Scenario.click11, t1) :: (Scenario.click11, t2) :: after
      /\ t1 + 1 <= t2)
  /\ last_action_time
       (snd (UIAgent.process_action Scenario.succeeds
               [ThrottlingMiddleware.middleware cfg; Scenario.veto]
               Scenario.click11 Scenario.screen false Scenario.ready))
     = last_action_time Scenario.ready.
Proof.
  cbv zeta.
  destruct throttle_spaces_executions
    as (Hgap & Hpatient & _ & _ & Hrej & Hthr).
  split.
  - do 3 eexists. split; [vm_compute; reflexivity|].
    eapply (Hgap unit (Scenario.config 3 10) []
              [StateTrackingMiddleware.middleware (Scenario.config 3 10)]
              Scenario.sees_screen
              (Scenario.always Scenario.two_clicks) Scenario.fails "task"
              (with_clock 100 [3; 0; 2]%nat Scenario.blank) []);
      [apply Forall_nil
      |apply Forall_cons; [apply Hpatient|apply Forall_nil]|reflexivity
      |vm_compute; reflexivity|reflexivity].
  - eapply (Hrej unit (Scenario.config 3 10) [Scenario.veto]
              Scenario.succeeds Scenario.click11 Scenario.screen false
              Scenario.ready).
    + constructor; [apply Hthr|]. constructor; [|constructor].
      split; reflexivity.
    + reflexivity.
    + left. reflexivity.
Defined.

End TimingFacts.

Module DelayFacts.

Import Store ThrottlingMiddleware.

Section Delays.

Variable cfg : Config.

Lemma max_over_bounds (l : list value) :
  forall acc d,
    max_over cfg l acc = Returned d ->
    acc <= d
    /\ (forall a, In a l -> Py.is_dict a = true ->
                  exists da, _get_action_delay cfg a = Returned da /\ da <= d)
    /\ (d = acc
        \/ exists a, In a l /\ Py.is_dict a = true
                     /\ _get_action_delay cfg a = Returned d).
Proof.
  induction l as [|act l IH]; intros acc d H; cbn [max_over] in H.
  - injection H as <-. split; [lia|]. split; [intros a []|now left].
  - destruct (Py.is_dict act) eqn:Hd.
    + destruct (_get_action_delay cfg act) as [x|] eqn:Hx; [|discriminate].
      destruct (IH _ _ H) as (Hacc & Hall & Hmax).
      split; [lia|]. split.
      * intros a [<-|Hin] Ha.
        -- exists x. split; [exact Hx|lia].
        -- now apply Hall.
      * destruct Hmax as [->|(a & Hin & Ha & Hda)].
        -- destruct (Z.max_spec acc x) as [[_ ->]|[_ ->]].
           ++ right. exists act. repeat split; [now left|exact Hd|exact Hx].
           ++ now left.
        -- right. exists a. repeat split; [now right|exact Ha|exact Hda].
    + destruct (IH _ _ H) as (Hacc & Hall & Hmax).
      split; [exact Hacc|]. split.
      * intros a [<-|Hin] Ha; [congruence|now apply Hall].
      * destruct Hmax as [->|(a & Hin & Ha & Hda)]; [now left|].
        right. exists a. repeat split; [now right|exact Ha|exact Hda].
Qed.

(** The members of a composite action are scanned like the elements of
    a list of actions. *)
Lemma composite_delay (a : dict) (subs : list value) :
  Py.lookup "type" a = Some (VStr "composite") ->
  Py.lookup "actions" a = Some (VList subs) ->
  _get_action_delay cfg (VDict a)
  = match max_over cfg subs 0 with
    | Returned m => Returned (Z.max m (delay_of cfg (VStr "composite")))
    | Raised => Raised
    end.
Proof.
  intros Ht Ha. cbn [_get_action_delay]. unfold Py.get. rewrite Ht.
  change (Py.eq_str (VStr "composite") "composite") with true. cbv iota.
  clear Ht. induction a as [|[k v] a IH]; [discriminate|].
  cbn [Py.lookup] in Ha. cbv beta iota.
  destruct (String.eqb "actions" k) eqn:Hk.
  - injection Ha as ->.
    assert (Heach : forall l acc,
      (fix each (l : list value) (max_delay : Z) {struct l} : outcome Z :=
         match l with
         | [] => Returned max_delay
         | sub_action :: l' =>
             if Py.is_dict sub_action then
               match _get_action_delay cfg sub_action with
               | Returned x => each l' (Z.max max_delay x)
               | Raised => Raised
               end
             else each l' max_delay
         end) l acc = max_over cfg l acc).
    { induction l as [|s l IHl]; intros acc; [reflexivity|].
      cbn [max_over]. destruct (Py.is_dict s); [|apply IHl].
      destruct (_get_action_delay cfg s); [apply IHl|reflexivity]. }
    rewrite Heach. reflexivity.
  - apply IH. exact Ha.
Qed.

End Delays.

(** The wait asked for a list of actions is that of its slowest
    member: no less than the delay of any dict in the list, never
    negative, and nothing but [0] or the delay of one of them. *)
Theorem batch_waits_for_slowest :
  forall (cfg : Config) (l : list value) (d : Z),
    _get_max_delay cfg (VList l) = Returned d ->
    0 <= d
    /\ (forall a, In a l -> Py.is_dict a = true ->
                  exists da, _get_action_delay cfg a = Returned da /\ da <= d)
    /\ (d = 0
        \/ exists a, In a l /\ Py.is_dict a = true
                     /\ _get_action_delay cfg a = Returned d).
Proof. intros cfg l d H. exact (max_over_bounds cfg l 0 d H). Qed.

Lemma batch_waits_for_slowest_witness :
  let cfg := Scenario.config 3 10 in
  let typing := VDict [("type", VStr "type"); ("text", VStr "hi")] in
  _get_max_delay cfg (VList [Scenario.click11; typing; VNum 7]) = Returned 2
  /\ exists da, _get_action_delay cfg Scenario.click11 = Returned da
                /\ da <= 2.
Proof.
  cbv zeta. split; [reflexivity|].
  refine (proj1 (proj2 (batch_waits_for_slowest (Scenario.config 3 10)
                          [Scenario.click11;
                           VDict [("type", VStr "type"); ("text", VStr "hi")];
                           VNum 7] 2 _))
            Scenario.click11 _ _);
    [reflexivity|now left|reflexivity].
Defined.

(** The delay of a composite action is the larger of the delay
    configured for composites and the delays of its members. *)
Theorem composite_waits_for_slowest :
  forall (cfg : Config) (a : dict) (subs : list value) (d : Z),
    Py.lookup "type" a = Some (VStr "composite") ->
    Py.lookup "actions" a = Some (VList subs) ->
    _get_action_delay cfg (VDict a) = Returned d ->
    delay_of cfg (VStr "composite") <= d
    /\ (forall sub, In sub subs -> Py.is_dict sub = true ->
                    exists ds, _get_action_delay cfg sub = Returned ds
                               /\ ds <= d)
    /\ (d = Z.max 0 (delay_of cfg (VStr "composite"))
        \/ exists sub, In sub subs /\ Py.is_dict sub = true
                       /\ _get_action_delay cfg sub = Returned d).
Proof.
  intros cfg a subs d Ht Ha H.
  rewrite (composite_delay cfg a subs Ht Ha) in H.
  destruct (max_over cfg subs 0) as [m|] eqn:Hm; [|discriminate].
  assert (Hd : d = Z.max m (delay_of cfg (VStr "composite")))
    by (injection H as <-; reflexivity).
  clear H. subst d.
  destruct (max_over_bounds cfg subs 0 m Hm) as (H0 & Hall & Hmax).
  split; [lia|]. split.
  - intros sub Hin Hd. destruct (Hall sub Hin Hd) as (ds & Hds & Hle).
    exists ds. split; [exact Hds|lia].
  - destruct Hmax as [->|(sub & Hin & Hd & Hsub)]; [now left|].
    destruct (Z.max_spec m (delay_of cfg (VStr "composite")))
      as [[Hlt ->]|[Hle ->]].
    + left. lia.
    + right. exists sub. repeat split; assumption.
Qed.

Lemma composite_waits_for_slowest_witness :
  let cfg := Scenario.config 3 10 in
  let typing := VDict [("type", VStr "type"); ("text", VStr "hi")] in
  let both :=
    [("type", VStr "composite");
     ("actions", VList [Scenario.click11; typing])] in
  _get_action_delay cfg (VDict both) = Returned 10
  /\ delay_of cfg (VStr "composite") <= 10.
Proof.
  cbv zeta. split; [reflexivity|].
  refine (proj1 (composite_waits_for_slowest (Scenario.config 3 10)
                   [("type", VStr "composite");
                    ("actions",
                     VList [Scenario.click11;
                            VDict [("type", VStr "type");
                                   ("text", VStr "hi")]])]
                   [Scenario.click11;
                    VDict [("type", VStr "type"); ("text", VStr "hi")]] 10
                   _ _ _)); reflexivity.
Defined.

End DelayFacts.

(** ** The statistics of the state-tracking middleware *)

Module StatsFacts.

Import Store StateTrackingMiddleware Statistics.
Local Open Scope monad_scope.

Lemma key_eqb_sym a b : key_eqb a b = key_eqb b a.
Proof.
  destruct a, b; cbn; try reflexivity;
    try apply String.eqb_sym; try apply Z.eqb_sym;
    try (destruct b0, b; reflexivity);
    try (destruct b; apply Z.eqb_sym);
    try (destruct b0; apply Z.eqb_sym).
Qed.

Lemma key_eqb_trans a b c :
  key_eqb a b = true -> key_eqb b c = true -> key_eqb a c = true.
Proof.
  destruct a, b, c; cbn; try discriminate; try (intros; reflexivity);
    rewrite ?String.eqb_eq, ?Z.eqb_eq; try congruence;
    try (destruct b; try destruct b0; try destruct b1; lia).
Qed.

Lemma key_eqb_refl t : Py.hashable t = true -> key_eqb t t = true.
Proof.
  destruct t; cbn; try discriminate; intros _; try reflexivity.
  - now destruct b.
  - apply Z.eqb_refl.
  - apply String.eqb_refl.
Qed.

Lemma row_count_type_same t b types :
  Py.hashable t = true ->
  row t (count_type t b types) = count b (row t types).
Proof.
  intros Ht. induction types as [|[k r] types IH]; cbn [count_type row].
  - now rewrite key_eqb_refl.
  - destruct (key_eqb t k) eqn:Hk; cbn [row]; rewrite Hk; [reflexivity|].
    exact IH.
Qed.

Lemma row_count_type_other t t' b types :
  key_eqb t' t = false ->
  row t' (count_type t b types) = row t' types.
Proof.
  intros Hne. induction types as [|[k r] types IH]; cbn [count_type row].
  - now rewrite Hne.
  - destruct (key_eqb t k) eqn:Hk; cbn [row].
    + destruct (key_eqb t' k) eqn:Hk'; [|reflexivity].
      rewrite key_eqb_sym in Hk.
      now rewrite (key_eqb_trans _ _ _ Hk' Hk) in Hne.
    + now rewrite IH.
Qed.

Lemma rows_success_count_type t b types :
  rows_success (count_type t b types)
  = rows_success types + (if b then 1 else 0).
Proof.
  induction types as [|[k r] types IH]; cbn [count_type rows_success].
  - destruct b; reflexivity.
  - destruct (key_eqb t k); cbn [rows_success count ts_success].
    + destruct b; lia.
    + rewrite IH. lia.
Qed.

Lemma rows_fail_count_type t b types :
  rows_fail (count_type t b types)
  = rows_fail types + (if b then 0 else 1).
Proof.
  induction types as [|[k r] types IH]; cbn [count_type rows_fail].
  - destruct b; reflexivity.
  - destruct (key_eqb t k); cbn [rows_fail count ts_fail].
    + destruct b; lia.
    + rewrite IH. lia.
Qed.

Lemma row_ok_count b r : row_ok r -> row_ok (count b r).
Proof. unfold row_ok, count. destruct b; cbn; lia. Qed.

Lemma rows_ok_count_type t b types :
  Forall (fun kt => row_ok (snd kt)) types ->
  Forall (fun kt => row_ok (snd kt)) (count_type t b types).
Proof.
  induction 1 as [|[k r] types Hr Htypes IH]; cbn [count_type].
  - constructor; [|constructor]. unfold row_ok. destruct b; cbn; lia.
  - destruct (key_eqb t k); constructor; try assumption.
    now apply row_ok_count.
Qed.

Section Counting.

Context {U : Type}.
Variable cfg : Config.

(** What [_update_stats] leaves when it counts an action. *)
Lemma update_stats_counts (a : dict) (result : value) (b : bool)
    (w : World U) :
  track_stats cfg = true ->
  Py.truthy (VDict a) = true ->
  Py.hashable (Py.get "type" (VStr "unknown") a) = true ->
  succeeded result = Returned b ->
  let s := stats w in
  let out := _update_stats cfg (VDict a) result w in
  let s' := stats (snd out) in
  fst out = Returned tt
  /\ total_actions s' = total_actions s + 1
  /\ successful_actions s' = successful_actions s + (if b then 1 else 0)
  /\ failed_actions s' = failed_actions s + (if b then 0 else 1)
  /\ action_types s'
     = count_type (Py.get "type" (VStr "unknown") a) b (action_types s)
  /\ stats_start_time s' = stats_start_time s
  /\ runtime s' = clock (snd out) - stats_start_time s.
Proof.
  intros Htrack Ha Ht Hb. cbv zeta.
  unfold _update_stats. rewrite Htrack, Ha. cbn [negb orb].
  unfold succeeded in Hb.
  unfold bind, lift, modify_stats, time_time, ret, raise.
  destruct (Py.truthy result).
  - destruct result; try discriminate. injection Hb as <-.
    rewrite Ht. cbn.
    destruct (Py.truthy (Py.get "success" (VBool false) d));
      repeat split; lia.
  - injection Hb as <-. rewrite Ht. cbn. repeat split; lia.
Qed.

Lemma update_stats_consistent (action result : value) (w : World U) :
  consistent (stats w) ->
  consistent (stats (snd (_update_stats cfg action result w))).
Proof.
  intros Hc. unfold _update_stats.
  destruct (negb (track_stats cfg) || negb (Py.truthy action));
    [exact Hc|].
  destruct action as [| | | | |a]; try exact Hc.
  unfold bind, lift, modify_stats, time_time, ret, raise.
  destruct Hc as (Hs & Hf & Ht & Hrows & Hrs & Hrf).
  assert (Hbump : forall b : bool,
    consistent
      {| total_actions := total_actions (stats w) + 1;
         successful_actions :=
           if b then successful_actions (stats w) + 1
           else successful_actions (stats w);
         failed_actions :=
           if b then failed_actions (stats w)
           else failed_actions (stats w) + 1;
         action_types := action_types (stats w);
         stats_start_time := stats_start_time (stats w);
         runtime := runtime (stats w) |}).
  { intros b. unfold consistent. cbn. destruct b; repeat split;
      try assumption; lia. }
  assert (Hcount : forall (b : bool) t now,
    consistent
      {| total_actions := total_actions (stats w) + 1;
         successful_actions :=
           if b then successful_actions (stats w) + 1
           else successful_actions (stats w);
         failed_actions :=
           if b then failed_actions (stats w)
           else failed_actions (stats w) + 1;
         action_types := count_type t b (action_types (stats w));
         stats_start_time := stats_start_time (stats w);
         runtime := now |}).
  { intros b t now. unfold consistent. cbn.
    rewrite rows_success_count_type, rows_fail_count_type.
    destruct b; repeat split; try assumption;
      try (now apply rows_ok_count_type); lia. }
  destruct (Py.truthy result).
  - destruct result; try (unfold consistent; now repeat split).
    destruct (Py.hashable (Py.get "type" (VStr "unknown") a));
      cbn -[consistent count_type].
    + apply Hcount.
    + apply Hbump.
  - destruct (Py.hashable (Py.get "type" (VStr "unknown") a));
      cbn -[consistent count_type].
    + apply (Hcount false).
    + apply (Hbump false).
Qed.

Lemma sound_refl (w : World U) : sound w w.
Proof. now intros H. Qed.

Lemma sound_trans (w1 w2 w3 : World U) :
  sound w1 w2 -> sound w2 w3 -> sound w1 w3.
Proof. unfold sound. auto. Qed.

Lemma sound_same_stats {A} (m : M (U := U) A) :
  (forall w, stats (snd (m w)) = stats w) -> frames sound m.
Proof. intros H w Hc. now rewrite H. Qed.

Ltac sound_step :=
  first
    [ apply sound_same_stats; intros ?w; reflexivity
    | FrameFacts.frame_step sound_refl sound_trans ].

Lemma sound_update_stats action result :
  frames (U := U) sound (_update_stats cfg action result).
Proof. intros w Hc. now apply update_stats_consistent. Qed.

Lemma sound_update_each l result :
  frames (U := U) sound (update_each cfg l result).
Proof.
  induction l as [|act l IH]; cbn [update_each].
  - sound_step.
  - sound_step; [|exact IH].
    destruct (Py.is_dict act); [apply sound_update_stats|sound_step].
Qed.

Lemma sound_remember action state context :
  frames sound (remember (U := U) action state context).
Proof. unfold remember. repeat sound_step. Qed.

Lemma sound_remember_each l action state context :
  frames sound (remember_each (U := U) l action state context).
Proof.
  induction l as [|act l IH]; cbn [remember_each].
  - sound_step.
  - sound_step; [|exact IH].
    destruct (Py.is_dict act); [apply sound_remember|sound_step].
Qed.

Lemma sound_append_and_trim record context :
  frames sound (append_and_trim (U := U) cfg record context).
Proof. unfold append_and_trim. repeat sound_step. Qed.

Lemma sound_before_perception context :
  frames sound (process_before_perception (U := U) cfg context).
Proof. unfold process_before_perception. repeat sound_step. Qed.

Lemma sound_after_decision action state context :
  frames sound (process_after_decision (U := U) cfg action state context).
Proof.
  unfold process_after_decision.
  destruct (Py.is_none action); [sound_step|].
  sound_step.
  { destruct action; try (now sound_step). apply sound_remember_each. }
  sound_step; [|sound_step].
  destruct action; try (now sound_step).
  sound_step; [apply sound_remember|]. repeat sound_step.
Qed.

Lemma sound_after_execution result action context :
  frames sound (process_after_execution (U := U) cfg result action context).
Proof.
  unfold process_after_execution.
  sound_step; [sound_step|].
  destruct (Py.is_none action || _); [sound_step|].
  destruct (Py.lookup "_current_action" a) as [[| | | | |record]|];
    try (now sound_step).
  cbv zeta. sound_step; [sound_step|].
  sound_step.
  { repeat sound_step. }
  sound_step; [apply sound_append_and_trim|].
  sound_step.
  { destruct action; try apply sound_update_stats.
    apply sound_update_each. }
  repeat sound_step.
Qed.

End Counting.

(** The counters of the state-tracking middleware add up at all times:
    fresh counters do, [reset_stats] leaves such counters, and
    [_update_stats] and the three phases of the middleware keep them so
    whatever action and result they are given -- also when
    [_update_stats] raises half-way.  Successes and failures make the
    total, overall and in every row, and the rows never hold more than
    the totals. *)
Theorem counters_add_up :
  forall (U : Type) (cfg : Config),
    (forall now, consistent (fresh_stats now))
    /\ (forall (w : World U), consistent (stats (snd (reset_stats w))))
    /\ (forall action result (w : World U),
           consistent (stats w) ->
           consistent (stats (snd (_update_stats cfg action result w))))
    /\ (forall context (w : World U),
           consistent (stats w) ->
           consistent
             (stats (snd (process_before_perception cfg context w))))
    /\ (forall action state context (w : World U),
           consistent (stats w) ->
           consistent
             (stats (snd (process_after_decision cfg action state context
                            w))))
    /\ (forall result action context (w : World U),
           consistent (stats w) ->
           consistent
             (stats (snd (process_after_execution cfg result action context
                            w)))).
Proof.
  intros U cfg.
  assert (Hfresh : forall now, consistent (fresh_stats now)).
  { intros now. unfold consistent, fresh_stats. cbn.
    repeat split; try lia. constructor. }
  refine (conj Hfresh (conj _ (conj _ (conj _ (conj _ _))))).
  - intros w. apply Hfresh.
  - intros action result w. apply update_stats_consistent.
  - intros context w. apply sound_before_perception.
  - intros action state context w. apply sound_after_decision.
  - intros result action context w. apply sound_after_execution.
Qed.

Lemma counters_add_up_witness :
  let cfg := Scenario.config 3 10 in
  let result := VDict [("success", VBool true)] in
  let w := snd (_update_stats cfg Scenario.click11 result Scenario.blank) in
  total_actions (stats w) = 1
  /\ consistent (stats w).
Proof.
  cbv zeta. split; [reflexivity|].
  destruct (counters_add_up unit (Scenario.config 3 10))
    as (Hfresh & _ & Hupdate & _).
  apply Hupdate. apply (Hfresh 0).
Defined.

(** The success rate lies between 0 and 1 whenever the counters add
    up. *)
Theorem success_rate_in_unit_interval :
  forall s : Stats,
    consistent s ->
    (0 <= get_success_rate s)%Q /\ (get_success_rate s <= 1)%Q.
Proof.
  intros s (Hs & Hf & Ht & _). unfold get_success_rate.
  destruct (total_actions s =? 0) eqn:H0.
  - split; discriminate.
  - apply Z.eqb_neq in H0.
    destruct (total_actions s) as [|p|p] eqn:Hp; try lia.
    unfold Qle, Qdiv, Qmult, Qinv, inject_Z. cbn. lia.
Qed.

Lemma success_rate_in_unit_interval_witness :
  let cfg := Scenario.config 3 10 in
  let failed := VDict [("success", VBool false)] in
  let w := snd (_update_stats cfg Scenario.click11 failed Scenario.blank) in
  (0 <= get_success_rate (stats w))%Q /\ (get_success_rate (stats w) <= 1)%Q.
Proof.
  cbv zeta. apply success_rate_in_unit_interval.
  apply update_stats_consistent.
  unfold consistent. cbn. repeat split; try lia. constructor.
Defined.

(** Counting an action and asking for its type: after [_update_stats]
    has counted an action of type [t], [get_action_stats(t)] answers the
    row it answered before with one more in the total and in the success
    or the failure column, and the answer for every other type is what
    it was. *)
Theorem counted_action_shows_in_its_row :
  forall (U : Type) (cfg : Config) (a : dict) (result : value) (b : bool)
    (w : World U),
    let t := Py.get "type" (VStr "unknown") a in
    let w' := snd (_update_stats cfg (VDict a) result w) in
    track_stats cfg = true ->
    Py.truthy (VDict a) = true ->
    Py.hashable t = true ->
    Py.truthy t = true ->
    succeeded result = Returned b ->
    get_action_stats t (stats w')
    = Returned (OneType (count b (row t (action_types (stats w)))))
    /\ (forall t', Py.truthy t' = true -> key_eqb t' t = false ->
                   get_action_stats t' (stats w')
                   = get_action_stats t' (stats w))
    /\ total_actions (stats w') = total_actions (stats w) + 1.
Proof.
  intros U cfg a result b w t w' Htrack Ha Hhash Htruthy Hb.
  destruct (update_stats_counts cfg a result b w Htrack Ha Hhash Hb)
    as (_ & Htotal & _ & _ & Htypes & _).
  fold t in Htypes. fold w' in Htypes, Htotal.
  split; [|split; [|exact Htotal]].
  - unfold get_action_stats. rewrite Htruthy, Hhash. cbn [negb].
    rewrite Htypes. now rewrite row_count_type_same.
  - intros t' Ht' Hne. unfold get_action_stats. rewrite Ht'. cbn [negb].
    destruct (Py.hashable t'); [|reflexivity].
    rewrite Htypes. now rewrite row_count_type_other.
Qed.

Lemma counted_action_shows_in_its_row_witness :
  let cfg := Scenario.config 3 10 in
  let ok := VDict [("success", VBool true)] in
  let w' := snd (_update_stats cfg Scenario.click11 ok Scenario.blank) in
  get_action_stats (VStr "click") (stats w')
  = Returned (OneType {| ts_total := 1; ts_success := 1; ts_fail := 0 |}).
Proof.
  cbv zeta.
  exact (proj1 (counted_action_shows_in_its_row unit (Scenario.config 3 10)
                  [("type", VStr "click"); ("x", VNum 1); ("y", VNum 1)]
                  (VDict [("success", VBool true)]) true Scenario.blank
                  eq_refl eq_refl eq_refl eq_refl eq_refl)).
Defined.

End StatsFacts.

Module RunFacts.

Import Store UIAgent Ledger.
Local Open Scope monad_scope.

Section Behaved.

Context {U : Type}.

Lemma quiet_weaken (R1 R2 : World U -> World U -> Prop)
    (m : PyMiddleware (U := U)) :
  (forall w w', R1 w w' -> R2 w w') -> quiet R1 m -> quiet R2 m.
Proof.
  intros Hsub (H1 & H2 & H3 & H4 & H5 & H6).
  refine (conj _ (conj _ (conj _ (conj _ (conj _ _)))));
    intros x w;
    [destruct (H1 x w)|destruct (H2 x w)|destruct (H3 x w)
    |destruct (H4 x w)|destruct (H5 x w)|destruct (H6 x w)];
    split; auto.
Qed.

Lemma quiet_both (R1 R2 : World U -> World U -> Prop)
    (m : PyMiddleware (U := U)) :
  quiet R1 m -> quiet R2 m -> quiet (fun w w' => R1 w w' /\ R2 w w') m.
Proof.
  intros (H1 & H2 & H3 & H4 & H5 & H6) (K1 & K2 & K3 & K4 & K5 & K6).
  refine (conj _ (conj _ (conj _ (conj _ (conj _ _)))));
    intros x w;
    [destruct (H1 x w), (K1 x w)|destruct (H2 x w), (K2 x w)
    |destruct (H3 x w), (K3 x w)|destruct (H4 x w), (K4 x w)
    |destruct (H5 x w), (K5 x w)|destruct (H6 x w), (K6 x w)];
    repeat split; auto.
Qed.

Lemma steady_refl (w : World U) : steady w w.
Proof. unfold steady, unhurried, keeps_history. repeat split; auto; lia. Qed.

Lemma steady_trans (w1 w2 w3 : World U) :
  steady w1 w2 -> steady w2 w3 -> steady w1 w3.
Proof.
  unfold steady, unhurried, keeps_history.
  intros ((? & ?) & ?) ((? & ?) & ?). repeat split; auto; try congruence; lia.
Qed.

Lemma has_history_set k v (w : World U) :
  k <> "history" ->
  has_history w -> has_history (with_context (Py.set k v (context w)) w).
Proof.
  intros Hk [h Hh]. exists h. cbn.
  rewrite PyFacts.lookup_set_other by congruence. exact Hh.
Qed.

Variable cfg : Config.

(** The throttle leaves the context and the executor alone and only
    lets time pass. *)
Lemma throttling_well_behaved :
  well_behaved (ThrottlingMiddleware.middleware (U := U) cfg).
Proof.
  apply quiet_both.
  - refine (conj _ (conj _ (conj _ (conj _ (conj _ _))))).
    + intros c w. cbn. split; [now right|]. split; [reflexivity|lia].
    + intros [s c] w. cbn. split; [now right|]. split; [reflexivity|lia].
    + intros [s c] w. cbn. split; [now right|]. split; [reflexivity|lia].
    + intros [[a s] c] w. cbn. split; [now right|]. split; [reflexivity|lia].
    + intros [a c] w. unfold phase5.
      cbn [fst snd mw_before_execution ThrottlingMiddleware.middleware].
      unfold ThrottlingMiddleware.process_before_execution.
      destruct (Py.is_none a);
        [cbn; split; [now right|split; [reflexivity|lia]]|].
      unfold bind, time_time, lift, time_sleep, ret.
      pose proof (TimingFacts.clock_elapse w) as Hw.
      destruct (ThrottlingMiddleware._get_max_delay cfg a) as [d|];
        [|cbv beta iota delta [fst snd];
          split; [now left|split; [reflexivity|exact Hw]]].
      cbv zeta.
      destruct (0 <? Z.max 0 _) eqn:Hwait; cbv beta iota delta [fst snd].
      * apply Z.ltb_lt in Hwait.
        pose proof (TimingFacts.clock_elapse (elapse w)) as Hw'.
        split; [now right|split; [reflexivity|]].
        unfold sleep. cbn [clock with_clock]. lia.
      * split; [now right|split; [reflexivity|exact Hw]].
    + intros [[r a] c] w.
      pose proof (TimingFacts.clock_elapse w) as Hw.
      split; [now right|split; [reflexivity|exact Hw]].
  - apply (quiet_weaken same_context);
      [|apply HistoryFacts.throttling_discreet].
    intros w w' [Hc _] [h Hh]. exists h. now rewrite Hc.
Qed.

Lemma quiet_also (R1 R2 : World U -> World U -> Prop)
    (m : PyMiddleware (U := U)) :
  quiet R1 m ->
  (forall x, frames R2 (phase1 m x)) ->
  (forall x, frames R2 (phase2 m x)) ->
  (forall x, frames R2 (phase3 m x)) ->
  (forall x, frames R2 (phase4 m x)) ->
  (forall x, frames R2 (phase5 m x)) ->
  (forall x, frames R2 (phase6 m x)) ->
  quiet R2 m.
Proof.
  intros (H1 & H2 & H3 & H4 & H5 & H6) K1 K2 K3 K4 K5 K6.
  refine (conj _ (conj _ (conj _ (conj _ (conj _ _)))));
    intros x w;
    [destruct (H1 x w)|destruct (H2 x w)|destruct (H3 x w)
    |destruct (H4 x w)|destruct (H5 x w)|destruct (H6 x w)];
    split; auto;
    [apply K1|apply K2|apply K3|apply K4|apply K5|apply K6].
Qed.

Lemma keeps_history_refl (w : World U) : keeps_history w w.
Proof. now intros H. Qed.

Lemma keeps_history_trans (w1 w2 w3 : World U) :
  keeps_history w1 w2 -> keeps_history w2 w3 -> keeps_history w1 w3.
Proof. unfold keeps_history. auto. Qed.

Lemma listed_set k v c : k <> "history" -> listed c -> listed (Py.set k v c).
Proof.
  intros Hk [h Hh]. exists h.
  rewrite PyFacts.lookup_set_other by congruence. exact Hh.
Qed.

Lemma listed_set_history h c : listed (Py.set "history" (VList h) c).
Proof. exists h. apply PyFacts.lookup_set_same. Qed.

Lemma listed_del k c : k <> "history" -> listed c -> listed (Py.del k c).
Proof.
  intros Hk [h Hh]. exists h.
  rewrite PyFacts.lookup_del_other by congruence. exact Hh.
Qed.

Lemma keeps_deref_bind {A} r (k : dict -> M (U := U) A) :
  (forall c, listed c -> frames keeps_history (k c)) ->
  frames keeps_history (bind (deref r) k).
Proof. intros H w Hw. unfold bind, deref. cbn. now apply (H (context w) Hw w). Qed.

Lemma keeps_assign r c : listed c -> frames (U := U) keeps_history (assign r c).
Proof. intros Hc w _. exact Hc. Qed.

Lemma keeps_same_context {A} (m : M (U := U) A) :
  (forall w, context (snd (m w)) = context w) -> frames keeps_history m.
Proof. intros H w Hw. unfold has_history. now rewrite H. Qed.

Ltac keeps_step :=
  first
    [ apply keeps_deref_bind; intros ?c ?Hc
    | apply keeps_assign;
      repeat first
        [ assumption
        | apply listed_set_history
        | apply listed_set; [congruence|]
        | apply listed_del; [congruence|] ]
    | apply keeps_same_context; intros ?w; reflexivity
    | FrameFacts.frame_step keeps_history_refl keeps_history_trans ].

Lemma keeps_update_stats action result :
  frames (U := U) keeps_history
    (StateTrackingMiddleware._update_stats cfg action result).
Proof.
  apply keeps_same_context. intros w.
  apply (HistoryFacts.update_stats_frame cfg action result w).
Qed.

Lemma keeps_update_each l result :
  frames (U := U) keeps_history
    (StateTrackingMiddleware.update_each cfg l result).
Proof.
  induction l as [|act l IH]; cbn [StateTrackingMiddleware.update_each].
  - keeps_step.
  - keeps_step; [|exact IH].
    destruct (Py.is_dict act); [apply keeps_update_stats|keeps_step].
Qed.

Lemma keeps_remember action state context :
  frames (U := U) keeps_history
    (StateTrackingMiddleware.remember action state context).
Proof. unfold StateTrackingMiddleware.remember. repeat keeps_step. Qed.

Lemma keeps_remember_each l action state context :
  frames (U := U) keeps_history
    (StateTrackingMiddleware.remember_each l action state context).
Proof.
  induction l as [|act l IH]; cbn [StateTrackingMiddleware.remember_each].
  - keeps_step.
  - keeps_step; [|exact IH].
    destruct (Py.is_dict act); [apply keeps_remember|keeps_step].
Qed.

Lemma keeps_append_and_trim record context :
  frames (U := U) keeps_history
    (StateTrackingMiddleware.append_and_trim cfg record context).
Proof.
  unfold StateTrackingMiddleware.append_and_trim. repeat keeps_step.
Qed.

Lemma state_tracking_well_behaved :
  well_behaved (StateTrackingMiddleware.middleware (U := U) cfg).
Proof.
  apply quiet_both.
  - apply (quiet_weaken later); [|apply FrameFacts.state_tracking_patient].
    intros w w' (He & _ & Hc). now split.
  - apply (quiet_also later); [apply FrameFacts.state_tracking_patient| | | | | |].
    + intros context. unfold phase1.
      cbn [mw_before_perception StateTrackingMiddleware.middleware].
      unfold StateTrackingMiddleware.process_before_perception.
      repeat keeps_step.
    + intros [s c] w. apply keeps_history_refl.
    + intros [s c] w. apply keeps_history_refl.
    + intros [[action state] context]. unfold phase4.
      cbn [fst snd mw_after_decision StateTrackingMiddleware.middleware].
      unfold StateTrackingMiddleware.process_after_decision.
      destruct (Py.is_none action); [keeps_step|].
      keeps_step.
      { destruct action; try (now keeps_step). apply keeps_remember_each. }
      keeps_step; [|keeps_step].
      destruct action; try (now keeps_step).
      keeps_step; [apply keeps_remember|]. repeat keeps_step.
    + intros [a c] w. apply keeps_history_refl.
    + intros [[result action] context]. unfold phase6.
      cbn [fst snd mw_after_execution StateTrackingMiddleware.middleware].
      unfold StateTrackingMiddleware.process_after_execution.
      keeps_step.
      destruct (Py.is_none action || _); [keeps_step|].
      destruct (Py.lookup "_current_action" c) as [[| | | | |record]|];
        try (now keeps_step).
      cbv zeta. keeps_step; [keeps_step|].
      keeps_step.
      { repeat keeps_step. }
      keeps_step; [apply keeps_append_and_trim|].
      keeps_step.
      { destruct action; try apply keeps_update_stats.
        apply keeps_update_each. }
      repeat keeps_step.
Qed.

End Behaved.

(** The loop body of [step] under a chain of middlewares that hand
    their arguments back and take every store to one [R] relates to
    it. *)
Section Quiet.

Context {U : Type}.
Variable R : World U -> World U -> Prop.
Hypothesis R_refl : forall w, R w w.
Hypothesis R_trans : forall w1 w2 w3, R w1 w2 -> R w2 w3 -> R w1 w3.

Variable middlewares : list (PyMiddleware (U := U)).
Hypothesis Hquiet : Forall (quiet R) middlewares.

Lemma quiet_phase {X : Type}
    (phase : PyMiddleware (U := U) -> X -> call (W := World U) X) :
  (forall m, quiet R m -> quiet_call R phase m) ->
  Forall (quiet_call R phase) middlewares.
Proof. intros Hp. revert Hquiet. apply Forall_impl. exact Hp. Qed.

Lemma manager_quiet {X : Type}
    (phase : PyMiddleware (U := U) -> X -> call (W := World U) X)
    (rejected : X -> bool) (x : X) (w : World U) :
  (forall m, quiet R m -> quiet_call R phase m) ->
  exists w1,
    finish (for_each phase rejected middlewares x w) = (x, w1) /\ R w w1.
Proof.
  intros Hp.
  destruct (FrameFacts.for_each_quiet_any R R_refl R_trans phase rejected
              middlewares x w (quiet_phase phase Hp)) as [Hv Hw].
  unfold finish.
  destruct (fst (for_each phase rejected middlewares x w)) as [x1 w1].
  cbn [fst snd] in Hv, Hw. subst x1. now exists w1.
Qed.

Lemma before_perception_quiet (w : World U) :
  exists w1,
    process_before_perception middlewares the_context w = (the_context, w1)
    /\ R w w1.
Proof. apply manager_quiet. intros m Hm. apply Hm. Qed.

Lemma after_perception_quiet state (w : World U) :
  exists w1,
    process_after_perception middlewares state the_context w
    = ((state, the_context), w1)
    /\ R w w1.
Proof. apply manager_quiet. intros m Hm. apply Hm. Qed.

Lemma before_decision_quiet state (w : World U) :
  exists w1,
    process_before_decision middlewares state the_context w
    = ((state, the_context), w1)
    /\ R w w1.
Proof. apply manager_quiet. intros m Hm. apply Hm. Qed.

Lemma after_decision_quiet act state (w : World U) :
  exists w1,
    process_after_decision Py.is_none middlewares act state the_context w
    = ((act, state, the_context), w1)
    /\ R w w1.
Proof. apply manager_quiet. intros m Hm. apply Hm. Qed.

Lemma before_execution_quiet act (w : World U) :
  exists w1,
    process_before_execution Py.is_none middlewares act the_context w
    = ((act, the_context), w1)
    /\ R w w1.
Proof. apply manager_quiet. intros m Hm. apply Hm. Qed.

Lemma after_execution_quiet result act (w : World U) :
  exists w1,
    process_after_execution middlewares result act the_context w
    = ((result, act, the_context), w1)
    /\ R w w1.
Proof. apply manager_quiet. intros m Hm. apply Hm. Qed.

Variable executor : World U -> value -> bool.

(** The four ways through the loop body. *)
Lemma process_action_quiet act state final_result (w : World U) :
  exists w1,
    R w w1
    /\ if Py.is_none act then
         process_action executor middlewares act state final_result w
         = (Continue state final_result, w1)
       else if should_stop act then
         match act with
         | VDict a =>
             exists w3,
               R (elapse w1) w3
               /\ process_action executor middlewares act state
                    final_result w
                  = match
                      record_history act
                        (stop_result a (clock (elapse w1))) the_context w3
                    with
                    | (Returned _, w4) => (Return true, w4)
                    | (Raised, w4) => (Continue state final_result, w4)
                    end
         | _ =>
             process_action executor middlewares act state final_result w
             = (Continue state final_result, w1)
         end
       else
         exists w2 w6,
           R w1 w2
           /\ let w3 := elapse w2 in
              let success := executor w3 act in
              let w5 :=
                elapse (with_exec_log (exec_log w3 ++ [(act, clock w3)]) w3)
              in
              R w5 w6
              /\ process_action executor middlewares act state
                   final_result w
                 = match
                     record_history act
                       (execution_result success (clock w5)) the_context w6
                   with
                   | (Returned _, w7) =>
                       (Continue state (final_result || success), w7)
                   | (Raised, w7) => (Continue state final_result, w7)
                   end.
Proof.
  destruct (after_decision_quiet act state w) as (w1 & Hdec & Hw1).
  exists w1. split; [exact Hw1|].
  unfold process_action. rewrite Hdec.
  destruct (Py.is_none act) eqn:Hnone; [reflexivity|].
  destruct (should_stop act) eqn:Hstop.
  - destruct act as [| | | | |a]; try reflexivity.
    unfold tick.
    destruct (after_execution_quiet (stop_result a (clock (elapse w1)))
                (VDict a) (elapse w1)) as (w3 & Hafter & Hw3).
    exists w3. split; [exact Hw3|]. rewrite Hafter. reflexivity.
  - destruct (before_execution_quiet act w1) as (w2 & Hbefore & Hw2).
    exists w2. rewrite Hbefore, Hnone. unfold execute, tick. cbv zeta.
    match goal with
    | |- context [process_after_execution _ ?r act the_context ?w5] =>
        destruct (after_execution_quiet r act w5) as (w6 & Hafter & Hw6)
    end.
    exists w6. split; [exact Hw2|]. split; [exact Hw6|].
    rewrite Hafter. reflexivity.
Qed.

Variable perceive : World U -> value.
Variable decide : World U -> value -> value.

Lemma step_quiet (w : World U) :
  exists w1 w2 w3,
    R (elapse w) w1 /\ R w1 w2 /\ R w2 w3
    /\ step perceive decide executor middlewares w
       = for_actions executor middlewares
           (normalize (decide w3 (perceive w1))) (perceive w1) false w3.
Proof.
  unfold step, tick.
  destruct (before_perception_quiet (elapse w)) as (w1 & H1 & Hw1).
  destruct (after_perception_quiet (perceive w1) w1) as (w2 & H2 & Hw2).
  destruct (before_decision_quiet (perceive w1) w2) as (w3 & H3 & Hw3).
  exists w1, w2, w3. rewrite H1, H2, H3. now repeat split.
Qed.

(** Nothing succeeds and nothing asks to stop: the step does not ask
    to stop either. *)
Lemma for_actions_fruitless actions state (w : World U) :
  (forall w' a, executor w' a = false) ->
  (forall a, In a actions -> should_stop a = false) ->
  fst (for_actions executor middlewares actions state false w) = false.
Proof.
  intros Hfail. revert state w.
  induction actions as [|act rest IH]; intros state w Hgo.
  - cbn. reflexivity.
  - cbn [for_actions].
    destruct (process_action_quiet act state false w) as (w1 & _ & H).
    destruct (Py.is_none act).
    + rewrite H. apply IH. intros a Ha. apply Hgo. now right.
    + rewrite (Hgo act (or_introl eq_refl)) in H.
      destruct H as (w2 & w6 & _ & _ & ->). rewrite Hfail.
      destruct (record_history _ _ _ _) as [[[]|] w7];
        apply IH; intros a Ha; apply Hgo; now right.
Qed.

Lemma step_fruitless (w : World U) :
  (forall w' a, executor w' a = false) ->
  (forall w' s a, In a (normalize (decide w' s)) -> should_stop a = false) ->
  fst (step perceive decide executor middlewares w) = false.
Proof.
  intros Hfail Hgo.
  destruct (step_quiet w) as (w1 & w2 & w3 & _ & _ & _ & ->).
  apply for_actions_fruitless; [exact Hfail|apply Hgo].
Qed.

(** An invariant of the store that the chain, the clock and the loop
    body keep is kept by [step], by the main loop and by [run]. *)
Section Invariant.

Variable I : World U -> Prop.
Hypothesis I_R : forall w w', I w -> R w w' -> I w'.
Hypothesis I_elapse : forall w, I w -> I (elapse w).
Hypothesis I_action :
  forall act state final_result w,
    I w -> I (snd (process_action executor middlewares act state
                     final_result w)).

Lemma for_actions_keeps actions state final_result (w : World U) :
  I w ->
  I (snd (for_actions executor middlewares actions state final_result w)).
Proof.
  revert state final_result w.
  induction actions as [|act rest IH]; intros state final_result w Hw.
  - cbn. now apply I_elapse.
  - cbn [for_actions].
    pose proof (I_action act state final_result w Hw) as H1.
    destruct (process_action executor middlewares act state final_result w)
      as [[state' final_result'|b] w1]; cbn [snd] in H1.
    + now apply IH.
    + exact H1.
Qed.

Lemma step_keeps (w : World U) :
  I w -> I (snd (step perceive decide executor middlewares w)).
Proof.
  intros Hw.
  destruct (step_quiet w) as (w1 & w2 & w3 & H1 & H2 & H3 & ->).
  apply for_actions_keeps.
  apply (I_R w2); [|exact H3]. apply (I_R w1); [|exact H2].
  apply (I_R (elapse w)); [|exact H1]. now apply I_elapse.
Qed.

Variable config : Config.
Hypothesis I_context :
  forall w k v, (k = "iteration" \/ k = "current_time" \/ k = "start_time") ->
                I w -> I (with_context (Py.set k v (context w)) w).
Hypothesis I_sleep : forall w d, 0 < d -> I w -> I (sleep d w).

Lemma main_loop_keeps fuel iteration (w : World U) :
  I w ->
  I (snd (main_loop config perceive decide executor middlewares fuel
            iteration w)).
Proof.
  revert iteration w.
  induction fuel as [|fuel IH]; intros iteration w Hw; [exact Hw|].
  cbn [main_loop]. unfold tick at 1.
  match goal with
  | |- context [step _ _ _ _ ?w1] =>
      assert (Hstep : I (snd (step perceive decide executor middlewares w1)))
  end.
  { apply step_keeps. apply I_context; [auto|].
    apply I_elapse. apply I_context; [auto|exact Hw]. }
  match goal with
  | |- context [step _ _ _ _ ?w1] =>
      destruct (step perceive decide executor middlewares w1) as [stop w2]
  end.
  cbn [snd] in Hstep.
  destruct stop; [exact Hstep|].
  destruct (max_iterations config <=? iteration + 1); [exact Hstep|].
  apply IH.
  destruct (Z.ltb_spec 0 (iteration_delay config)); [|exact Hstep].
  now apply I_sleep.
Qed.

End Invariant.

End Quiet.

Section Run.

Context {U : Type}.
Variable config : Config.
Variable perceive : World U -> value.
Variable decide : World U -> value -> value.
Variable executor : World U -> value -> bool.
Variable middlewares : list (PyMiddleware (U := U)).

(** [run] is its loop, entered from [started], and a last look at the
    clock: the automatic choice of a prompt never takes place. *)
Lemma run_started task (w : World U) :
  run config perceive decide executor middlewares task w
  = let '(iteration, w2) :=
      main_loop config perceive decide executor middlewares
        (passes config) 0 (started config task w) in
    let '(now, w3) := tick w2 in
    ({| iterations := iteration;
        elapsed_time := now - clock (started config task w);
        task := task;
        history := Py.get "history" (VList []) (context w3) |}, w3).
Proof.
  unfold run. cbv zeta. cbn [context with_context].
  rewrite AgentFacts.setup_sets_prompt_name. rewrite andb_false_r.
  reflexivity.
Qed.

Lemma main_loop_bounds fuel iteration (w : World U) :
  (1 <= fuel)%nat ->
  iteration + 1
  <= fst (main_loop config perceive decide executor middlewares fuel
            iteration w)
  <= Z.max (iteration + 1) (max_iterations config).
Proof.
  revert iteration w.
  induction fuel as [|fuel IH]; intros iteration w Hfuel; [lia|].
  cbn [main_loop].
  destruct (tick _) as [now w1].
  destruct (step _ _ _ _ _) as [stop w2].
  destruct stop; [cbn; lia|].
  destruct (max_iterations config <=? iteration + 1) eqn:Hlast; [cbn; lia|].
  apply Z.leb_gt in Hlast.
  destruct fuel as [|fuel]; [cbn; lia|].
  match goal with
  | |- context [main_loop _ _ _ _ _ _ _ ?w3] =>
      specialize (IH (iteration + 1) w3 ltac:(lia))
  end.
  lia.
Qed.

(** When no step asks to stop, the loop runs until the bound. *)
Lemma main_loop_runs_out fuel iteration (w : World U) :
  (forall w', fst (step perceive decide executor middlewares w') = false) ->
  (1 <= fuel)%nat ->
  max_iterations config <= iteration + Z.of_nat fuel ->
  fst (main_loop config perceive decide executor middlewares fuel
         iteration w)
  = Z.max (iteration + 1) (max_iterations config).
Proof.
  intros Hstep. revert iteration w.
  induction fuel as [|fuel IH]; intros iteration w Hfuel Hmax; [lia|].
  cbn [main_loop].
  destruct (tick _) as [now w1].
  match goal with
  | |- context [step _ _ _ _ ?w1] =>
      specialize (Hstep w1);
      destruct (step perceive decide executor middlewares w1) as [stop w2]
  end.
  cbn [fst] in Hstep. subst stop.
  destruct (max_iterations config <=? iteration + 1) eqn:Hlast.
  - apply Z.leb_le in Hlast. cbn. lia.
  - apply Z.leb_gt in Hlast.
    rewrite IH by lia. lia.
Qed.

(** What the loop body hands on: [True] when it returns out of [step],
    and a flag that, once set, stays set. *)
Lemma process_action_flag act state final_result (w : World U) :
  match fst (process_action executor middlewares act state final_result w)
  with
  | Return b => b = true
  | Continue _ final_result' => final_result = true -> final_result' = true
  end.
Proof.
  unfold process_action.
  destruct (process_after_decision _ _ _ _ _ _) as [[[current state1] c1] w1].
  destruct (Py.is_none current); [cbn; auto|].
  destruct (should_stop current).
  - destruct current; cbn; auto.
    destruct (tick w1) as [now w2].
    destruct (process_after_execution _ _ _ _ _) as [[[r a2] c2] w3].
    destruct (record_history _ _ _ _) as [[[]|] w4]; cbn; auto.
  - destruct (process_before_execution _ _ _ _ _) as [[current2 c2] w2].
    destruct (Py.is_none current2); [cbn; auto|].
    destruct (execute _ _ _) as [success w3].
    destruct (tick w3) as [now w4].
    destruct (process_after_execution _ _ _ _ _) as [[[r a2] c3] w5].
    destruct (record_history _ _ _ _) as [[[]|] w6]; cbn; auto.
    intros ->. reflexivity.
Qed.

Lemma for_actions_flag actions state (w : World U) :
  fst (for_actions executor middlewares actions state true w) = true.
Proof.
  revert state w.
  induction actions as [|act rest IH]; intros state w; cbn [for_actions].
  - destruct (tick w). reflexivity.
  - pose proof (process_action_flag act state true w) as H.
    destruct (process_action executor middlewares act state true w)
      as [[state' final_result'|b] w1]; cbn [fst] in H |- *.
    + rewrite (H eq_refl). apply IH.
    + exact H.
Qed.

End Run.

Section Chain.

Context {U : Type}.
Variable config : Config.
Variable perceive : World U -> value.
Variable decide : World U -> value -> value.
Variable executor : World U -> value -> bool.
Variable middlewares : list (PyMiddleware (U := U)).
Hypothesis Hbehaved : Forall well_behaved middlewares.

Lemma record_history_returns act r timestamp (w : World U) :
  Py.lookup "timestamp" r = Some timestamp ->
  has_history w ->
  exists h,
    Py.lookup "history" (context w) = Some (VList h)
    /\ record_history act (VDict r) the_context w
       = (Returned tt,
          with_context
            (Py.set "history"
               (VList (h ++ [history_item act (VDict r) timestamp]))
               (context w)) w).
Proof.
  intros Hts [h Hh]. exists h. split; [exact Hh|].
  unfold record_history, bind, deref, assign. rewrite Hts. cbn.
  now rewrite Hh.
Qed.

Lemma record_history_keeps act result (w : World U) :
  has_history w ->
  has_history (snd (record_history act result the_context w)).
Proof.
  intros Hw. unfold record_history.
  destruct result as [| | | | |r]; try exact Hw.
  destruct (Py.lookup "timestamp" r); [|exact Hw].
  unfold bind, deref, assign, raise. cbn.
  destruct (Py.lookup "history" (context w)) as [[| | | |h|]|];
    try exact Hw.
  cbn. eexists. apply PyFacts.lookup_set_same.
Qed.

(** What the loop body does to the log of the executor, to the clock
    and to the history list. *)
Lemma process_action_log act state final_result (w : World U) :
  let w' :=
    snd (process_action executor middlewares act state final_result w) in
  (exec_log w' = exec_log w
   \/ (performable act = true
       /\ exists t, clock w <= t /\ t <= clock w'
                    /\ exec_log w' = exec_log w ++ [(act, t)]))
  /\ clock w <= clock w'
  /\ (has_history w -> has_history w').
Proof.
  cbv zeta.
  destruct (process_action_quiet steady steady_refl steady_trans middlewares
              Hbehaved executor act state final_result w)
    as (w1 & ((He1 & Hc1) & Hh1) & H).
  destruct (Py.is_none act) eqn:Hnone.
  { rewrite H. cbn [snd]. split; [now left|]. split; assumption. }
  destruct (should_stop act) eqn:Hstop.
  - destruct act as [| | | | |a];
      try (rewrite H; cbn [snd]; split; [now left|]; split; assumption).
    destruct H as (w3 & ((He3 & Hc3) & Hh3) & ->).
    pose proof (TimingFacts.clock_elapse w1) as Hel.
    destruct (TimingFacts.record_history_frame (VDict a)
                (stop_result a (clock (elapse w1))) w3) as (He & _ & Hc).
    pose proof (record_history_keeps (VDict a)
                  (stop_result a (clock (elapse w1))) w3) as Hk.
    destruct (record_history _ _ _ w3) as [[[]|] w4]; cbn [snd] in *.
    all: split; [left; rewrite He, He3; cbn; exact He1|].
    all: split; [lia|]. all: intros Hw; apply Hk, Hh3, Hh1, Hw.
  - destruct H as (w2 & w6 & ((He2 & Hc2) & Hh2) & H). cbv zeta in H.
    set (w4 := with_exec_log
                 (exec_log (elapse w2) ++ [(act, clock (elapse w2))])
                 (elapse w2)) in *.
    destruct H as (((He6 & Hc6) & Hh6) & ->).
    pose proof (TimingFacts.clock_elapse w2) as Hel2.
    pose proof (TimingFacts.clock_elapse w4) as Hel5.
    assert (Hc4 : clock w4 = clock (elapse w2)) by reflexivity.
    assert (He4 : exec_log (elapse w4)
                  = exec_log w2 ++ [(act, clock (elapse w2))])
      by reflexivity.
    match goal with
    | |- context [record_history act ?r the_context w6] =>
        destruct (TimingFacts.record_history_frame act r w6)
          as (He & _ & Hc);
        pose proof (record_history_keeps act r w6) as Hk;
        destruct (record_history act r the_context w6) as [[[]|] w7]
    end; cbn [snd] in *.
    all: split;
      [right; split; [unfold performable; now rewrite Hnone, Hstop|];
       exists (clock (elapse w2)); split; [lia|]; split; [lia|];
       rewrite He, He6, He4, He2, He1; reflexivity|].
    all: split; [lia|].
    all: intros Hw; apply Hk, Hh6, Hh2, Hh1, Hw.
Qed.

(** The clock does not go back over a step. *)
Lemma step_takes_time (w : World U) :
  clock w <= clock (snd (step perceive decide executor middlewares w)).
Proof.
  apply (step_keeps steady steady_refl steady_trans middlewares Hbehaved executor
           perceive decide (fun w' => clock w <= clock w')).
  - intros w1 w2 H1 ((_ & Hc) & _). lia.
  - intros w1 H1. pose proof (TimingFacts.clock_elapse w1). lia.
  - intros act state final_result w1 H1.
    destruct (process_action_log act state final_result w1) as (_ & Hc & _).
    lia.
  - lia.
Qed.

Lemma main_loop_takes_time fuel iteration (w : World U) :
  let out :=
    main_loop config perceive decide executor middlewares fuel iteration w in
  clock w + (fst out - iteration - 1) * Z.max 0 (iteration_delay config)
  <= clock (snd out).
Proof.
  cbv zeta. revert iteration w.
  induction fuel as [|fuel IH]; intros iteration w; [cbn; lia|].
  cbn [main_loop]. unfold tick.
  match goal with
  | |- context [step _ _ _ _ ?w1] =>
      pose proof (step_takes_time w1) as Hstep;
      assert (Hw1 : clock w <= clock w1)
        by (pose proof (TimingFacts.clock_elapse
                          (with_context
                             (Py.set "iteration" (VNum (iteration + 1))
                                (context w)) w)) as Hel;
            cbn in Hel |- *; lia);
      destruct (step perceive decide executor middlewares w1) as [stop w2]
  end.
  cbn [snd] in Hstep.
  destruct stop; [cbn [fst snd]; lia|].
  destruct (max_iterations config <=? iteration + 1); [cbn [fst snd]; lia|].
  match goal with
  | |- context [main_loop _ _ _ _ _ _ _ ?w3] =>
      specialize (IH (iteration + 1) w3);
      assert (Hw3 : clock w2 + Z.max 0 (iteration_delay config) <= clock w3)
  end.
  { destruct (Z.ltb_spec 0 (iteration_delay config)).
    - pose proof (TimingFacts.clock_elapse w2) as Hel.
      unfold sleep. cbn [clock with_clock]. lia.
    - lia. }
  nia.
Qed.

Lemma main_loop_performable fuel iteration (w : World U) :
  all_performable w ->
  all_performable
    (snd (main_loop config perceive decide executor middlewares fuel
            iteration w)).
Proof.
  apply (main_loop_keeps steady steady_refl steady_trans middlewares Hbehaved executor
           perceive decide all_performable).
  - intros w1 w2 H1 ((He & _) & _). unfold all_performable. now rewrite He.
  - intros w1 H1. exact H1.
  - intros act state final_result w1 H1.
    destruct (process_action_log act state final_result w1)
      as ([He|(Hp & t & _ & _ & He)] & _); unfold all_performable;
      rewrite He; [exact H1|].
    apply Forall_app. split; [exact H1|]. now constructor.
  - intros w1 k v _ H1. exact H1.
  - intros w1 d _ H1. exact H1.
Qed.

Lemma main_loop_keeps_history fuel iteration (w : World U) :
  has_history w ->
  has_history
    (snd (main_loop config perceive decide executor middlewares fuel
            iteration w)).
Proof.
  apply (main_loop_keeps steady steady_refl steady_trans middlewares Hbehaved executor
           perceive decide has_history).
  - intros w1 w2 H1 (_ & Hh). now apply Hh.
  - intros w1 H1. exact H1.
  - intros act state final_result w1 H1.
    now apply (process_action_log act state final_result w1).
  - intros w1 k v Hk H1. apply has_history_set; [|exact H1].
    destruct Hk as [->|[->| ->]]; congruence.
  - intros w1 d _ H1. exact H1.
Qed.

(** A first action that is executed with success ends the step with
    [True]. *)
Lemma step_ends_on_success (w : World U) :
  has_history w ->
  (forall w' a, executor w' a = true) ->
  (forall w' s, exists a rest,
        normalize (decide w' s) = VDict a :: rest
        /\ should_stop (VDict a) = false) ->
  fst (step perceive decide executor middlewares w) = true.
Proof.
  intros Hw Hok Hfirst.
  destruct (step_quiet steady steady_refl steady_trans middlewares Hbehaved
              executor perceive decide w)
    as (w1 & w2 & w3 & (_ & Hh1) & (_ & Hh2) & (_ & Hh3) & ->).
  destruct (Hfirst w3 (perceive w1)) as (a & rest & -> & Hgo).
  cbn [for_actions].
  destruct (process_action_quiet steady steady_refl steady_trans middlewares
              Hbehaved executor (VDict a) (perceive w1) false w3)
    as (w4 & (_ & Hh4) & H).
  cbn [Py.is_none] in H. rewrite Hgo in H.
  destruct H as (w5 & w6 & (_ & Hh5) & H). cbv zeta in H.
  destruct H as ((_ & Hh6) & ->). rewrite Hok.
  match goal with
  | |- context [record_history ?act (execution_result true ?now) _ w6] =>
      destruct (record_history_returns act
                  [("success", VBool true); ("timestamp", VNum now);
                   ("error", VNone)] (VNum now) w6 eq_refl)
        as (h & _ & Hrec)
  end.
  { apply Hh6. cbn. apply Hh5, Hh4, Hh3, Hh2, Hh1. exact Hw. }
  unfold execution_result. rewrite Hrec. cbn [orb].
  apply for_actions_flag.
Qed.

End Chain.

Section Discreet.

Context {U : Type}.
Variable config : Config.
Variable perceive : World U -> value.
Variable decide : World U -> value -> value.
Variable executor : World U -> value -> bool.
Variable middlewares : list (PyMiddleware (U := U)).
Hypothesis Hdiscreet : Forall discreet middlewares.

Lemma faithful_same (stops : list value) (w w' : World U) :
  same_context w w' -> faithful stops w -> faithful stops w'.
Proof.
  intros [Hc He] (h & Hh & Hmap). exists h. now rewrite Hc, He.
Qed.

Lemma faithful_recorded (stops : list value) act r timestamp (w : World U) :
  Py.lookup "timestamp" r = Some timestamp ->
  (exists h,
      Py.lookup "history" (context w) = Some (VList h)
      /\ map (entry_field "action") h ++ [act]
         = map fst (exec_log w) ++ stops) ->
  fst (record_history act (VDict r) the_context w) = Returned tt
  /\ faithful stops (snd (record_history act (VDict r) the_context w)).
Proof.
  intros Hts (h & Hh & Hmap).
  destruct (record_history_returns act r timestamp w Hts
              (ex_intro _ h Hh)) as (h' & Hh' & ->).
  split; [reflexivity|]. cbn [snd].
  rewrite Hh in Hh'. injection Hh' as <-.
  eexists. split; [cbn; apply PyFacts.lookup_set_same|].
  cbn [exec_log with_context]. rewrite map_app. cbn [map entry_field].
  unfold history_item, Py.get. cbn. exact Hmap.
Qed.

(** The loop body keeps the history in step with the log of the
    executor; when it returns out of [step], it has recorded a stop. *)
Lemma process_action_faithful act state final_result (w : World U) :
  faithful [] w ->
  match process_action executor middlewares act state final_result w with
  | (Continue _ _, w') => faithful [] w'
  | (Return _, w') =>
      exists a, should_stop (VDict a) = true /\ faithful [VDict a] w'
  end.
Proof.
  intros Hw.
  destruct (process_action_quiet same_context FrameFacts.same_context_refl
              FrameFacts.same_context_trans middlewares Hdiscreet executor
              act state final_result w) as (w1 & Hw1 & H).
  pose proof (faithful_same [] w w1 Hw1 Hw) as Hf1.
  destruct (Py.is_none act) eqn:Hnone; [now rewrite H|].
  destruct (should_stop act) eqn:Hstop.
  - destruct act as [| | | | |a]; try (now rewrite H).
    destruct H as (w3 & Hw3 & ->).
    assert (Hf0 : faithful [] (elapse w1)) by exact Hf1.
    destruct (faithful_same [] _ w3 Hw3 Hf0) as (h & Hh & Hmap).
    destruct (faithful_recorded [VDict a] (VDict a)
                [("success", VBool true);
                 ("timestamp", VNum (clock (elapse w1)));
                 ("message", Py.get "reason" (VStr "任务完成") a)]
                (VNum (clock (elapse w1))) w3 eq_refl) as [Hret Hf].
    { exists h. split; [exact Hh|]. now rewrite Hmap, app_nil_r. }
    unfold stop_result.
    destruct (record_history _ _ _ w3) as [o w4]. cbn [fst snd] in Hret, Hf.
    subst o. exists a. now split.
  - destruct H as (w2 & w6 & Hw2 & H). cbv zeta in H.
    destruct H as (Hw6 & ->).
    destruct (faithful_same [] w1 w2 Hw2 Hf1) as (h & Hh & Hmap).
    destruct Hw6 as [Hc6 He6].
    match goal with
    | |- context [record_history act (execution_result ?b ?now) _ w6] =>
        destruct (faithful_recorded [] act
                    [("success", VBool b); ("timestamp", VNum now);
                     ("error", if b then VNone else VStr "执行失败")]
                    (VNum now) w6 eq_refl) as [Hret Hf]
    end.
    { exists h. rewrite Hc6, He6. cbn. split; [exact Hh|].
      rewrite map_app, app_nil_r. cbn. now rewrite Hmap, app_nil_r. }
    unfold execution_result.
    destruct (record_history _ _ _ w6) as [o w7]. cbn [fst snd] in Hret, Hf.
    subst o. exact Hf.
Qed.

Lemma for_actions_faithful actions state final_result (w : World U) :
  faithful [] w ->
  let out := for_actions executor middlewares actions state final_result w in
  faithful [] (snd out)
  \/ (fst out = true
      /\ exists a, should_stop (VDict a) = true
                   /\ faithful [VDict a] (snd out)).
Proof.
  cbv zeta. revert state final_result w.
  induction actions as [|act rest IH]; intros state final_result w Hw.
  - left. exact Hw.
  - cbn [for_actions].
    pose proof (process_action_faithful act state final_result w Hw) as H.
    pose proof (process_action_flag executor middlewares act state
                  final_result w) as Hflag.
    destruct (process_action executor middlewares act state final_result w)
      as [[state' final_result'|b] w1]; cbn [fst snd] in *.
    + now apply IH.
    + right. now split.
Qed.

Lemma main_loop_faithful fuel iteration (w : World U) :
  faithful [] w ->
  let out :=
    main_loop config perceive decide executor middlewares fuel iteration w in
  faithful [] (snd out)
  \/ exists a, should_stop (VDict a) = true /\ faithful [VDict a] (snd out).
Proof.
  cbv zeta. revert iteration w.
  induction fuel as [|fuel IH]; intros iteration w Hw; [now left|].
  cbn [main_loop]. unfold tick.
  assert (Hset : forall k v (w0 : World U),
             k <> "history" -> faithful [] w0 ->
             faithful [] (with_context (Py.set k v (context w0)) w0)).
  { intros k v w0 Hk (h & Hh & Hmap). exists h. cbn.
    rewrite PyFacts.lookup_set_other by congruence. now split. }
  match goal with
  | |- context [step _ _ _ _ ?w1] =>
      assert (H1 : faithful [] w1)
        by (apply Hset; [congruence|];
            apply (Hset "iteration" _ w); [congruence|exact Hw]);
      destruct (step_quiet same_context FrameFacts.same_context_refl
                  FrameFacts.same_context_trans middlewares Hdiscreet
                  executor perceive decide w1)
        as (w2 & w3 & w4 & H2 & H3 & H4 & Hstep);
      rewrite Hstep
  end.
  match goal with
  | |- context [for_actions _ _ ?actions ?state false w4] =>
      pose proof (for_actions_faithful actions state false w4) as Hf;
      destruct (for_actions executor middlewares actions state false w4)
        as [stop w5]
  end.
  cbn [fst snd] in Hf.
  assert (Hf4 : faithful [] w4).
  { apply (faithful_same [] w3 w4 H4). apply (faithful_same [] w2 w3 H3).
    apply (faithful_same [] _ w2 H2). exact H1. }
  destruct (Hf Hf4) as [Hf5|(-> & a & Hstop & Hf5)].
  - destruct stop; [now left|].
    destruct (max_iterations config <=? iteration + 1); [now left|].
    apply IH. destruct (0 <? iteration_delay config); exact Hf5.
  - right. exists a. now split.
Qed.

End Discreet.

(** [run] makes at least one iteration and at most
    [max(1, max_iterations)], whatever the collaborators and the
    middlewares do. *)
Theorem run_iterations_bounded :
  forall (U : Type) (config : Config) (perceive : World U -> value)
    (decide : World U -> value -> value)
    (executor : World U -> value -> bool)
    (middlewares : list (PyMiddleware (U := U))) (task : string)
    (w : World U),
    1 <= iterations
           (fst (run config perceive decide executor middlewares task w))
      <= Z.max 1 (max_iterations config).
Proof.
  intros U config perceive decide executor middlewares task w.
  rewrite run_started.
  pose proof (main_loop_bounds config perceive decide executor middlewares
                (passes config) 0 (started config task w)) as H.
  destruct (main_loop _ _ _ _ _ _ _ _) as [iteration w2].
  destruct (tick w2) as [now w3]. cbn [fst iterations] in H |- *.
  apply H. unfold passes. lia.
Qed.

(** A run in which no action succeeds and the brain never asks to stop
    goes on for [max(1, max_iterations)] iterations, under middlewares
    that hand their arguments back. *)
Theorem fruitless_run_uses_every_iteration :
  forall (U : Type) (config : Config) (perceive : World U -> value)
    (decide : World U -> value -> value)
    (executor : World U -> value -> bool)
    (middlewares : list (PyMiddleware (U := U))) (task : string)
    (w : World U),
    Forall well_behaved middlewares ->
    (forall w' a, executor w' a = false) ->
    (forall w' s a, In a (normalize (decide w' s)) -> should_stop a = false) ->
    iterations (fst (run config perceive decide executor middlewares task w))
    = Z.max 1 (max_iterations config).
Proof.
  intros U config perceive decide executor middlewares task w Hq Hfail Hgo.
  rewrite run_started.
  pose proof (main_loop_runs_out config perceive decide executor middlewares
                (passes config) 0 (started config task w)
                (fun w' => step_fruitless steady steady_refl steady_trans
                             middlewares Hq executor perceive decide w'
                             Hfail Hgo)) as H.
  destruct (main_loop _ _ _ _ _ _ _ _) as [iteration w2].
  destruct (tick w2) as [now w3]. cbn [fst iterations] in H |- *.
  apply H; unfold passes; lia.
Qed.

Lemma fruitless_run_uses_every_iteration_witness :
  let cfg := Scenario.config 4 10 in
  iterations
    (fst (run cfg Scenario.sees_screen (Scenario.always Scenario.click11)
            Scenario.fails
            [ThrottlingMiddleware.middleware cfg;
             StateTrackingMiddleware.middleware cfg] "task" Scenario.blank))
  = 4.
Proof.
  cbv zeta.
  apply (fruitless_run_uses_every_iteration unit (Scenario.config 4 10)).
  - apply Forall_cons; [apply throttling_well_behaved|].
    apply Forall_cons; [apply state_tracking_well_behaved|apply Forall_nil].
  - reflexivity.
  - intros w' s a [<-|[]]. reflexivity.
Defined.

(** The executor is never handed [None], a stop action or a list that
    holds a stop action: under middlewares that hand their arguments
    back, every call of a run is for an action that passed both
    checks of the loop body. *)
Theorem executor_gets_no_stop :
  forall (U : Type) (config : Config) (perceive : World U -> value)
    (decide : World U -> value -> value)
    (executor : World U -> value -> bool)
    (middlewares : list (PyMiddleware (U := U))) (task : string)
    (w : World U) (a : value) (t : Z),
    Forall well_behaved middlewares ->
    exec_log w = [] ->
    In (a, t)
      (exec_log
         (snd (run config perceive decide executor middlewares task w))) ->
    Py.is_none a = false /\ should_stop a = false.
Proof.
  intros U config perceive decide executor middlewares task w a t Hq Hlog Hin.
  rewrite run_started in Hin.
  pose proof (main_loop_performable config perceive decide executor
                middlewares Hq (passes config) 0 (started config task w))
    as H.
  destruct (main_loop _ _ _ _ _ _ _ _) as [iteration w2].
  destruct (tick w2) as [now w3] eqn:Htick. cbn [snd] in H, Hin.
  assert (He : exec_log w3 = exec_log w2).
  { unfold tick in Htick. injection Htick as _ <-. reflexivity. }
  rewrite He in Hin.
  assert (H0 : all_performable (started config task w)).
  { unfold all_performable. cbn. rewrite Hlog. constructor. }
  specialize (H H0). unfold all_performable in H.
  rewrite Forall_forall in H. specialize (H _ Hin). cbn [fst] in H.
  unfold performable in H. apply andb_prop in H.
  destruct H as [H1 H2]. split; now apply negb_true_iff.
Qed.

Lemma executor_gets_no_stop_witness :
  let cfg := Scenario.config 3 10 in
  let decision := VList [Scenario.move00; Scenario.stop_done] in
  let out :=
    run cfg Scenario.sees_screen (Scenario.always decision) Scenario.fails
      [ThrottlingMiddleware.middleware cfg;
       StateTrackingMiddleware.middleware cfg] "task" Scenario.blank in
  map fst (exec_log (snd out)) = [Scenario.move00]
  /\ Py.is_none Scenario.move00 = false
  /\ should_stop Scenario.move00 = false.
Proof.
  cbv zeta. split; [vm_compute; reflexivity|].
  apply (executor_gets_no_stop unit (Scenario.config 3 10)
           Scenario.sees_screen
           (Scenario.always (VList [Scenario.move00; Scenario.stop_done]))
           Scenario.fails
           [ThrottlingMiddleware.middleware (Scenario.config 3 10);
            StateTrackingMiddleware.middleware (Scenario.config 3 10)]
           "task" Scenario.blank Scenario.move00 1).
  - apply Forall_cons; [apply throttling_well_behaved|].
    apply Forall_cons; [apply state_tracking_well_behaved|apply Forall_nil].
  - reflexivity.
  - vm_compute. now left.
Defined.

(** A run lasts at least the pauses between its iterations: one
    [iteration_delay] after every iteration but the last, under
    middlewares that do not turn the clock back. *)
Theorem run_lasts_its_pauses :
  forall (U : Type) (config : Config) (perceive : World U -> value)
    (decide : World U -> value -> value)
    (executor : World U -> value -> bool)
    (middlewares : list (PyMiddleware (U := U))) (task : string)
    (w : World U),
    Forall well_behaved middlewares ->
    let summary :=
      fst (run config perceive decide executor middlewares task w) in
    (iterations summary - 1) * Z.max 0 (iteration_delay config)
    <= elapsed_time summary.
Proof.
  intros U config perceive decide executor middlewares task w Hq. cbv zeta.
  rewrite run_started.
  pose proof (main_loop_takes_time config perceive decide executor
                middlewares Hq (passes config) 0 (started config task w))
    as H.
  cbv zeta in H.
  destruct (main_loop _ _ _ _ _ _ _ _) as [iteration w2].
  pose proof (TimingFacts.clock_elapse w2) as Hel.
  unfold tick. cbn [fst snd iterations elapsed_time] in H |- *. lia.
Qed.

Lemma run_lasts_its_pauses_witness :
  let cfg := Scenario.config 3 10 in
  let summary :=
    fst (run cfg Scenario.sees_screen (Scenario.always Scenario.click11)
           Scenario.fails
           [ThrottlingMiddleware.middleware cfg;
            StateTrackingMiddleware.middleware cfg] "task" Scenario.blank) in
  iterations summary = 3 /\ 10 <= elapsed_time summary.
Proof.
  cbv zeta. split; [vm_compute; reflexivity|].
  refine (Z.le_trans _ _ _ _
            (run_lasts_its_pauses unit (Scenario.config 3 10)
               Scenario.sees_screen (Scenario.always Scenario.click11)
               Scenario.fails
               [ThrottlingMiddleware.middleware (Scenario.config 3 10);
                StateTrackingMiddleware.middleware (Scenario.config 3 10)]
               "task" Scenario.blank _)).
  - vm_compute. discriminate.
  - apply Forall_cons; [apply throttling_well_behaved|].
    apply Forall_cons; [apply state_tracking_well_behaved|apply Forall_nil].
Defined.

(** A run ends with its first iteration as soon as the first action of
    that iteration is executed with success: [step] hands back the flag
    that a successful action sets.  This holds for every bound on the
    iterations and under all middlewares that hand their arguments back
    and leave the history list in place. *)
Theorem success_ends_run_at_once :
  forall (U : Type) (config : Config) (perceive : World U -> value)
    (decide : World U -> value -> value)
    (executor : World U -> value -> bool)
    (middlewares : list (PyMiddleware (U := U))) (task : string)
    (w : World U),
    Forall well_behaved middlewares ->
    (forall w' a, executor w' a = true) ->
    (forall w' s, exists a rest,
          normalize (decide w' s) = VDict a :: rest
          /\ should_stop (VDict a) = false) ->
    iterations (fst (run config perceive decide executor middlewares task w))
    = 1.
Proof.
  intros U config perceive decide executor middlewares task w Hq Hok Hfirst.
  rewrite run_started.
  assert (H : fst (main_loop config perceive decide executor middlewares
                     (passes config) 0 (started config task w)) = 1).
  { assert (Hfuel : exists fuel, passes config = S fuel).
    { unfold passes. destruct (Z.to_nat (Z.max 1 (max_iterations config)))
        eqn:Hp; [lia|eauto]. }
    destruct Hfuel as [fuel ->]. cbn [main_loop]. unfold tick at 1.
    match goal with
    | |- context [step _ _ _ _ ?w1] =>
        pose proof (step_ends_on_success perceive decide executor
                      middlewares Hq w1) as Hstep;
        destruct (step perceive decide executor middlewares w1)
          as [stop w2]
    end.
    cbn [fst] in Hstep. rewrite Hstep; [reflexivity| |exact Hok|exact Hfirst].
    eexists. cbn. reflexivity. }
  destruct (main_loop _ _ _ _ _ _ _ _) as [iteration w2].
  destruct (tick w2) as [now w3]. exact H.
Qed.

Lemma success_ends_run_at_once_witness :
  let cfg := Scenario.config 50 10 in
  iterations
    (fst (run cfg Scenario.sees_screen (Scenario.always Scenario.two_clicks)
            Scenario.succeeds
            [ThrottlingMiddleware.middleware cfg;
             StateTrackingMiddleware.middleware cfg] "task" Scenario.blank))
  = 1.
Proof.
  cbv zeta.
  apply (success_ends_run_at_once unit (Scenario.config 50 10)).
  - apply Forall_cons; [apply throttling_well_behaved|].
    apply Forall_cons; [apply state_tracking_well_behaved|apply Forall_nil].
  - reflexivity.
  - intros w' s. do 2 eexists. split; reflexivity.
Defined.

(** Under middlewares that leave the context and the executor alone,
    the history a run returns is the log of what was executed: one entry
    for every call of the executor, in the order of the calls, and after
    them one entry for the stop action, when a stop ended the run. *)
Theorem history_logs_the_executions :
  forall (U : Type) (config : Config) (perceive : World U -> value)
    (decide : World U -> value -> value)
    (executor : World U -> value -> bool)
    (middlewares : list (PyMiddleware (U := U))) (task : string)
    (w : World U),
    Forall discreet middlewares ->
    exec_log w = [] ->
    let out := run config perceive decide executor middlewares task w in
    exists stops,
      recorded_actions (history (fst out))
      = map fst (exec_log (snd out)) ++ stops
      /\ (stops = []
          \/ exists a, stops = [VDict a] /\ should_stop (VDict a) = true).
Proof.
  intros U config perceive decide executor middlewares task w Hq Hlog.
  cbv zeta. rewrite run_started.
  pose proof (main_loop_faithful config perceive decide executor
                middlewares Hq (passes config) 0 (started config task w))
    as H.
  cbv zeta in H.
  destruct (main_loop _ _ _ _ _ _ _ _) as [iteration w2].
  unfold tick. cbn [fst snd history] in H |- *.
  assert (H0 : faithful [] (started config task w)).
  { exists []. cbn. rewrite Hlog. now split. }
  assert (Hread : forall stops,
             faithful stops w2 ->
             recorded_actions
               (Py.get "history" (VList []) (context (elapse w2)))
             = map fst (exec_log (elapse w2)) ++ stops).
  { intros stops (h & Hh & Hmap). unfold Py.get. cbn. rewrite Hh. exact Hmap. }
  destruct (H H0) as [Hf|(a & Hstop & Hf)].
  - exists []. split; [now apply Hread|now left].
  - exists [VDict a]. split; [now apply Hread|]. right. now exists a.
Qed.

Lemma history_logs_the_executions_witness :
  let cfg := Scenario.config 3 10 in
  let decision := VList [Scenario.move00; Scenario.stop_done] in
  let out :=
    run cfg Scenario.sees_screen (Scenario.always decision) Scenario.fails
      [ThrottlingMiddleware.middleware cfg] "task" Scenario.blank in
  exists stops,
    recorded_actions (history (fst out))
    = map fst (exec_log (snd out)) ++ stops
    /\ (stops = []
        \/ exists a, stops = [VDict a] /\ should_stop (VDict a) = true).
Proof.
  cbv zeta.
  apply (history_logs_the_executions unit (Scenario.config 3 10)).
  - apply Forall_cons; [apply HistoryFacts.throttling_discreet|].
    apply Forall_nil.
  - reflexivity.
Defined.

End RunFacts.

Module ExecutionFacts.

Import Pipeline InputExecution.

(** Induction on a value and, for a list, on its elements. *)
Lemma value_nested_ind (P : value -> Prop) :
  P VNone ->
  (forall b, P (VBool b)) ->
  (forall n, P (VNum n)) ->
  (forall s, P (VStr s)) ->
  (forall l, Forall P l -> P (VList l)) ->
  (forall d, P (VDict d)) ->
  forall v, P v.
Proof.
  intros HN HB HZ HS HL HD.
  fix IH 1. intros v. destruct v as [| b | n | s | l | d].
  - exact HN.
  - apply HB.
  - apply HZ.
  - apply HS.
  - apply HL. induction l as [|v l IHl]; constructor; [apply IH|exact IHl].
  - apply HD.
Qed.

Section Controller.

Variable self : Controller.

Lemma execute_nil trace : execute self (VList []) trace = (true, trace).
Proof. reflexivity. Qed.

Lemma execute_cons act l trace :
  execute self (VList (act :: l)) trace
  = let '(suc, trace1) := execute self act trace in
    let '(rest, trace2) := execute self (VList l) trace1 in
    (suc && rest, trace2).
Proof. reflexivity. Qed.

Lemma execute_app l1 l2 trace :
  execute self (VList (l1 ++ l2)) trace
  = let '(b1, trace1) := execute self (VList l1) trace in
    let '(b2, trace2) := execute self (VList l2) trace1 in
    (b1 && b2, trace2).
Proof.
  revert trace. induction l1 as [|act l1 IH]; intros trace.
  - rewrite app_nil_l, execute_nil.
    destruct (execute self (VList l2) trace). reflexivity.
  - rewrite <- app_comm_cons, !execute_cons.
    destruct (execute self act trace) as [suc trace1]. rewrite IH.
    destruct (execute self (VList l1) trace1) as [b1 trace2].
    destruct (execute self (VList l2) trace2) as [b2 trace3].
    now rewrite andb_assoc.
Qed.

Lemma went_through_app trace calls1 calls2 :
  went_through self trace calls1 ->
  went_through self (trace ++ calls1) calls2 ->
  went_through self trace (calls1 ++ calls2).
Proof.
  revert trace. induction calls1 as [|c calls1 IH]; intros trace H1 H2.
  - now rewrite app_nil_r in H2.
  - destruct H1 as [Hc H1]. split; [exact Hc|].
    apply IH; [exact H1|]. now rewrite <- app_assoc.
Qed.

Lemma attempt_spec c trace :
  attempt self c trace = (negb (raises self trace c), trace ++ [c]).
Proof. unfold InputExecution.attempt, gui. now destruct (raises self trace c). Qed.

(** A call that is attempted with success went through. *)
Lemma attempt_true c trace :
  fst (attempt self c trace) = true ->
  snd (attempt self c trace) = trace ++ [c] /\ went_through self trace [c].
Proof.
  rewrite attempt_spec. cbn. intros H. apply negb_true_iff in H.
  now repeat split.
Qed.

Lemma dispatch_true a trace :
  fst (dispatch self a trace) = true ->
  exists calls,
    snd (dispatch self a trace) = trace ++ calls /\ went_through self trace calls.
Proof.
  unfold InputExecution.dispatch.
  assert (Hatt : forall c,
             fst (attempt self c trace) = true ->
             exists calls,
               snd (attempt self c trace) = trace ++ calls
               /\ went_through self trace calls).
  { intros c H. exists [c]. now apply attempt_true. }
  assert (Hno : forall t : list gui_call,
             fst (false, t) = true ->
             exists calls,
               snd (false, t) = trace ++ calls
               /\ went_through self trace calls) by discriminate.
  destruct (Py.eq_str _ "move"); [apply Hatt|].
  destruct (Py.eq_str _ "click").
  { unfold _click_mouse. cbv zeta.
    destruct (negb _ && negb _); [apply Hatt|].
    unfold gui.
    destruct (raises self trace _) eqn:H1; [apply Hno|].
    rewrite attempt_spec. cbn. intros H2. apply negb_true_iff in H2.
    eexists [_; _]. rewrite <- app_assoc. split; [reflexivity|].
    cbn. now repeat split. }
  destruct (Py.eq_str _ "type").
  { unfold _type_text, gui. cbv zeta.
    destruct (raises self trace _) eqn:H1; [apply Hno|].
    cbn. intros _. eexists [_]. split; [reflexivity|]. cbn. now split. }
  destruct (Py.eq_str _ "key").
  { unfold _press_key, gui. cbv zeta.
    destruct (match Py.get "keys" (VList []) a with
              | VStr _ => VList [Py.get "keys" (VList []) a]
              | _ => Py.get "keys" (VList []) a
              end) as [| | | |[|k [|k2 ks]]|[|kv [|kv2 d]]];
      try apply Hno; try apply Hatt.
    destruct (raises self trace _) eqn:H1; [apply Hno|].
    cbn [fst snd]. intros _. eexists [_]. split; [reflexivity|].
    cbn. now split. }
  destruct (Py.eq_str _ "scroll").
  { unfold _scroll. cbv zeta.
    destruct (Py.eq_str _ "down");
      [destruct (neg _); [apply Hatt|apply Hno]|].
    destruct (Py.eq_str _ "up"); [apply Hatt|].
    destruct (Py.eq_str _ "left");
      [destruct (neg _); [apply Hatt|apply Hno]|].
    destruct (Py.eq_str _ "right"); [apply Hatt|apply Hno]. }
  destruct (Py.eq_str _ "stop"); [|apply Hno].
  intros _. exists []. rewrite app_nil_r. now split.
Qed.

Lemma execute_true action :
  forall trace,
    fst (execute self action trace) = true ->
    exists calls,
      snd (execute self action trace) = trace ++ calls
      /\ went_through self trace calls.
Proof.
  induction action as [| b | n | s | l IH | d] using value_nested_ind;
    intros trace; try discriminate.
  - revert trace. induction IH as [|act l Hact _ IHl]; intros trace.
    + intros _. exists []. rewrite app_nil_r. now split.
    + rewrite execute_cons.
      specialize (Hact trace).
      destruct (execute self act trace) as [suc trace1].
      specialize (IHl trace1).
      destruct (execute self (VList l) trace1) as [rest trace2].
      cbn [fst snd] in *. intros H. apply andb_prop in H.
      destruct H as [-> ->].
      destruct (Hact eq_refl) as (calls1 & -> & H1).
      destruct (IHl eq_refl) as (calls2 & -> & H2).
      exists (calls1 ++ calls2). rewrite app_assoc. split; [reflexivity|].
      now apply went_through_app.
  - cbn [InputExecution.execute].
    destruct (negb (InputController.validate (VDict d))); [discriminate|].
    apply dispatch_true.
Qed.

Lemma dispatch_stop a trace :
  Py.lookup "type" a = Some (VStr "stop") ->
  dispatch self a trace = (true, trace).
Proof. intros H. unfold InputExecution.dispatch, Py.get. now rewrite H. Qed.

Lemma execute_invalid action :
  forall trace,
    any_valid action = false -> snd (execute self action trace) = trace.
Proof.
  induction action as [| b | n | s | l IH | d] using value_nested_ind;
    intros trace; try reflexivity.
  - revert trace. induction IH as [|act l Hact _ IHl]; intros trace H.
    + reflexivity.
    + rewrite execute_cons.
      change (any_valid (VList (act :: l)))
        with (any_valid act || any_valid (VList l)) in H.
      apply orb_false_iff in H. destruct H as [H1 H2].
      specialize (Hact trace H1).
      destruct (execute self act trace) as [suc trace1]. cbn [snd] in Hact.
      subst trace1. specialize (IHl trace H2).
      destruct (execute self (VList l) trace) as [rest trace2]. exact IHl.
  - cbn [any_valid InputExecution.execute]. intros ->. reflexivity.
Qed.

End Controller.

(** [execute] on a list of actions attempts every element, in order,
    also after one has failed: the list is gone through from left to
    right, each element is executed from the calls the elements before
    it have made, whatever they answered, and the answer is whether all
    of them succeeded.  So the calls of a list are the calls of its
    first element followed by those of the rest, and an empty list
    succeeds without a call. *)
Theorem execute_attempts_every_element :
  forall (self : Controller) (l : list value) (trace : list gui_call),
    InputExecution.execute self (VList l) trace
    = fold_left
        (fun (done : bool * list gui_call) (act : value) =>
           (fst done && fst (InputExecution.execute self act (snd done)),
            snd (InputExecution.execute self act (snd done))))
        l (true, trace)
    /\ (forall act rest,
          l = act :: rest ->
          snd (InputExecution.execute self (VList l) trace)
          = snd (InputExecution.execute self (VList rest)
                   (snd (InputExecution.execute self act trace)))
          /\ fst (InputExecution.execute self (VList l) trace)
             = fst (InputExecution.execute self act trace)
               && fst (InputExecution.execute self (VList rest)
                         (snd (InputExecution.execute self act trace)))).
Proof.
  intros self l trace. split.
  - assert (H : forall l b trace,
               fold_left
                 (fun (done : bool * list gui_call) (act : value) =>
                    (fst done
                     && fst (InputExecution.execute self act (snd done)),
                     snd (InputExecution.execute self act (snd done))))
                 l (b, trace)
               = (b && fst (InputExecution.execute self (VList l) trace),
                  snd (InputExecution.execute self (VList l) trace))).
    { clear l trace. induction l as [|act l IH]; intros b trace.
      - rewrite execute_nil. cbn. now rewrite andb_true_r.
      - cbn [fold_left fst snd]. rewrite IH, execute_cons.
        destruct (InputExecution.execute self act trace) as [suc trace1].
        cbn [fst snd].
        destruct (InputExecution.execute self (VList l) trace1)
          as [rest trace2].
        cbn [fst snd]. now rewrite andb_assoc. }
    rewrite H. cbn [andb].
    now destruct (InputExecution.execute self (VList l) trace).
  - intros act rest ->. rewrite execute_cons.
    destruct (InputExecution.execute self act trace) as [suc trace1].
    cbn [fst snd].
    destruct (InputExecution.execute self (VList rest) trace1)
      as [ok trace2].
    now split.
Qed.

Lemma execute_attempts_every_element_witness :
  InputExecution.execute calm
    (VList [InputController.move_x10; VStr "click"; Scenario.move00]) []
  = (false, [moveTo (VNum 0) (VNum 0) (VNum 0)])
  /\ snd (InputExecution.execute calm
            (VList [VStr "click"; Scenario.move00; Scenario.move00]) [])
     = snd (InputExecution.execute calm
              (VList [Scenario.move00; Scenario.move00]) []).
Proof.
  split.
  - exact (eq_trans
             (proj1 (execute_attempts_every_element calm
                       [InputController.move_x10; VStr "click";
                        Scenario.move00] []))
             eq_refl).
  - exact (proj1 (proj2 (execute_attempts_every_element calm
                           [VStr "click"; Scenario.move00; Scenario.move00]
                           [])
                    (VStr "click") [Scenario.move00; Scenario.move00]
                    eq_refl)).
Defined.

(** [execute] answers [True] only when every call it made to the device
    returned: a call that raises makes the action, and the list it is
    in, fail. *)
Theorem success_means_every_call_returned :
  forall (self : Controller)
    (action : value) (trace : list gui_call),
    fst (InputExecution.execute self action
           trace) = true ->
    exists calls,
      snd (InputExecution.execute self action
             trace) = trace ++ calls
      /\ InputExecution.went_through self trace calls.
Proof. intros. now apply execute_true. Qed.

Lemma success_means_every_call_returned_witness :
  let batch := VList [Scenario.move00; Scenario.click11] in
  exists calls,
    snd (InputExecution.execute calm batch [])
    = [] ++ calls
    /\ InputExecution.went_through calm [] calls.
Proof.
  cbv zeta.
  apply (success_means_every_call_returned calm
           (VList [Scenario.move00; Scenario.click11]) []).
  reflexivity.
Defined.

(** Nothing that [validate] refuses reaches the device: an action, or a
    list of actions, none of which passes [validate], is executed
    without a single call. *)
Theorem invalid_actions_make_no_call :
  forall (self : Controller)
    (action : value) (trace : list gui_call),
    any_valid action = false ->
    snd (InputExecution.execute self action
           trace) = trace.
Proof. intros. now apply execute_invalid. Qed.

Lemma invalid_actions_make_no_call_witness :
  let batch :=
    VList [InputController.move_x10; VStr "click";
           VList [InputController.scroll_bare]] in
  InputExecution.execute calm batch []
  = (false, []).
Proof.
  cbv zeta.
  pose proof (invalid_actions_make_no_call calm
                (VList [InputController.move_x10; VStr "click";
                        VList [InputController.scroll_bare]]) [] eq_refl)
    as H.
  destruct (InputExecution.execute _ _ _) as [b trace] eqn:He.
  cbn [snd] in H. subst trace. f_equal.
  apply (f_equal fst) in He. exact (eq_sym He).
Defined.

(** A key action: a bare string is pressed as one key, whatever its
    length; an empty list of keys passes [validate] and is refused by
    [_press_key] without a call. *)
Theorem key_action_edges :
  forall (self : Controller)
    (a : dict) (trace : list gui_call),
    Py.lookup "type" a = Some (VStr "key") ->
    (forall s,
        Py.lookup "keys" a = Some (VStr s) ->
        InputExecution.execute self
          (VDict a) trace
        = (negb (raises self trace (press (VStr s))), trace ++ [press (VStr s)]))
    /\ (Py.lookup "keys" a = Some (VList []) ->
        InputController.validate (VDict a) = true
        /\ InputExecution.execute self
             (VDict a) trace = (false, trace)).
Proof.
  intros self a trace Ht.
  assert (Hv : forall keys, Py.lookup "keys" a = Some keys ->
                            InputController.validate (VDict a) = true).
  { intros keys Hk. unfold InputController.validate, Py.get, Py.has_key.
    now rewrite Ht, Hk. }
  split.
  - intros s Hk. cbn [InputExecution.execute]. rewrite (Hv _ Hk).
    cbn [negb]. unfold InputExecution.dispatch, Py.get. rewrite Ht.
    cbn [Py.eq_str String.eqb Ascii.eqb Bool.eqb].
    unfold _press_key, Py.get. rewrite Hk. apply attempt_spec.
  - intros Hk. split; [exact (Hv _ Hk)|].
    cbn [InputExecution.execute]. rewrite (Hv _ Hk).
    cbn [negb]. unfold InputExecution.dispatch, Py.get. rewrite Ht.
    cbn [Py.eq_str String.eqb Ascii.eqb Bool.eqb].
    unfold _press_key, Py.get. now rewrite Hk.
Qed.

Lemma key_action_edges_witness :
  InputExecution.execute calm
    (VDict [("type", VStr "key"); ("keys", VStr "ctrl")]) []
  = (true, [press (VStr "ctrl")])
  /\ InputExecution.execute calm
       InputController.key_empty [] = (false, []).
Proof.
  destruct (key_action_edges calm
              [("type", VStr "key"); ("keys", VStr "ctrl")] [] eq_refl)
    as [H1 _].
  destruct (key_action_edges calm
              [("type", VStr "key"); ("keys", VList [])] [] eq_refl)
    as [_ H2].
  split; [exact (H1 "ctrl" eq_refl)|exact (proj2 (H2 eq_refl))].
Defined.

(** A scroll action that names no direction scrolls down, by one click
    when it names no amount, and its coordinates play no part; a
    direction that is none of the four is refused without a call. *)
Theorem scroll_action_edges :
  forall (self : Controller)
    (a : dict) (trace : list gui_call),
    Py.lookup "type" a = Some (VStr "scroll") ->
    (Py.lookup "direction" a = None ->
     Py.has_key "x" a = true -> Py.has_key "y" a = true ->
     Py.lookup "clicks" a = None ->
     InputExecution.execute self (VDict a)
       trace
     = (negb (raises self trace (scroll (VNum (-1)))),
        trace ++ [scroll (VNum (-1))]))
    /\ (forall direction,
           Py.lookup "direction" a = Some direction ->
           Py.eq_str direction "down" = false ->
           Py.eq_str direction "up" = false ->
           Py.eq_str direction "left" = false ->
           Py.eq_str direction "right" = false ->
           InputExecution.execute self
             (VDict a) trace = (false, trace)).
Proof.
  intros self a trace Ht. split.
  - intros Hd Hx Hy Hc. cbn [InputExecution.execute].
    unfold InputController.validate, Py.get, Py.has_key in *.
    rewrite Ht, Hd. cbn [Py.truthy Py.eq_str String.eqb Ascii.eqb Bool.eqb
                          negb andb orb].
    destruct (Py.lookup "x" a); [|discriminate].
    destruct (Py.lookup "y" a); [|discriminate].
    cbn [negb andb orb].
    unfold InputExecution.dispatch, Py.get. rewrite Ht.
    cbn [Py.eq_str String.eqb Ascii.eqb Bool.eqb].
    unfold _scroll, Py.get. rewrite Hd, Hc.
    cbn [Py.eq_str String.eqb Ascii.eqb Bool.eqb neg Z.opp].
    apply attempt_spec.
  - intros direction Hd H1 H2 H3 H4. cbn [InputExecution.execute].
    unfold InputController.validate, Py.get, Py.has_key.
    rewrite Ht, Hd. cbn [Py.truthy Py.eq_str String.eqb Ascii.eqb Bool.eqb
                          negb andb orb].
    unfold InputExecution.dispatch, Py.get. rewrite Ht.
    cbn [Py.eq_str String.eqb Ascii.eqb Bool.eqb].
    unfold _scroll, Py.get. rewrite Hd, H1, H2, H3, H4. reflexivity.
Qed.

Lemma scroll_action_edges_witness :
  InputExecution.execute calm
    (VDict [("type", VStr "scroll"); ("x", VNum 5); ("y", VNum 7)]) []
  = (true, [scroll (VNum (-1))])
  /\ InputExecution.execute calm
       (VDict [("type", VStr "scroll"); ("direction", VStr "sideways")]) []
     = (false, []).
Proof.
  split.
  - exact (proj1 (scroll_action_edges calm
                    [("type", VStr "scroll"); ("x", VNum 5); ("y", VNum 7)]
                    [] eq_refl) eq_refl eq_refl eq_refl eq_refl).
  - exact (proj2 (scroll_action_edges calm
                    [("type", VStr "scroll");
                     ("direction", VStr "sideways")] [] eq_refl)
             (VStr "sideways") eq_refl eq_refl eq_refl eq_refl eq_refl).
Defined.

End ExecutionFacts.

Module LoggingFacts.

Import Store LoggingMiddleware.
Local Open Scope monad_scope.

Section Logging.

Context {U : Type}.
Variable log_state : bool.
Variable operation_counter : U -> Z.
Variable set_operation_counter : Z -> U -> U.

Ltac later_step :=
  first
    [ apply FrameFacts.later_time_time
    | apply FrameFacts.later_assign
    | FrameFacts.frame_step (FrameFacts.later_refl (U := U))
        (FrameFacts.later_trans (U := U))
    | (intros ?w; unfold later; cbn; repeat split; lia) ].

Ltac hands_step :=
  first
    [ apply FrameFacts.hands_back_ret
    | apply FrameFacts.hands_back_raise
    | apply FrameFacts.hands_back_bind; intro
    | match goal with
      | |- hands_back _ (if ?b then _ else _) => destruct b
      | |- hands_back _ (match ?v with _ => _ end) => destruct v
      end ].

Lemma later_stamp key context :
  frames (U := U) later (stamp key context).
Proof. unfold stamp. repeat later_step. Qed.

Lemma logging_patient :
  patient (middleware log_state operation_counter set_operation_counter).
Proof.
  refine (conj _ (conj _ (conj _ (conj _ (conj _ _)))));
    apply FrameFacts.quiet_call_intro.
  - intros context. unfold phase1. cbn [mw_before_perception middleware].
    unfold process_before_perception. repeat hands_step.
  - intros context. unfold phase1. cbn [mw_before_perception middleware].
    unfold process_before_perception.
    repeat later_step; apply later_stamp.
  - intros [state context]. unfold phase2.
    cbn [fst snd mw_after_perception middleware].
    unfold process_after_perception. repeat hands_step.
  - intros [state context]. unfold phase2.
    cbn [fst snd mw_after_perception middleware].
    unfold process_after_perception. repeat later_step.
  - intros [state context]. unfold phase3.
    cbn [fst snd mw_before_decision middleware].
    unfold process_before_decision. repeat hands_step.
  - intros [state context]. unfold phase3.
    cbn [fst snd mw_before_decision middleware].
    unfold process_before_decision. repeat later_step.
  - intros [[action state] context]. unfold phase4.
    cbn [fst snd mw_after_decision middleware].
    unfold process_after_decision. repeat hands_step.
  - intros [[action state] context]. unfold phase4.
    cbn [fst snd mw_after_decision middleware].
    unfold process_after_decision. repeat later_step.
  - intros [action context]. unfold phase5.
    cbn [fst snd mw_before_execution middleware].
    unfold process_before_execution. repeat hands_step.
  - intros [action context]. unfold phase5.
    cbn [fst snd mw_before_execution middleware].
    unfold process_before_execution.
    repeat later_step; apply later_stamp.
  - intros [[result action] context]. unfold phase6.
    cbn [fst snd mw_after_execution middleware].
    unfold process_after_execution. repeat hands_step.
  - intros [[result action] context]. unfold phase6.
    cbn [fst snd mw_after_execution middleware].
    unfold process_after_execution. repeat later_step.
Qed.

(** What the middleware does to the context it does under
    ["_logging"]: a property of dictionaries that writing there keeps
    is kept by every phase. *)
Section Keeps.

Variable P : dict -> Prop.
Hypothesis P_logging : forall v c, P c -> P (Py.set "_logging" v c).

Lemma kept_refl (w : World U) : kept P w w.
Proof. now intros H. Qed.

Lemma kept_trans (w1 w2 w3 : World U) :
  kept P w1 w2 -> kept P w2 w3 -> kept P w1 w3.
Proof. unfold kept. auto. Qed.

Lemma kept_deref_bind {A} r (k : dict -> M (U := U) A) :
  (forall c, P c -> frames (U := U) (kept P) (k c)) -> frames (U := U) (kept P) (bind (deref r) k).
Proof.
  intros H w Hw. unfold bind, deref. cbn. now apply (H (context w) Hw w).
Qed.

Lemma kept_assign r v c :
  P c -> frames (U := U) (kept P) (assign r (Py.set "_logging" v c)).
Proof. intros Hc w _. now apply P_logging. Qed.

Lemma kept_same_context {A} (m : M (U := U) A) :
  (forall w, context (snd (m w)) = context w) -> frames (U := U) (kept P) m.
Proof. intros H w Hw. now rewrite H. Qed.

Ltac kept_step :=
  first
    [ apply kept_deref_bind; intros ?c ?Hc
    | apply kept_assign; assumption
    | apply kept_same_context; intros ?w; reflexivity
    | FrameFacts.frame_step kept_refl kept_trans ].

Lemma kept_stamp key context : frames (U := U) (kept P) (stamp key context).
Proof. unfold stamp. repeat kept_step. Qed.

Lemma logging_keeps :
  (forall x, frames (U := U) (kept P)
               (phase1 (middleware log_state operation_counter
                          set_operation_counter) x))
  /\ (forall x, frames (U := U) (kept P)
                  (phase2 (middleware log_state
                             operation_counter set_operation_counter) x))
  /\ (forall x, frames (U := U) (kept P)
                  (phase3 (middleware log_state
                             operation_counter set_operation_counter) x))
  /\ (forall x, frames (U := U) (kept P)
                  (phase4 (middleware log_state
                             operation_counter set_operation_counter) x))
  /\ (forall x, frames (U := U) (kept P)
                  (phase5 (middleware log_state
                             operation_counter set_operation_counter) x))
  /\ (forall x, frames (U := U) (kept P)
                  (phase6 (middleware log_state
                             operation_counter set_operation_counter) x)).
Proof.
  refine (conj _ (conj _ (conj _ (conj _ (conj _ _))))).
  - intros context. unfold phase1. cbn [mw_before_perception middleware].
    unfold process_before_perception.
    repeat kept_step; apply kept_stamp.
  - intros [state context]. unfold phase2.
    cbn [fst snd mw_after_perception middleware].
    unfold process_after_perception. repeat kept_step.
  - intros [state context]. unfold phase3.
    cbn [fst snd mw_before_decision middleware].
    unfold process_before_decision. repeat kept_step.
  - intros [[action state] context]. unfold phase4.
    cbn [fst snd mw_after_decision middleware].
    unfold process_after_decision. repeat kept_step.
  - intros [action context]. unfold phase5.
    cbn [fst snd mw_before_execution middleware].
    unfold process_before_execution.
    repeat kept_step; apply kept_stamp.
  - intros [[result action] context]. unfold phase6.
    cbn [fst snd mw_after_execution middleware].
    unfold process_after_execution. repeat kept_step.
Qed.

End Keeps.

Lemma same_but_logging_set c v c' :
  same_but_logging c c' -> same_but_logging c (Py.set "_logging" v c').
Proof.
  intros H k Hk. rewrite PyFacts.lookup_set_other by exact Hk. now apply H.
Qed.

Lemma logging_well_behaved :
  Ledger.well_behaved
    (middleware log_state operation_counter
       set_operation_counter).
Proof.
  apply RunFacts.quiet_both.
  - apply (RunFacts.quiet_weaken later); [|apply logging_patient].
    intros w w' (He & _ & Hc). now split.
  - destruct (logging_keeps Ledger.listed) as (K1 & K2 & K3 & K4 & K5 & K6).
    { intros v c Hc. apply RunFacts.listed_set; [congruence|exact Hc]. }
    now apply (RunFacts.quiet_also later); [apply logging_patient|..].
Qed.

End Logging.

(** The logging middleware changes nothing of what passes through it:
    each of its six phases hands back the very arguments it was given,
    or raises; none touches the log of the executor or the throttle or
    turns the clock back; and of the context they change the entry
    ["_logging"] only. *)
Theorem logging_only_logs :
  forall (U : Type) (log_state : bool)
    (operation_counter : U -> Z) (set_operation_counter : Z -> U -> U),
    let m :=
      middleware log_state operation_counter
        set_operation_counter in
    patient m
    /\ (forall x w,
           same_but_logging (context w) (context (snd (phase1 m x w))))
    /\ (forall x w,
           same_but_logging (context w) (context (snd (phase2 m x w))))
    /\ (forall x w,
           same_but_logging (context w) (context (snd (phase3 m x w))))
    /\ (forall x w,
           same_but_logging (context w) (context (snd (phase4 m x w))))
    /\ (forall x w,
           same_but_logging (context w) (context (snd (phase5 m x w))))
    /\ (forall x w,
           same_but_logging (context w) (context (snd (phase6 m x w)))).
Proof.
  intros U log_state operation_counter set_operation_counter m.
  split; [apply logging_patient|].
  assert (H : forall c,
             let P := same_but_logging c in
             (forall x, frames (kept (U := U) P) (phase1 m x))
             /\ (forall x, frames (kept (U := U) P) (phase2 m x))
             /\ (forall x, frames (kept (U := U) P) (phase3 m x))
             /\ (forall x, frames (kept (U := U) P) (phase4 m x))
             /\ (forall x, frames (kept (U := U) P) (phase5 m x))
             /\ (forall x, frames (kept (U := U) P) (phase6 m x))).
  { intros c. apply logging_keeps. intros v c'. apply same_but_logging_set. }
  refine (conj _ (conj _ (conj _ (conj _ (conj _ _)))));
    intros x w; destruct (H (context w)) as (K1 & K2 & K3 & K4 & K5 & K6);
    [apply K1|apply K2|apply K3|apply K4|apply K5|apply K6];
    intros k Hk; reflexivity.
Qed.

(** With the logging, the throttling and the state-tracking middleware
    registered in this order, any two successive calls of the executor
    in a run are at least as far apart as the delay configured for the
    later action. *)
Theorem logged_run_is_paced :
  forall (U : Type) (cfg : Config) (log_state : bool)
    (operation_counter : U -> Z) (set_operation_counter : Z -> U -> U)
    perceive decide executor task (w : World U) before a1 t1 a2 t2 after d,
    exec_log w = [] ->
    exec_log
      (snd (UIAgent.run cfg perceive decide executor
              [middleware log_state operation_counter
                 set_operation_counter;
               ThrottlingMiddleware.middleware cfg;
               StateTrackingMiddleware.middleware cfg] task w))
    = before ++ (a1, t1) :: (a2, t2) :: after ->
    ThrottlingMiddleware._get_max_delay cfg a2 = Returned d ->
    t1 + d <= t2.
Proof.
  intros U cfg log_state operation_counter set_operation_counter
    perceive decide executor task w before a1 t1 a2 t2 after d Hlog Hshape
    Hd.
  destruct (TimingFacts.paced_run cfg
              [middleware log_state operation_counter
                 set_operation_counter]
              [StateTrackingMiddleware.middleware cfg]
              (Forall_cons _
                 (logging_patient log_state operation_counter
                    set_operation_counter) (Forall_nil _))
              (Forall_cons _ (FrameFacts.state_tracking_patient cfg)
                 (Forall_nil _))
              perceive decide executor task w Hlog) as (Hspaced & _).
  pose proof (TimingFacts.spaced_back_adjacent cfg _ before after a1 t1 a2 t2
                Hspaced Hshape) as Hgap.
  unfold Timing.required_gap in Hgap. now rewrite Hd in Hgap.
Qed.

Lemma logged_run_is_paced_witness :
  let cfg := Scenario.config 3 10 in
  exists t1 t2 after,
    exec_log
      (snd (UIAgent.run cfg Scenario.sees_screen
              (Scenario.always Scenario.two_clicks) Scenario.fails
              [middleware false (fun _ : unit => 0) (fun _ u => u);
               ThrottlingMiddleware.middleware cfg;
               StateTrackingMiddleware.middleware cfg] "task"
              (with_clock 100 [3; 0; 2]%nat Scenario.blank)))
    = (Scenario.click11, t1) :: (Scenario.click11, t2) :: after
    /\ t1 + 1 <= t2.
Proof.
  cbv zeta. do 3 eexists. split; [vm_compute; reflexivity|].
  eapply (logged_run_is_paced unit (Scenario.config 3 10) false
            (fun _ => 0) (fun _ u => u) Scenario.sees_screen
            (Scenario.always Scenario.two_clicks) Scenario.fails "task"
            (with_clock 100 [3; 0; 2]%nat Scenario.blank) []);
    [reflexivity|vm_compute; reflexivity|reflexivity].
Defined.

End LoggingFacts.

Module PromptFacts.

Import Pipeline PromptManager.

Section Manager.

Context {Env : Type}.
Variable os : Environment Env.

Lemma ensure_prompts p (m : Manager Env) :
  prompts (snd (ensure os p m)) = prompts m
  /\ current_prompt (snd (ensure os p m)) = current_prompt m.
Proof.
  unfold ensure. destruct (path_exists os p (env m)); [now split|].
  destruct (makedirs os p (env m)). now split.
Qed.

Lemma ensure_dirs_prompts (m : Manager Env) :
  prompts (snd (_ensure_dirs os m)) = prompts m
  /\ current_prompt (snd (_ensure_dirs os m)) = current_prompt m.
Proof.
  unfold _ensure_dirs.
  destruct (ensure_prompts prompt_dir m) as [H1 H2].
  destruct (ensure os prompt_dir m) as [[[]|] m1]; cbn [snd] in *;
    [|now split].
  destruct (ensure_prompts backup_dir m1) as [H3 H4].
  split; congruence.
Qed.

(** What [save_prompt] does to the prompts in memory. *)
Lemma save_prompt_prompts name content overwrite (m : Manager Env) :
  let out := save_prompt os name content overwrite m in
  current_prompt (snd out) = current_prompt m
  /\ (prompts (snd out) = prompts m
      \/ (fst out = Returned true
          /\ prompts (snd out) = Py.set name content (prompts m))).
Proof.
  cbv zeta. unfold save_prompt.
  destruct (ensure_dirs_prompts m) as [H1 H2].
  destruct (_ensure_dirs os m) as [[[]|] m1]; cbn [snd] in *;
    [|split; [exact H2|now left]].
  destruct (path_exists os (prompt_file name) (env m1) && negb overwrite);
    cbn [env with_env].
  - destruct (write os _ _ _) as [[] e]; cbn.
    + split; [exact H2|]. right. now rewrite H1.
    + split; [exact H2|]. now left.
  - destruct (write os _ _ _) as [[] e]; cbn.
    + split; [exact H2|]. right. now rewrite H1.
    + split; [exact H2|]. now left.
Qed.

Lemma has_key_set_other k k' v d :
  Py.has_key k d = true -> Py.has_key k (Py.set k' v d) = true.
Proof.
  unfold Py.has_key. destruct (String.eqb_spec k k') as [->|Hne].
  - intros _. now rewrite PyFacts.lookup_set_same.
  - now rewrite PyFacts.lookup_set_other.
Qed.

Lemma has_key_del_other k k' d :
  k <> k' -> Py.has_key k (Py.del k' d) = Py.has_key k d.
Proof. intros H. unfold Py.has_key. now rewrite PyFacts.lookup_del_other. Qed.

Lemma has_key_del_same k d : Py.has_key k (Py.del k d) = false.
Proof. unfold Py.has_key. now rewrite PyFacts.lookup_del_same. Qed.

End Manager.

(** Choosing a prompt and reading it back: [set_current_prompt(name)]
    succeeds exactly when [name] is loaded, and then [get_prompt()]
    returns the content of [name]; when it fails, the manager is as it
    was.  For a name that is not loaded, [get_prompt(name)] falls back
    to the default prompt, and to the empty string when there is
    none. *)
Theorem chosen_prompt_is_read_back :
  forall (Env : Type) (name : string) (m : Manager Env),
    (forall content,
        Py.lookup name (prompts m) = Some content ->
        fst (set_current_prompt name m) = Returned true
        /\ get_prompt VNone (snd (set_current_prompt name m))
           = Returned content)
    /\ (Py.lookup name (prompts m) = None ->
        set_current_prompt name m = (Returned false, m)
        /\ get_prompt (VStr name) m
           = Returned (Py.get "default" (VStr "") (prompts m))).
Proof.
  intros Env name m. split.
  - intros content H. unfold set_current_prompt, Py.has_key. rewrite H.
    cbn. now rewrite H.
  - intros H. unfold set_current_prompt, get_prompt, Py.has_key.
    rewrite H. cbn. rewrite H. now split.
Qed.

Lemma chosen_prompt_is_read_back_witness :
  let m := {| prompts := [("default", VStr "d"); ("browser", VStr "b")];
              current_prompt := "default"; env := tt |} in
  get_prompt VNone (snd (set_current_prompt "browser" m))
  = Returned (VStr "b")
  /\ get_prompt (VStr "office") m = Returned (VStr "d").
Proof.
  cbv zeta. split.
  - exact (proj2 (proj1 (chosen_prompt_is_read_back unit "browser"
                           {| prompts := [("default", VStr "d");
                                          ("browser", VStr "b")];
                              current_prompt := "default"; env := tt |})
                    (VStr "b") eq_refl)).
  - exact (proj2 (proj2 (chosen_prompt_is_read_back unit "office"
                           {| prompts := [("default", VStr "d");
                                          ("browser", VStr "b")];
                              current_prompt := "default"; env := tt |})
                    eq_refl)).
Defined.

(** [delete_prompt] never deletes the default prompt; and when it
    returns for another name, that name is no longer loaded, the default
    prompt still is, and the current prompt is a loaded one if it was
    -- it falls back to the default when the prompt deleted was the
    current one.  This holds whatever the file system does. *)
Theorem delete_prompt_keeps_a_prompt :
  forall (Env : Type) (os : Environment Env) (name : string)
    (backup : bool) (m : Manager Env),
    delete_prompt os "default" backup m = (Returned false, m)
    /\ (name <> "default" ->
        forall ok,
          fst (delete_prompt os name backup m) = Returned ok ->
          let m' := snd (delete_prompt os name backup m) in
          Py.has_key name (prompts m') = false
          /\ (grounded m -> grounded m')).
Proof.
  intros Env os name backup m. split; [reflexivity|].
  intros Hname ok Hret. cbv zeta. unfold delete_prompt in *.
  destruct (String.eqb_spec name "default") as [|_]; [contradiction|].
  assert (Hlater : forall (m1 : Manager Env) o,
             (let '(ok, e) := o in
              (@Returned bool ok, with_env e m1)) =
             (Returned (fst o), with_env (snd o) m1)).
  { intros m1 [ok' e]. reflexivity. }
  assert (Hfinal : forall m1 : Manager Env,
             prompts
               (snd (if path_exists os (prompt_file name) (env m1)
                     then
                       let '(ok, e) :=
                         if backup
                         then move os (prompt_file name)
                                (backup_file name (time os (env m1)))
                                (env m1)
                         else remove os (prompt_file name) (env m1) in
                       (Returned ok, with_env e m1)
                     else (Returned true, m1))) = prompts m1
             /\ current_prompt
                  (snd (if path_exists os (prompt_file name) (env m1)
                        then
                          let '(ok, e) :=
                            if backup
                            then move os (prompt_file name)
                                   (backup_file name (time os (env m1)))
                                   (env m1)
                            else remove os (prompt_file name) (env m1) in
                          (Returned ok, with_env e m1)
                        else (Returned true, m1))) = current_prompt m1).
  { intros m1. destruct (path_exists os (prompt_file name) (env m1));
      [|now split].
    rewrite Hlater. now split. }
  destruct (Py.lookup name (prompts m)) as [content|] eqn:Hin.
  - assert (Hsaved : exists o m1,
               (if backup
                then save_prompt os (name ++ "_deleted") content true m
                else (Returned true, m)) = (o, m1)
               /\ current_prompt m1 = current_prompt m
               /\ (prompts m1 = prompts m
                   \/ prompts m1
                      = Py.set (name ++ "_deleted") content (prompts m))).
    { destruct backup.
      - destruct (save_prompt_prompts os (name ++ "_deleted") content true m)
          as [Hc Hp].
        destruct (save_prompt os (name ++ "_deleted") content true m)
          as [o m1]. cbn [fst snd] in *. exists o, m1.
        split; [reflexivity|]. split; [exact Hc|].
        destruct Hp as [Hp|[_ Hp]]; auto.
      - exists (Returned true), m. auto. }
    destruct Hsaved as (o & m1 & Heq & Hc1 & Hp1). rewrite Heq in *.
    destruct o as [b|]; [|discriminate].
    match goal with
    | |- context [if path_exists os (prompt_file name) (env ?m3) then _ else _]
      => destruct (Hfinal m3) as [Hp Hc]; unfold grounded; rewrite Hp, Hc
    end.
    assert (Hdel : prompts
                     (if (current_prompt
                            (with_prompts (Py.del name (prompts m1)) m1)
                          =? name)%string
                      then with_current_prompt "default"
                             (with_prompts (Py.del name (prompts m1)) m1)
                      else with_prompts (Py.del name (prompts m1)) m1)
                   = Py.del name (prompts m1)).
    { destruct (_ =? name)%string; reflexivity. }
    rewrite Hdel. split; [apply has_key_del_same|].
    intros [Hdefault Hcurrent].
    assert (Hd1 : Py.has_key "default" (prompts m1) = true).
    { destruct Hp1 as [-> | ->]; [exact Hdefault|].
      now apply has_key_set_other. }
    assert (Hc1' : Py.has_key (current_prompt m) (prompts m1) = true).
    { destruct Hp1 as [-> | ->]; [exact Hcurrent|].
      now apply has_key_set_other. }
    split.
    + rewrite has_key_del_other by congruence. exact Hd1.
    + cbn [current_prompt with_prompts]. rewrite Hc1.
      destruct (String.eqb_spec (current_prompt m) name) as [Heq'|Hne].
      * cbn. rewrite has_key_del_other by congruence. exact Hd1.
      * cbn. rewrite Hc1. rewrite has_key_del_other by exact Hne.
        exact Hc1'.
  - destruct (Hfinal m) as [Hp Hc]. unfold grounded. rewrite Hp, Hc.
    split; [unfold Py.has_key; now rewrite Hin|auto].
Qed.

Lemma delete_prompt_keeps_a_prompt_witness :
  let os := {| path_exists := fun _ (_ : unit) => false;
               makedirs := fun _ e => (true, e);
               copy2 := fun _ _ e => (true, e);
               move := fun _ _ e => (true, e);
               remove := fun _ e => (true, e);
               write := fun _ _ e => (false, e);
               time := fun _ => 0 |} in
  let m := {| prompts := [("default", VStr "d"); ("browser", VStr "b")];
              current_prompt := "browser"; env := tt |} in
  let m' := snd (delete_prompt os "browser" true m) in
  Py.has_key "browser" (prompts m') = false /\ grounded m'.
Proof.
  cbv zeta.
  match goal with
  | |- context [delete_prompt ?os "browser" true ?m] =>
      destruct (proj2 (delete_prompt_keeps_a_prompt unit os "browser" true m)
                  ltac:(discriminate) true eq_refl) as [H1 H2]
  end.
  split; [exact H1|]. apply H2. split; reflexivity.
Defined.

(** [add_prompt] never replaces a prompt: for a name that is loaded it
    returns [False] and changes nothing; for a new name the prompt is
    in memory afterwards with the content given, also when saving it to
    its file failed and [False] is returned. *)
Theorem add_prompt_never_replaces :
  forall (Env : Type) (os : Environment Env) (name : string)
    (content : value) (save_to_file : bool) (m : Manager Env),
    (Py.has_key name (prompts m) = true ->
     add_prompt os name content save_to_file m = (Returned false, m))
    /\ (Py.has_key name (prompts m) = false ->
        Py.lookup name (prompts (snd (add_prompt os name content
                                        save_to_file m)))
        = Some content).
Proof.
  intros Env os name content save_to_file m. split.
  - intros H. unfold add_prompt. now rewrite H.
  - intros H. unfold add_prompt. rewrite H. cbn [negb].
    destruct save_to_file; [|cbn; apply PyFacts.lookup_set_same].
    destruct (save_prompt_prompts os name content false
                (with_prompts (Py.set name content (prompts m)) m))
      as [_ [Hp|[_ Hp]]]; rewrite Hp; cbn [prompts with_prompts].
    + apply PyFacts.lookup_set_same.
    + apply PyFacts.lookup_set_same.
Qed.

Lemma add_prompt_never_replaces_witness :
  let os := {| path_exists := fun _ (_ : unit) => true;
               makedirs := fun _ e => (true, e);
               copy2 := fun _ _ e => (true, e);
               move := fun _ _ e => (true, e);
               remove := fun _ e => (true, e);
               write := fun _ _ e => (false, e);
               time := fun _ => 0 |} in
  let m := {| prompts := [("default", VStr "d")];
              current_prompt := "default"; env := tt |} in
  fst (add_prompt os "browser" (VStr "b") true m) = Returned false
  /\ Py.lookup "browser"
       (prompts (snd (add_prompt os "browser" (VStr "b") true m)))
     = Some (VStr "b")
  /\ add_prompt os "default" (VStr "x") true m = (Returned false, m).
Proof.
  cbv zeta. split; [reflexivity|]. split.
  - match goal with
    | |- context [add_prompt ?os "browser" ?c true ?m] =>
        exact (proj2 (add_prompt_never_replaces unit os "browser" c true m)
                 eq_refl)
    end.
  - match goal with
    | |- add_prompt ?os "default" ?c true ?m = _ =>
        exact (proj1 (add_prompt_never_replaces unit os "default" c true m)
                 eq_refl)
    end.
Defined.


Section Format.

Variable config : Store.Config.
Variable json_dumps : value -> string.
Variable str : value -> string.
Variable replace : string -> string -> string -> string.

Lemma lines_recorded items :
  forallb recorded_entry items = true ->
  forall i text, exists text', lines json_dumps str i items text = inl text'.
Proof.
  induction items as [|item items IH]; intros H i text; cbn [lines].
  - now exists text.
  - cbn [forallb] in H. apply andb_true_iff in H as [Hitem Hitems].
    assert (Hline : exists l, line json_dumps str i item = inl l).
    { destruct item as [| | | | |it]; try discriminate.
      unfold line, member, Py.has_key, Py.get. cbn in Hitem.
      destruct (Py.lookup "action" it); [|now eexists].
      destruct (Py.lookup "result" it) as [[| | | | |r]|]; try discriminate.
      now eexists. }
    destruct Hline as [[l|] ->]; apply IH; exact Hitems.
Qed.

Lemma forallb_skipn {A} (f : A -> bool) n (l : list A) :
  forallb f l = true -> forallb f (skipn n l) = true.
Proof.
  revert l. induction n as [|n IH]; intros l H; [exact H|].
  destruct l as [|x l]; [reflexivity|]. cbn in H |- *.
  apply andb_true_iff in H as [_ H]. now apply IH.
Qed.

Lemma format_prompt_recorded content context task h :
  Py.lookup "task" context = Some (VStr task) ->
  Py.lookup "history" context = Some (VList h) ->
  forallb recorded_entry h = true ->
  Py.lookup "prompt_vars" context = None ->
  exists prompt,
    format_prompt config json_dumps str replace (VStr content) context
    = inl prompt.
Proof.
  intros Htask Hhistory Hentries Hvars.
  unfold format_prompt, Py.get. rewrite Htask, Hhistory, Hvars.
  assert (Htext : exists text,
             history_text config json_dumps str (VList h) = inl text).
  { unfold history_text. destruct h as [|item h']; [now eexists|].
    cbn [Py.truthy negb]. apply lines_recorded.
    unfold Py.slice_from_neg, Py.last_n.
    destruct (0 <? _); now apply forallb_skipn. }
  destruct Htext as [text ->]. now eexists.
Qed.

Lemma append_assoc (a b c : string) :
  ((a ++ b) ++ c)%string = (a ++ (b ++ c))%string.
Proof. induction a as [|ch a IH]; cbn; [reflexivity|now rewrite IH]. Qed.

Lemma append_empty (a : string) : (a ++ "")%string = a.
Proof. induction a as [|ch a IH]; cbn; [reflexivity|now rewrite IH]. Qed.

Lemma line_complete (i : Z) (item : value) :
  complete_entry item = true ->
  line json_dumps str i item
  = inl (Some (entry_line json_dumps str (i + 1) item)).
Proof.
  destruct item as [| | | | |it]; try discriminate.
  unfold complete_entry, recorded_entry, line, member, entry_line,
    UIAgent.entry_field, Py.has_key, Py.get.
  destruct (Py.lookup "action" it) as [action|]; [|discriminate].
  destruct (Py.lookup "result" it) as [[| | | | |r]|]; try discriminate.
  intros _. cbn [andb]. unfold Py.get.
  destruct (Py.lookup "success" r) as [v|]; reflexivity.
Qed.

Lemma lines_complete (items : list value) :
  forallb complete_entry items = true ->
  forall (k : nat) (text : string),
    lines json_dumps str (Z.of_nat k) items text
    = inl (text
           ++ fold_right String.append ""
                (map (fun p => entry_line json_dumps str (Z.of_nat (fst p))
                                 (snd p))
                   (combine (seq (S k) (length items)) items)))%string.
Proof.
  induction items as [|item items IH]; intros H k text.
  - cbn. now rewrite append_empty.
  - cbn [forallb] in H. apply andb_true_iff in H as [Hitem Hitems].
    cbn [lines]. rewrite (line_complete _ _ Hitem).
    replace (Z.of_nat k + 1) with (Z.of_nat (S k)) by lia.
    rewrite (IH Hitems (S k)). cbn [length seq combine map fold_right fst snd].
    now rewrite append_assoc.
Qed.

Lemma slice_min (m : Z) {A : Type} (l : list A) :
  Py.slice_from_neg (Z.min m (Z.of_nat (length l))) l
  = Py.slice_from_neg m l.
Proof.
  destruct (Z.leb_spec m (Z.of_nat (length l))) as [Hle|Hgt].
  - now rewrite Z.min_l.
  - rewrite Z.min_r by lia. unfold Py.slice_from_neg.
    replace (0 <? m) with true by (symmetry; apply Z.ltb_lt; lia).
    rewrite (PyFacts.last_n_all (Z.to_nat m)) by lia.
    destruct (0 <? Z.of_nat (length l)) eqn:Hpos.
    + apply PyFacts.last_n_all. lia.
    + apply Z.ltb_ge in Hpos. destruct l; [reflexivity|cbn in Hpos; lia].
Qed.

End Format.

Lemma lookup_all_text name d :
  all_text d = true ->
  forall v, Py.lookup name d = Some v -> exists content, v = VStr content.
Proof.
  induction d as [|[k v'] d IH]; intros H v Hv; [discriminate|].
  cbn in H, Hv. apply andb_true_iff in H as [Hk Hd].
  destruct (String.eqb name k).
  - injection Hv as <-. destruct v'; try discriminate. now eexists.
  - now apply IH.
Qed.

Lemma get_prompt_text {Env} name (m : Manager Env) :
  all_text (prompts m) = true ->
  exists content, get_prompt (VStr name) m = Returned (VStr content).
Proof.
  intros H. unfold get_prompt. cbn [Py.is_none].
  destruct (Py.lookup name (prompts m)) as [v|] eqn:Hv.
  - destruct (lookup_all_text name _ H v Hv) as [content ->]. now eexists.
  - unfold Py.get.
    destruct (Py.lookup "default" (prompts m)) as [v|] eqn:Hd;
      [|now eexists].
    destruct (lookup_all_text "default" _ H v Hd) as [content ->].
    now eexists.
Qed.

(** The prompt shows the most recent entries of the history, numbered
    from 1, each with the JSON text of its action and whether it
    succeeded: for a context whose task is a text, whose history holds
    entries with an action and a result dict and which has no custom
    variables, [format_prompt] replaces [{task}] by the task and then
    [{history}] by the lines of the last [max_history] entries, oldest
    first.  With [max_history = 0] the slice [history[-0:]] is the whole
    list, so every entry is shown; a negative [max_history] drops that
    many of the oldest entries instead. *)
Theorem format_prompt_shows_recent_history :
  forall (config : Store.Config) (json_dumps str : value -> string)
    (replace : string -> string -> string -> string)
    (content task : string) (context : dict) (h : list value),
    Py.lookup "task" context = Some (VStr task) ->
    Py.lookup "history" context = Some (VList h) ->
    forallb complete_entry h = true ->
    Py.lookup "prompt_vars" context = None ->
    let recent :=
      if 0 <? Store.max_history config
      then Py.last_n (Z.to_nat (Store.max_history config)) h
      else skipn (Z.to_nat (- Store.max_history config)) h in
    format_prompt config json_dumps str replace (VStr content) context
    = inl (replace (replace content "{task}" task) "{history}"
             (fold_right String.append ""
                (map (fun p => entry_line json_dumps str (Z.of_nat (fst p))
                                 (snd p))
                   (combine (seq 1 (length recent)) recent))))
    /\ (0 < Store.max_history config ->
        Z.of_nat (length recent) <= Store.max_history config
        /\ exists older, h = older ++ recent)
    /\ (Store.max_history config = 0 -> recent = h).
Proof.
  intros config json_dumps str replace content task context h Htask Hhistory
    Hentries Hvars recent.
  split; [|split].
  - unfold format_prompt, Py.get. rewrite Htask, Hhistory, Hvars.
    assert (Htext : history_text config json_dumps str (VList h)
                    = inl (fold_right String.append ""
                             (map (fun p =>
                                     entry_line json_dumps str
                                       (Z.of_nat (fst p)) (snd p))
                                (combine (seq 1 (length recent)) recent)))).
    { unfold history_text. destruct h as [|item h'].
      - subst recent. cbn [Py.truthy negb].
        now destruct (0 <? Store.max_history config);
          [unfold Py.last_n|]; rewrite ?skipn_nil.
      - change (negb (Py.truthy (VList (item :: h')))) with false.
        cbv iota. rewrite slice_min.
        change (Py.slice_from_neg (Store.max_history config) (item :: h'))
          with recent.
        assert (Hrecent : forallb complete_entry recent = true).
        { subst recent. unfold Py.last_n.
          destruct (0 <? _); now apply forallb_skipn. }
        exact (lines_complete json_dumps str recent Hrecent 0 ""). }
    rewrite Htext. reflexivity.
  - intros Hpos. subst recent.
    replace (0 <? Store.max_history config) with true
      by (symmetry; apply Z.ltb_lt; lia).
    split.
    + rewrite PyFacts.last_n_length. lia.
    + apply PyFacts.last_n_suffix.
  - intros Hzero. subst recent. now rewrite Hzero.
Qed.

Lemma format_prompt_shows_recent_history_witness :
  let click :=
    UIAgent.history_item Scenario.click11 (UIAgent.execution_result false 3)
      (VNum 3) in
  let stop :=
    UIAgent.history_item Scenario.stop_done
      (UIAgent.stop_result [("reason", VStr "done")] 4) (VNum 4) in
  let json_dumps (v : value) :=
    if UIAgent.should_stop v then "stop" else "click" in
  let str (v : value) :=
    match v with VNum 1 => "1" | VNum 2 => "2" | _ => "?" end in
  let replace (s old new : string) :=
    if String.eqb old "{history}" then new else s in
  let context := [("history", VList [click; stop]); ("task", VStr "t")] in
  format_prompt (Scenario.config 3 1) json_dumps str replace (VStr "p")
    context
  = inl ("1. stop - 成功" ++ newline)%string
  /\ format_prompt (Scenario.config 3 0) json_dumps str replace (VStr "p")
       context
     = inl ("1. click - 失败" ++ newline ++ "2. stop - 成功" ++ newline)%string.
Proof.
  cbv zeta. split.
  - match goal with
    | |- format_prompt ?cfg ?j ?s ?r (VStr ?c) ?ctx = _ =>
        refine (eq_trans
                  (proj1 (format_prompt_shows_recent_history cfg j s r c "t"
                            ctx _ eq_refl eq_refl eq_refl eq_refl))
                  eq_refl)
    end.
  - match goal with
    | |- format_prompt ?cfg ?j ?s ?r (VStr ?c) ?ctx = _ =>
        refine (eq_trans
                  (proj1 (format_prompt_shows_recent_history cfg j s r c "t"
                            ctx _ eq_refl eq_refl eq_refl eq_refl))
                  eq_refl)
    end.
Defined.

End PromptFacts.

Module BrainFacts.

Import Pipeline PromptManager Brain.

Lemma parse_response_well_formed fenced_block json_loads response :
  LLMDecision.well_formed
    (LLMDecision._parse_response fenced_block json_loads response) = true.
Proof.
  unfold LLMDecision._parse_response.
  destruct response as [r|]; [|reflexivity].
  destruct (String.prefix "API" r); [reflexivity|].
  destruct (fenced_block r) as [json_str|]; [|reflexivity].
  destruct (json_loads json_str) as [action|]; [|reflexivity].
  rewrite DecisionFacts.invalid_format_well_formed.
  destruct (LLMDecision.well_formed action) eqn:H; [exact H|reflexivity].
Qed.

(** [decide] always answers with something the loop of [step] can
    take: an action dict with a type, or a non-empty list that starts
    with one -- whatever the state, the context, the prompts and the
    reply of the model are.  Every failure on the way becomes a stop
    action. *)
Theorem decide_is_always_well_formed :
  forall (Env : Type) (config : Store.Config) (lib : Library)
    (state : value) (context : dict) (self : LLMDecision Env),
    let action := fst (fst (decide config lib state context self)) in
    LLMDecision.well_formed action = true
    /\ exists first rest,
         UIAgent.normalize action = first :: rest
         /\ LLMDecision.tagged first = true.
Proof.
  intros Env config lib state context self. cbv zeta.
  assert (H : LLMDecision.well_formed
                (fst (fst (decide config lib state context self))) = true).
  { unfold decide.
    destruct (negb (Py.truthy state)); [now destruct state|].
    destruct (holds_error state) as [[]|]; [now destruct state| |reflexivity].
    destruct (get_prompt _ _) as [prompt_content|]; [|reflexivity].
    destruct (format_prompt _ _ _ _ _ _); [|reflexivity].
    destruct state; try reflexivity.
    destruct (_call_api lib _ _ self) as [full_response self'].
    cbn [fst]. apply parse_response_well_formed. }
  split; [exact H|].
  destruct (fst (fst (decide _ _ _ _ _))) as [| | | |[|first rest]|d];
    try discriminate; cbn in H |- *.
  - now exists first, rest.
  - now exists (VDict d), [].
Qed.

Lemma decide_invalid {Env} (config : Store.Config) (lib : Library)
    (state : value) (context : dict) (self : LLMDecision Env) :
  Py.truthy state = false \/ holds_error state = Some true ->
  UIAgent.should_stop (fst (fst (decide config lib state context self)))
  = true
  /\ decide config lib state context self
     = (fst (fst (decide config lib state context self)), context, self).
Proof.
  intros H. unfold decide.
  destruct (Py.truthy state) eqn:Ht; cbn [negb].
  - destruct H as [H|H]; [discriminate|]. rewrite H.
    destruct state; now split.
  - destruct state; now split.
Qed.

(** A state that is empty or reports an error is not sent to the model:
    [decide] answers with a stop action at once, sends no request, and
    leaves the context, the request counter and the prompts as they
    were. *)
Theorem invalid_state_stops_without_request :
  forall (Env : Type) (config : Store.Config) (lib : Library)
    (state : value) (context : dict) (self : LLMDecision Env),
    Py.truthy state = false \/ holds_error state = Some true ->
    let out := decide config lib state context self in
    UIAgent.should_stop (fst (fst out)) = true
    /\ snd (fst out) = context
    /\ snd out = self.
Proof.
  intros Env config lib state context self H. cbv zeta.
  destruct (decide_invalid config lib state context self H) as [Hstop ->].
  now repeat split.
Qed.

Lemma invalid_state_stops_without_request_witness :
  let state := VDict [("error", VStr "Failed to capture screen");
                      ("timestamp", VNum 7)] in
  let self := {| api_key := VStr "key";
                 prompt_manager :=
                   {| prompts := [("default", VStr "d")];
                      current_prompt := "default";
                      env := tt |};
                 request_count := 0;
                 requests := [] |} in
  let out := decide (Scenario.config 3 10) silent state [] self in
  UIAgent.should_stop (fst (fst out)) = true /\ requests (snd out) = [].
Proof.
  cbv zeta.
  match goal with
  | |- context [decide ?cfg ?lib ?state ?c ?self] =>
      destruct (invalid_state_stops_without_request unit cfg lib state c
                  self (or_intror eq_refl)) as (H1 & _ & H2)
  end.
  split; [exact H1|now rewrite H2].
Defined.

(** Without an API key no request is sent: for a state the check lets
    through and a prompt that can be formatted, [decide] answers with
    the stop action whose reason is the text [_call_api] returns, and
    records that text in the context. *)
Theorem no_api_key_stops :
  forall (Env : Type) (config : Store.Config) (lib : Library)
    (s : dict) (context : dict) (self : LLMDecision Env)
    prompt_content prompt,
    Py.truthy (VDict s) = true ->
    Py.has_key "error" s = false ->
    Py.truthy (api_key self) = false ->
    get_prompt (Py.get "prompt_name" VNone context) (prompt_manager self)
    = Returned prompt_content ->
    format_prompt config (json_dumps lib) (str lib) (replace lib)
      prompt_content context = inl prompt ->
    let out := decide config lib (VDict s) context self in
    fst (fst out) = LLMDecision.stop_action "API密钥未提供"
    /\ requests (snd out) = requests self
    /\ Py.lookup "_full_model_response" (snd (fst out))
       = Some (VStr "API密钥未提供").
Proof.
  intros Env config lib s context self prompt_content prompt Ht He Hkey Hp
    Hf. cbv zeta.
  unfold decide. rewrite Ht. cbn [negb holds_error member]. rewrite He, Hp, Hf.
  unfold _call_api. rewrite Hkey. cbn [negb fst snd requests].
  split; [reflexivity|]. split; [reflexivity|].
  apply PyFacts.lookup_set_same.
Qed.

Lemma no_api_key_stops_witness :
  let self := {| api_key := VStr EmptyString;
                 prompt_manager :=
                   {| prompts := [("default", VStr "d")];
                      current_prompt := "default";
                      env := tt |};
                 request_count := 0;
                 requests := [] |} in
  fst (fst (decide (Scenario.config 3 10) silent
              (VDict [("screen_width", VNum 1920)]) [] self))
  = LLMDecision.stop_action "API密钥未提供".
Proof.
  cbv zeta.
  match goal with
  | |- context [decide ?cfg ?lib (VDict ?st) ?c ?self] =>
      exact (proj1 (no_api_key_stops unit cfg lib st c self (VStr "d")
                      "d" eq_refl eq_refl eq_refl eq_refl eq_refl))
  end.
Defined.

(** In the setting of the agent -- a state that is a non-empty dict
    without an error, an API key, prompts that are texts, a context
    with the task as a text, a history of recorded entries and no
    custom variables -- [decide] never fails on its own: it sends
    exactly one request, with the formatted prompt and the image of the
    state, counts it, stores the reply under [_full_model_response],
    and answers what [_parse_response] makes of the reply. *)
Theorem decide_asks_once :
  forall (Env : Type) (config : Store.Config) (lib : Library)
    (s : dict) (context : dict) (self : LLMDecision Env)
    (name task : string) (h : list value),
    Py.truthy (VDict s) = true ->
    Py.has_key "error" s = false ->
    Py.truthy (api_key self) = true ->
    all_text (prompts (prompt_manager self)) = true ->
    Py.get "prompt_name" VNone context = VStr name ->
    Py.lookup "task" context = Some (VStr task) ->
    Py.lookup "history" context = Some (VList h) ->
    forallb recorded_entry h = true ->
    Py.lookup "prompt_vars" context = None ->
    exists prompt_content prompt,
      get_prompt (VStr name) (prompt_manager self) = Returned prompt_content
      /\ format_prompt config (json_dumps lib) (str lib) (replace lib)
           prompt_content context = inl prompt
      /\ let out := decide config lib (VDict s) context self in
         let image := Py.get "image" (VStr EmptyString) s in
         let reply := request lib (requests self) prompt image in
         fst (fst out)
         = LLMDecision._parse_response (fenced_block lib) (json_loads lib)
             reply
         /\ snd (fst out)
            = Py.set "_full_model_response" (response_value reply) context
         /\ requests (snd out) = requests self ++ [(prompt, image)]
         /\ request_count (snd out) = request_count self + 1.
Proof.
  intros Env config lib s context self name task h Ht He Hkey Htext Hname
    Htask Hhistory Hentries Hvars.
  destruct (PromptFacts.get_prompt_text name (prompt_manager self) Htext)
    as [content Hcontent].
  destruct (PromptFacts.format_prompt_recorded config (json_dumps lib)
              (str lib) (replace lib) content context task h Htask Hhistory
              Hentries Hvars) as [prompt Hprompt].
  exists (VStr content), prompt. split; [exact Hcontent|].
  split; [exact Hprompt|]. cbv zeta. unfold decide.
  rewrite Ht. cbn [negb holds_error member]. rewrite He, Hname, Hcontent.
  rewrite Hprompt. unfold _call_api. rewrite Hkey. cbn [negb fst snd].
  repeat split.
Qed.

Lemma decide_asks_once_witness :
  let self := {| api_key := VStr "key";
                 prompt_manager :=
                   {| prompts := [("default", VStr "d")];
                      current_prompt := "default";
                      env := tt |};
                 request_count := 0;
                 requests := [] |} in
  let context :=
    [("history",
      VList [UIAgent.history_item Scenario.click11
               (UIAgent.execution_result true 3) (VNum 3)]);
     ("prompt_name", VStr "default");
     ("task", VStr "open the page")] in
  let out :=
    decide (Scenario.config 3 10) silent
      (VDict [("screen_width", VNum 1920)]) context self in
  requests (snd out) = [("d", VStr EmptyString)]
  /\ request_count (snd out) = 1.
Proof.
  cbv zeta.
  match goal with
  | |- context [decide ?cfg ?lib (VDict ?st) ?c ?self] =>
      destruct (decide_asks_once unit cfg lib st c self "default"
                  "open the page"
                  [UIAgent.history_item Scenario.click11
                     (UIAgent.execution_result true 3) (VNum 3)]
                  eq_refl eq_refl eq_refl eq_refl eq_refl eq_refl eq_refl
                  eq_refl eq_refl)
        as (prompt_content & prompt & Hcontent & Hprompt & _ & _ & Hr & Hc)
  end.
  cbv in Hcontent. injection Hcontent as <-.
  cbv in Hprompt. injection Hprompt as <-.
  split; [exact Hr|exact Hc].
Defined.

End BrainFacts.

Module CaptureFacts.

Import Pipeline ScreenCapture.

(** Screenshots are cached for [min_capture_interval]: after a capture
    that took a screenshot, every capture less than the interval later
    returns that same screenshot without a call of [pyautogui]; a
    capture at least the interval later takes a new one.  A capture
    that failed leaves the cache as it was, so the next capture tries
    again. *)
Theorem capture_is_cached :
  forall (Image : Type) (screen : Screen Image) (t1 t2 : Z)
    (self : Capture Image),
    min_capture_interval self <= t1 - last_capture_time self ->
    t1 <= t2 ->
    let self1 := snd (capture screen t1 self) in
    calls self1 = calls self ++ [take_screenshot]
    /\ match fst (capture screen t1 self) with
       | Some image =>
           (t2 - t1 < min_capture_interval self ->
            capture screen t2 self1 = (Some image, self1))
           /\ (min_capture_interval self <= t2 - t1 ->
               calls (snd (capture screen t2 self1))
               = calls self1 ++ [take_screenshot])
       | None =>
           calls (snd (capture screen t2 self1))
           = calls self1 ++ [take_screenshot]
       end.
Proof.
  intros Image screen t1 t2 self Hfresh Hlater. cbv zeta.
  assert (H1 : capture screen t1 self
               = match screenshot screen (calls self) with
                 | Some image =>
                     (Some image,
                      {| min_capture_interval := min_capture_interval self;
                         last_screenshot := Some image;
                         last_capture_time := t1;
                         calls := calls self ++ [take_screenshot] |})
                 | None =>
                     (None,
                      {| min_capture_interval := min_capture_interval self;
                         last_screenshot := last_screenshot self;
                         last_capture_time := last_capture_time self;
                         calls := calls self ++ [take_screenshot] |})
                 end).
  { unfold capture.
    replace (t1 - last_capture_time self <? min_capture_interval self)
      with false by (symmetry; apply Z.ltb_ge; lia).
    reflexivity. }
  rewrite H1. clear H1.
  destruct (screenshot screen (calls self)) as [image|]; cbn [fst snd calls].
  - split; [reflexivity|]. split.
    + intros Hsoon. unfold capture. cbn [last_capture_time
        min_capture_interval last_screenshot].
      replace (t2 - t1 <? min_capture_interval self) with true
        by (symmetry; apply Z.ltb_lt; lia).
      reflexivity.
    + intros Hlate. unfold capture. cbn [last_capture_time
        min_capture_interval last_screenshot calls].
      replace (t2 - t1 <? min_capture_interval self) with false
        by (symmetry; apply Z.ltb_ge; lia).
      now destruct (screenshot screen _).
  - split; [reflexivity|]. unfold capture. cbn [last_capture_time
      min_capture_interval last_screenshot calls].
    replace (t2 - last_capture_time self <? min_capture_interval self)
      with false by (symmetry; apply Z.ltb_ge; lia).
    now destruct (screenshot screen _).
Qed.

Lemma capture_is_cached_witness :
  let screen := {| screenshot := fun calls => Some (length calls);
                   position := fun _ => inl VNone;
                   size := fun _ => (1920, 1080);
                   encode := fun _ => inl "png" |} in
  let self1 := snd (capture screen 100 (init 2)) in
  capture screen 101 self1 = (Some 0%nat, self1)
  /\ calls (snd (capture screen 102 self1))
     = [take_screenshot; take_screenshot].
Proof.
  cbv zeta.
  match goal with
  | |- context [capture ?screen 101 _] =>
      pose proof (capture_is_cached nat screen 100 101 (init 2)
                    ltac:(cbn; lia) ltac:(lia)) as [_ [H1 _]];
      pose proof (capture_is_cached nat screen 100 102 (init 2)
                    ltac:(cbn; lia) ltac:(lia)) as [_ [_ H2]]
  end.
  split; [apply H1; cbn; lia|apply H2; cbn; lia].
Defined.

(** [process] always returns a stamped state that either reports an
    error or holds the image, never both: when no screenshot could be
    taken, encoded, or the cursor be read, the state has an [error] and
    no [image]; otherwise it has the image, the size of the screen and
    the cursor, and no [error].  A state with an error makes [decide]
    answer with a stop action without a request to the model; a state
    without one passes the check of [decide]. *)
Theorem failed_capture_stops_the_agent :
  forall (Image Env : Type) (screen : Screen Image) (current_time timestamp : Z)
    (self : Capture Image) (config : Store.Config) (lib : Brain.Library)
    (context : dict) (brain : Brain.LLMDecision Env),
    let state := fst (process screen current_time timestamp self) in
    Py.lookup "timestamp" state = Some (VNum timestamp)
    /\ Py.has_key "error" state = negb (Py.has_key "image" state)
    /\ (Py.has_key "error" state = true ->
        let out := Brain.decide config lib (VDict state) context brain in
        UIAgent.should_stop (fst (fst out)) = true
        /\ snd (fst out) = context
        /\ snd out = brain)
    /\ (Py.has_key "error" state = false ->
        Py.truthy (VDict state) = true
        /\ Brain.holds_error (VDict state) = Some false
        /\ Py.has_key "screen_width" state = true
        /\ Py.has_key "screen_height" state = true
        /\ Py.has_key "cursor_position" state = true).
Proof.
  intros Image Env screen current_time timestamp self config lib context
    brain. cbv zeta.
  assert (Hshape :
            (exists message,
                fst (process screen current_time timestamp self)
                = failed message timestamp)
            \/ (exists img_str width height cursor_position,
                   fst (process screen current_time timestamp self)
                   = [("image", VStr img_str);
                      ("screen_width", VNum width);
                      ("screen_height", VNum height);
                      ("timestamp", VNum timestamp);
                      ("cursor_position", cursor_position)])).
  { unfold process.
    destruct (capture screen current_time self) as [[image|] self1];
      [|left; now eexists].
    destruct (encode screen image) as [img_str|message];
      [|left; now eexists].
    destruct (size screen image) as [width height].
    destruct (position screen (calls self1)) as [cursor_position|message];
      [right; now repeat eexists|left; now eexists]. }
  destruct Hshape as [[message ->]|(img_str & width & height & p & ->)].
  - split; [reflexivity|]. split; [reflexivity|]. split.
    + intros _.
      destruct (BrainFacts.decide_invalid config lib
                  (VDict (failed message timestamp)) context brain
                  (or_intror eq_refl)) as [Hstop ->].
      now repeat split.
    + discriminate.
  - split; [reflexivity|]. split; [reflexivity|]. split.
    + discriminate.
    + intros _. now repeat split.
Qed.

Lemma failed_capture_stops_the_agent_witness :
  let screen := {| screenshot := fun _ => @None nat;
                   position := fun _ => inl VNone;
                   size := fun _ => (1920, 1080);
                   encode := fun _ => inl "png" |} in
  let brain := {| Brain.api_key := VStr "key";
                  Brain.prompt_manager :=
                    {| PromptManager.prompts := [("default", VStr "d")];
                       PromptManager.current_prompt := "default";
                       PromptManager.env := tt |};
                  Brain.request_count := 0;
                  Brain.requests := [] |} in
  let state := fst (process screen 100 101 (init 2)) in
  let out :=
    Brain.decide (Scenario.config 3 10) Brain.silent (VDict state) [] brain in
  UIAgent.should_stop (fst (fst out)) = true /\ Brain.requests (snd out) = [].
Proof.
  cbv zeta.
  match goal with
  | |- context [Brain.decide ?cfg ?lib (VDict (fst (process ?screen _ _ _)))
                  ?c ?brain] =>
      destruct (failed_capture_stops_the_agent nat unit screen 100 101
                  (init 2) cfg lib c brain) as (_ & _ & H & _);
      destruct (H eq_refl) as (H1 & _ & H2)
  end.
  split; [exact H1|now rewrite H2].
Defined.

End CaptureFacts.

Module StopFacts.

Import ScreenshotLoggerMiddleware.

(** The screenshot logger and the agent agree on what a stop action
    is: [_is_stop_action], written a second time for the middleware,
    answers as [should_stop] does on every value -- a dict whose type
    is ["stop"], or a list that holds such a dict. *)
Theorem logger_and_agent_agree_on_stop :
  forall action : value,
    _is_stop_action action = UIAgent.should_stop action.
Proof.
  intros [| b | n | s | l | d]; try reflexivity.
  cbn [_is_stop_action UIAgent.should_stop].
  induction l as [|a l IH]; [reflexivity|].
  cbn [UIAgent.any_stop UIAgent.stop_item].
  destruct a as [| b | n | s | l' | d]; try exact IH.
  cbn [_is_stop_action]. rewrite IH. unfold UIAgent.stop_item.
  now destruct (Py.eq_str (Py.get "type" VNone d) "stop").
Qed.

End StopFacts.
